(** * Point-of-sale / inventory front end: a shallow embedding

    The development follows the TypeScript pages and hooks of the application
    (and the PHP example endpoint) function by function.

    Conventions of the embedding
    - a JavaScript string is a [string]; [toLowerCase] and [trim] act on the
      ASCII range (letters A-Z, the six ASCII white-space characters);
    - a JavaScript object received as data (the inventory, a brand table) is
      an association list in its enumeration order; [obj_get] is the property
      read [o[k]].  JavaScript objects have unique keys, which is the
      well-formedness predicate [wf_inventory];
    - product quantities and thresholds are whole units ([Z]); prices are
      rationals ([Q]);
    - [null]/[undefined] fields are [option]s. *)

From Stdlib Require Import ZArith QArith List String Ascii Bool Lia Permutation Sorted.
From stdpp Require Import base option list strings gmap pretty.

Open Scope string_scope.
Open Scope list_scope.
Open Scope Z_scope.

(** ** JavaScript string helpers *)

Module Js.

Definition lower_ascii (c : ascii) : ascii :=
  let n := nat_of_ascii c in
  if (Nat.leb 65 n && Nat.leb n 90)%bool then ascii_of_nat (n + 32) else c.

Fixpoint toLowerCase (s : string) : string :=
  match s with
  | EmptyString => EmptyString
  | String c r => String (lower_ascii c) (toLowerCase r)
  end.

Definition is_space (c : ascii) : bool :=
  let n := nat_of_ascii c in
  (Nat.eqb n 32 || (Nat.leb 9 n && Nat.leb n 13))%bool.

Fixpoint trimStart (s : string) : string :=
  match s with
  | EmptyString => EmptyString
  | String c r => if is_space c then trimStart r else s
  end.

(** [trimEnd] drops the trailing white space: a character is kept when it is
    not a space or something is kept after it. *)
Fixpoint trimEnd (s : string) : string :=
  match s with
  | EmptyString => EmptyString
  | String c r =>
      match trimEnd r with
      | EmptyString => if is_space c then EmptyString else String c EmptyString
      | r' => String c r'
      end
  end.

Definition trim (s : string) : string := trimEnd (trimStart s).

(** Truthiness of a string: [""] is the only falsy one. *)
Definition truthy (s : string) : bool := negb (String.eqb s "").

(** [hay.includes(needle)] *)
Fixpoint includes (hay needle : string) : bool :=
  (String.prefix needle hay ||
   match hay with
   | EmptyString => false
   | String _ r => includes r needle
   end)%bool.

(** Property read [o[k]] on an object given by its entries. *)
Fixpoint obj_get {V : Type} (o : list (string * V)) (k : string) : option V :=
  match o with
  | [] => None
  | (k', v) :: r => if String.eqb k' k then Some v else obj_get r k
  end.

(** [Object.keys(o)] / the keys a [for ... in] loop visits. *)
Definition obj_keys {V : Type} (o : list (string * V)) : list string := map fst o.

(** [arr.includes(x)] on an array of strings. *)
Definition arr_includes (l : list string) (x : string) : bool :=
  existsb (String.eqb x) l.

End Js.

(** ** The inventory data model ([src/hooks/useInventory.ts]) *)

Record Product := mkProduct {
  id : string;
  name : string;
  quantity : Z;
  barcode : string;
  imageUrl : string;
  price : Q;
  brand : string;
  description : option string;
  dataAiHint : option string;
  wholesaleQuantityThreshold : option Z;
  wholesalePrice : option Q;
  lowStockThreshold : option Z
}.

(** [InventoryData]: brand name -> products; [Inventory]: POS -> brand table. *)
Definition InventoryData := list (string * list Product).
Definition Inventory := list (string * InventoryData).

(** The keys of a JavaScript object are pairwise distinct. *)
Definition nodup_keysb {V : Type} (o : list (string * V)) : bool :=
  bool_decide (NoDup (Js.obj_keys o)).

Definition wf_inventoryb (inv : Inventory) : bool :=
  (nodup_keysb inv && forallb (fun e => nodup_keysb (snd e)) inv)%bool.

Definition wf_inventory (inv : Inventory) : Prop := wf_inventoryb inv = true.

Module UseInventory.

(** The predicate of the [find] in [getProductDetailsInPos]. *)
Definition matchesIdentifier (identifier : string) (p : Product) : bool :=
  (String.eqb (barcode p) identifier ||
   String.eqb (Js.toLowerCase (name p)) (Js.toLowerCase identifier))%bool.

(** The body of the [for (const brand in inventory[pos])] loop, over the keys
    still to visit. *)
Fixpoint searchBrands (data : InventoryData) (brands : list string)
    (identifier : string) : option Product :=
  match brands with
  | [] => None
  | b :: rest =>
      let products := default [] (Js.obj_get data b) in
      match List.find (matchesIdentifier identifier) products with
      | Some p => Some p
      | None => searchBrands data rest identifier
      end
  end.

Definition getProductDetailsInPos (inventory : Inventory) (pos identifier : string)
    : option Product :=
  match Js.obj_get inventory pos with
  | None => None
  | Some data => searchBrands data (Js.obj_keys data) identifier
  end.

(** The body of [for (const pos in inventory)] in [getProductDetails]; the
    result is the product and the [pos] field added to it. *)
Fixpoint searchPos (inventory : Inventory) (poss : list string) (identifier : string)
    : option (Product * string) :=
  match poss with
  | [] => None
  | pos :: rest =>
      match getProductDetailsInPos inventory pos identifier with
      | Some details => Some (details, pos)
      | None => searchPos inventory rest identifier
      end
  end.

Definition getProductDetails (inventory : Inventory) (identifier : string)
    : option (Product * string) :=
  searchPos inventory (Js.obj_keys inventory) identifier.

End UseInventory.

(** ** [Array.prototype.sort]

    The engine's sort is stable and, for a consistent comparator, returns the
    sorted permutation; it is embedded as the stable insertion sort. *)

Module JsArray.

Section Sort.
Context {A : Type} (le : A -> A -> bool).

Fixpoint insert (x : A) (l : list A) : list A :=
  match l with
  | [] => [x]
  | y :: r => if le x y then x :: y :: r else y :: insert x r
  end.

Definition sort (l : list A) : list A := fold_right insert [] l.
End Sort.

(** [arr.sort()] without comparator, on strings: code-unit order. *)
Definition sortStrings : list string -> list string := sort String.leb.

(** [arr.sort((a, b) => cmp(a, b))]: [a] stays before [b] when [cmp a b <= 0]. *)
Definition sortBy {A : Type} (cmp : A -> A -> Z) : list A -> list A :=
  sort (fun a b => cmp a b <=? 0).

End JsArray.

(** ** Users ([AuthContext]) and the inventory context
       ([src/context/InventoryContext.tsx]) *)

Module Auth.

Record User := mkUser {
  id : string;
  name : string;
  username : string;
  password : option string;
  allowedPOS : list string
}.

Definition mockUsers : list User :=
  [ mkUser "user-0" "Ningun Usuario Seleccionado" "" (Some "") [];
    mkUser "admin-user" "Administrador" "admin" (Some "adminpassword") ["*"];
    mkUser "mainstore-user" "Usuario Tienda Principal" "tienda" (Some "tiendapassword")
      ["Main Store"];
    mkUser "warehouse-user" "Usuario Almacen" "almacen" (Some "almacenpassword")
      ["Warehouse"] ].

End Auth.

Module InventoryContext.

Definition getPointsOfSale (inventory : Inventory) : list string :=
  JsArray.sortStrings (Js.obj_keys inventory).

(** The guard [!currentUser || !currentUser.allowedPOS ||
    currentUser.allowedPOS.length === 0] is the [None] branch and the test
    on the length below ([allowedPOS] is always an array for a [User]). *)
Definition getPointsOfSaleForUser (inventory : Inventory) (currentUser : option Auth.User)
    : list string :=
  let allPos := getPointsOfSale inventory in
  match currentUser with
  | None => []
  | Some u =>
      if Nat.eqb (length (Auth.allowedPOS u)) 0 then []
      else if Js.arr_includes (Auth.allowedPOS u) "*" then allPos
      else List.filter (fun pos => Js.arr_includes (Auth.allowedPOS u) pos) allPos
  end.

(** The [for (const pos of accessiblePOS)] loop of [getProductDetailsForUser];
    the result carries the product (whose [brand] field is copied again) and
    the point of sale. *)
Fixpoint searchAccessible (inventory : Inventory) (accessiblePOS : list string)
    (identifier : string) : option (Product * string) :=
  match accessiblePOS with
  | [] => None
  | pos :: rest =>
      match UseInventory.getProductDetailsInPos inventory pos identifier with
      | Some details => Some (details, pos)
      | None => searchAccessible inventory rest identifier
      end
  end.

Definition getProductDetailsForUser (inventory : Inventory) (currentUser : option Auth.User)
    (identifier : string) : option (Product * string) :=
  match currentUser with
  | None => None
  | Some u =>
      if Nat.eqb (length (Auth.allowedPOS u)) 0 then None
      else
        let accessiblePOS :=
          if Js.arr_includes (Auth.allowedPOS u) "*" then getPointsOfSale inventory
          else Auth.allowedPOS u in
        searchAccessible inventory accessiblePOS identifier
  end.

(** *** The context value

    The object returned by [useInventory] and the [contextValue] object built
    from it, as objects of JavaScript values. *)

Inductive HookFunction :=
  | FnGetPointsOfSale
  | FnGetProductDetails
  | FnGetProductDetailsInPos
  | FnGetPointsOfSaleForUser
  | FnGetProductDetailsForUser.

Inductive JsValue :=
  | VUndefined
  | VNull
  | VBool (b : bool)
  | VString (s : string)
  | VInventory (inv : Inventory)
  | VFunction (f : HookFunction).

(** Member access [o.f]: a missing property reads as [undefined]. *)
Definition member (o : list (string * JsValue)) (f : string) : JsValue :=
  default VUndefined (Js.obj_get o f).

(** The state held by the [useInventory] hook. *)
Record HookState := mkHookState {
  inventory : Inventory;
  isInventoryLoaded : bool;
  error : option string
}.

Definition useInventory (st : HookState) : list (string * JsValue) :=
  [ ("inventory", VInventory (inventory st));
    ("isInventoryLoaded", VBool (isInventoryLoaded st));
    ("error", match error st with Some e => VString e | None => VNull end);
    ("getPointsOfSale", VFunction FnGetPointsOfSale);
    ("getProductDetails", VFunction FnGetProductDetails);
    ("getProductDetailsInPos", VFunction FnGetProductDetailsInPos) ].

Definition contextValue (st : HookState) : list (string * JsValue) :=
  let inventoryHookData := useInventory st in
  [ ("inventory", member inventoryHookData "inventory");
    ("isInventoryLoaded", member inventoryHookData "isInventoryLoaded");
    ("getPointsOfSaleForUser", VFunction FnGetPointsOfSaleForUser);
    ("getAllPointsOfSale", member inventoryHookData "getPointsOfSale");
    ("updateProductQuantity", member inventoryHookData "updateProductQuantity");
    ("addProduct", member inventoryHookData "addProduct");
    ("updateProductPrice", member inventoryHookData "updateProductPrice");
    ("getProductDetailsForUser", VFunction FnGetProductDetailsForUser);
    ("getProductDetailsAnywhere", member inventoryHookData "getProductDetails");
    ("getProductDetailsInPos", member inventoryHookData "getProductDetailsInPos") ].

(** The outcome of a call expression [v(args)]: only a function can be
    called; anything else raises a [TypeError]. *)
Inductive CallOutcome :=
  | Invokes (f : HookFunction)
  | ThrowsTypeError.

Definition call (v : JsValue) : CallOutcome :=
  match v with
  | VFunction f => Invokes f
  | _ => ThrowsTypeError
  end.

(** [useInventoryContext().f(...)] for a consumer under the provider. *)
Definition invokeContextField (st : HookState) (f : string) : CallOutcome :=
  call (member (contextValue st) f).

End InventoryContext.

(** ** Product lookup as the documentation words it

    "The first product of the point of sale that matches", and "the match of
    the first point of sale that contains one", written directly on the
    entries; the code is compared with these. *)

Module LookupSpec.




(** The current user has no ['*'] among the allowed points of sale. *)
Definition noWildcard (currentUser : option Auth.User) : Prop :=
  match currentUser with
  | Some u => ~ In "*" (Auth.allowedPOS u)
  | None => True
  end.

(** [p] is stored under some brand of the point of sale [pos]. *)
Definition productInPos (inventory : Inventory) (pos : string) (p : Product) : Prop :=
  exists data b products,
    Js.obj_get inventory pos = Some data /\
    Js.obj_get data b = Some products /\ In p products.

End LookupSpec.

(** ** Sample data used to run the definitions *)

Module Samples.

Definition shampoo : Product :=
  mkProduct "p1" "Shampoo Liso" 3 "7701" "" (12 # 1) "Loreal" None None None None None.
Definition tinte : Product :=
  mkProduct "p2" "Tinte Rojo" 0 "7702" "" (20 # 1) "Loreal" None None None None (Some 2).
Definition crema : Product :=
  mkProduct "p3" "Crema Rizos" 8 "7703" "" (15 # 1) "Pantene" None None None None (Some 10).
(** Same barcode as [shampoo], kept in the warehouse under another brand. *)
Definition shampooWarehouse : Product :=
  mkProduct "p4" "Shampoo Liso XL" 40 "7701" "" (11 # 1) "Generic" None None None None None.

Definition inventory : Inventory :=
  [ ("Main Store", [ ("Loreal", [shampoo; tinte]); ("Pantene", [crema]) ]);
    ("Warehouse", [ ("Generic", [shampooWarehouse]) ]) ].

(** A comparator standing for [String.prototype.localeCompare] when the
    definitions are run: code-unit order. *)
Definition codeUnitCompare (a b : string) : Z :=
  match String.compare a b with
  | Lt => -1
  | Eq => 0
  | Gt => 1
  end.


(** The users of [mockUsers]. *)
Definition admin : Auth.User :=
  Auth.mkUser "admin-user" "Administrador" "admin" (Some "adminpassword") ["*"].
Definition mainStoreUser : Auth.User :=
  Auth.mkUser "mainstore-user" "Usuario Tienda Principal" "tienda" (Some "tiendapassword")
    ["Main Store"].
Definition warehouseUser : Auth.User :=
  Auth.mkUser "warehouse-user" "Usuario Almacen" "almacen" (Some "almacenpassword")
    ["Warehouse"].
Definition noUser : Auth.User :=
  Auth.mkUser "user-0" "Ningun Usuario Seleccionado" "" (Some "") [].

End Samples.

(** ** Enumeration order of an object built by assignments

    [Object.keys] and [for ... in] list the array-index keys (canonical
    decimal strings below 2^32 - 1) first, in ascending numeric order, and
    then the other string keys in the order they were created. *)

Module JsKeys.

Definition digit_of (c : ascii) : option N :=
  let n := N_of_ascii c in
  if (N.leb 48 n && N.leb n 57)%bool then Some (n - 48)%N else None.

Fixpoint parse_digits (acc : N) (s : string) : option N :=
  match s with
  | EmptyString => Some acc
  | String c r =>
      match digit_of c with
      | Some d => parse_digits (acc * 10 + d)%N r
      | None => None
      end
  end.

(** The value of [s] when [s] is an array index: ["0"], or digits without a
    leading zero, at most 2^32 - 2. *)
Definition arrayIndex (s : string) : option N :=
  match s with
  | EmptyString => None
  | String c r =>
      if (Ascii.eqb c "0" && negb (String.eqb r ""))%bool then None
      else match parse_digits 0 s with
           | Some n => if N.leb n 4294967294 then Some n else None
           | None => None
           end
  end.

Definition isArrayIndex (s : string) : bool :=
  match arrayIndex s with Some _ => true | None => false end.

Definition indexLe (a b : string) : bool :=
  N.leb (default 0%N (arrayIndex a)) (default 0%N (arrayIndex b)).

(** Keys created in the order [created] (all distinct) are enumerated as: *)
Definition enumerationOrder (created : list string) : list string :=
  JsArray.sort indexLe (List.filter isArrayIndex created)
  ++ List.filter (fun k => negb (isArrayIndex k)) created.

End JsKeys.

(** ** The low-stock page ([src/app/low-stock/page.tsx]) *)

Module LowStock.

Definition DEFAULT_LOW_STOCK_THRESHOLD : Z := 5.

(** [LowStockProduct]: the product spread, plus [pointOfSale]. *)
Record LowStockProduct := mkLowStockProduct {
  product : Product;
  pointOfSale : string
}.

Definition threshold (p : Product) : Z :=
  match lowStockThreshold p with
  | Some t => if 0 <? t then t else DEFAULT_LOW_STOCK_THRESHOLD
  | None => DEFAULT_LOW_STOCK_THRESHOLD
  end.

Definition isLowStock (p : Product) : bool :=
  ((0 <? quantity p) && (quantity p <=? threshold p))%bool.

Definition matchesSearch (lowerSearchTerm brand : string) (p : Product) : bool :=
  (String.eqb lowerSearchTerm "" ||
   Js.includes (Js.toLowerCase (name p)) lowerSearchTerm ||
   Js.includes (Js.toLowerCase (barcode p)) lowerSearchTerm ||
   Js.includes (Js.toLowerCase brand) lowerSearchTerm)%bool.

Definition brandKey (brand : string) : string :=
  if Js.truthy brand then brand else "Marca Desconocida".

(** The predicate of the [findIndex]. *)
Definition sameBarcodeAndPos (p : Product) (pos : string) (e : LowStockProduct) : bool :=
  (String.eqb (barcode (product e)) (barcode p) && String.eqb (pointOfSale e) pos)%bool.

(** [groupedProducts] is an object used as a dictionary: its keys are read
    back only through [Object.keys(...).sort()] and a [for ... in] whose
    iterations are independent, so it is a finite map. *)
Abbreviation Grouped := (gmap string (list LowStockProduct)).

(** The body of [products.forEach(product => ...)]. *)
Definition visitProduct (lowerSearchTerm pos brand : string)
    (groupedProducts : Grouped) (p : Product) : Grouped :=
  if (isLowStock p && matchesSearch lowerSearchTerm brand p)%bool then
    let key := brandKey brand in
    let initialised :=
      match groupedProducts !! key with
      | None => <[key := []]> groupedProducts
      | Some _ => groupedProducts
      end in
    let current := default [] (initialised !! key) in
    if existsb (sameBarcodeAndPos p pos) current then initialised
    else <[key := current ++ [mkLowStockProduct p pos]]> initialised
  else groupedProducts.

Definition visitBrand (lowerSearchTerm pos : string)
    (groupedProducts : Grouped) (entry : string * list Product) : Grouped :=
  fold_left (visitProduct lowerSearchTerm pos (fst entry)) (snd entry) groupedProducts.

Definition visitPos (inventory : Inventory) (lowerSearchTerm : string)
    (groupedProducts : Grouped) (pos : string) : Grouped :=
  let posInventory := default [] (Js.obj_get inventory pos) in
  fold_left (visitBrand lowerSearchTerm pos) posInventory groupedProducts.

Definition collect (inventory : Inventory) (accessiblePointsOfSale : list string)
    (searchTerm : string) : Grouped :=
  fold_left (visitPos inventory (Js.toLowerCase searchTerm))
            accessiblePointsOfSale ∅.

Definition byName (localeCompare : string -> string -> Z) (a b : LowStockProduct) : Z :=
  localeCompare (name (product a)) (name (product b)).

(** [lowStockProductsByBrand]: the entries of the returned object in the
    order in which the table enumerates them. *)
Definition lowStockProductsByBrand (localeCompare : string -> string -> Z)
    (inventory : Inventory) (isInventoryLoaded : bool)
    (accessiblePointsOfSale : list string) (searchTerm : string)
    : list (string * list LowStockProduct) :=
  if (negb isInventoryLoaded || Nat.eqb (length accessiblePointsOfSale) 0)%bool then []
  else
    let groupedProducts :=
      JsArray.sortBy (byName localeCompare) <$>
        collect inventory accessiblePointsOfSale searchTerm in
    let sortedBrands := JsArray.sortStrings (map fst (map_to_list groupedProducts)) in
    map (fun brand => (brand, default [] (groupedProducts !! brand)))
        (JsKeys.enumerationOrder sortedBrands).

(** All the rows of the listing. *)
Definition rows (listing : list (string * list LowStockProduct)) : list LowStockProduct :=
  concat (map snd listing).

(** A product [p] stored under [brand] in the point of sale [pos]. *)
Definition stored (inventory : Inventory) (pos brand : string) (p : Product) : Prop :=
  exists data products,
    Js.obj_get inventory pos = Some data /\ In (brand, products) data /\ In p products.



Definition qualifies (lowerSearchTerm : string) (c : string * string * Product) : bool :=
  (isLowStock (snd c) && matchesSearch lowerSearchTerm (snd (fst c)) (snd c))%bool.

Definition visitCandidate (lowerSearchTerm : string) (g : Grouped)
    (c : string * string * Product) : Grouped :=
  visitProduct lowerSearchTerm (fst (fst c)) (snd (fst c)) g (snd c).


End LowStock.

(** ** The sales page ([SalesLogPage], form schema and [onSubmit]) *)

Module SalesLog.

(** The stock of an inventory product (the form item below has a [quantity]
    field of its own). *)
Local Abbreviation stockQuantity := quantity (only parsing).

(** [SaleItemForm], after the coercions of the schema. *)
Record SaleItemForm := mkSaleItemForm {
  identifier : string;
  barcode : string;
  productName : string;
  brandName : string;
  quantity : Z;
  price : Q;
  originalPrice : option Q;
  isKnownProduct : bool;
  stock : Z
}.

Inductive PaymentMethod := cash | card | transfer.

Record SalesFormValues := mkSalesFormValues {
  pointOfSale : string;
  paymentMethod : PaymentMethod;
  items : list SaleItemForm
}.

(** [z.string().min(1)] *)
Definition min1 (s : string) : bool := Nat.leb 1 (String.length s).

Definition saleItemSchema (item : SaleItemForm) : bool :=
  (min1 (barcode item) && min1 (productName item) && min1 (brandName item) &&
   (1 <=? quantity item) && Qle_bool 0 (price item))%bool.

(** The first [refine] of [salesFormSchema]. *)
Definition refineFilled (its : list SaleItemForm) : bool :=
  forallb (fun item =>
    (Js.truthy (barcode item) && negb (String.eqb (Js.trim (barcode item)) "") &&
     Js.truthy (productName item) && negb (String.eqb (Js.trim (productName item)) "") &&
     (0 <? quantity item))%bool) its.

(** The second [refine]: a known product does not exceed the stock cached in
    the form. *)
Definition refineStock (its : list SaleItemForm) : bool :=
  forallb (fun item =>
    if isKnownProduct item then quantity item <=? stock item else true) its.

Definition salesFormSchema (data : SalesFormValues) : bool :=
  (min1 (pointOfSale data) &&
   Nat.leb 1 (length (items data)) && forallb saleItemSchema (items data) &&
   refineFilled (items data) && refineStock (items data))%bool.

Record SalePayloadItem := mkSalePayloadItem {
  pi_barcode : string;
  pi_productName : string;
  pi_brandName : string;
  pi_quantity : Z;
  pi_price : Q
}.

Record SalePayload := mkSalePayload {
  sp_pointOfSale : string;
  sp_paymentMethod : PaymentMethod;
  sp_userId : string;
  sp_userName : string;
  sp_items : list SalePayloadItem;
  sp_totalAmount : Q
}.

(** What a submission does: the toast shown, the [form.setError] call, the
    request sent. *)
Inductive Outcome :=
  | NotSubmitted
      (* the resolver reported errors: [handleSubmit] does not call [onSubmit] *)
  | AccessDenied
      (* toast "Acceso Denegado" *)
  | EmptySale
      (* toast "Venta Vacia" *)
  | InsufficientStock (field : option nat) (message : string)
      (* toast "Stock Insuficiente", and [form.setError] on
         [items.<field>.quantity] when the index was found *)
  | Post (url : string) (payload : SalePayload).

(** [calculateTotalSale]: over all the items of the form. *)
Definition calculateTotalSale (its : list SaleItemForm) : Q :=
  fold_left (fun total item => total + price item * inject_Z (quantity item))%Q its 0%Q.

Definition processable (item : SaleItemForm) : bool :=
  (isKnownProduct item &&
   Js.truthy (barcode item) && negb (String.eqb (Js.trim (barcode item)) "") &&
   Js.truthy (productName item) && negb (String.eqb (Js.trim (productName item)) "") &&
   (0 <? quantity item))%bool.

(** [data.items.findIndex(i => i.barcode === b)] *)
Fixpoint findIndexBarcode (its : list SaleItemForm) (b : string) : option nat :=
  match its with
  | [] => None
  | i :: r => if String.eqb (barcode i) b then Some 0%nat
              else option_map S (findIndexBarcode r b)
  end.

(** The stock validation loop: the first item of [itemsToProcess] that is
    missing from the point of sale or asks for more than is there. *)
Fixpoint checkStock (inventory : Inventory) (pos : string)
    (allItems itemsToProcess : list SaleItemForm) : option Outcome :=
  match itemsToProcess with
  | [] => None
  | item :: rest =>
      let productInStock := UseInventory.getProductDetailsInPos inventory pos (barcode item) in
      let available := match productInStock with
                       | Some p => stockQuantity p
                       | None => 0
                       end in
      if match productInStock with
         | None => true
         | Some p => stockQuantity p <? quantity item
         end
      then Some (InsufficientStock (findIndexBarcode allItems (barcode item))
                   ("Stock: " ++ pretty available)%string)
      else checkStock inventory pos allItems rest
  end.

Definition toPayloadItem (item : SaleItemForm) : SalePayloadItem :=
  mkSalePayloadItem (barcode item) (productName item) (brandName item)
                    (quantity item) (price item).

Definition onSubmit (inventory : Inventory) (currentUser : option Auth.User)
    (data : SalesFormValues) : Outcome :=
  let accessiblePOS := InventoryContext.getPointsOfSaleForUser inventory currentUser in
  let canUserSell := Nat.ltb 0 (length accessiblePOS) in
  match currentUser with
  | None => AccessDenied
  | Some user =>
      if (negb canUserSell || negb (Js.arr_includes accessiblePOS (pointOfSale data)))%bool
      then AccessDenied
      else
        let itemsToProcess := List.filter processable (items data) in
        if Nat.eqb (length itemsToProcess) 0 then EmptySale
        else
          match checkStock inventory (pointOfSale data) (items data) itemsToProcess with
          | Some rejected => rejected
          | None =>
              Post "/api/php/record_sale.php"
                (mkSalePayload (pointOfSale data) (paymentMethod data)
                   (Auth.id user) (Auth.name user)
                   (map toPayloadItem itemsToProcess)
                   (calculateTotalSale (items data)))
          end
  end.

(** [form.handleSubmit(onSubmit)] *)
Definition handleSubmit (inventory : Inventory) (currentUser : option Auth.User)
    (data : SalesFormValues) : Outcome :=
  if salesFormSchema data then onSubmit inventory currentUser data else NotSubmitted.

Definition requestSent (o : Outcome) : bool :=
  match o with Post _ _ => true | _ => false end.




End SalesLog.

Module SalesSamples.

Definition knownShampoo (q : Z) : SalesLog.SaleItemForm :=
  SalesLog.mkSaleItemForm "7701" "7701" "Shampoo Liso" "Loreal" q (12 # 1) (Some (12 # 1)) true 3.

(** An item typed by hand that is not a product of the inventory. *)
Definition unknownItem : SalesLog.SaleItemForm :=
  SalesLog.mkSaleItemForm "9999" "9999" "Peine" "Sin Marca" 1 (2 # 1) None false 0.

Definition sale (its : list SalesLog.SaleItemForm) : SalesLog.SalesFormValues :=
  SalesLog.mkSalesFormValues "Main Store" SalesLog.cash its.

End SalesSamples.

(** ** The suppliers page ([SuppliersPage], form schema and [onSubmit]) *)

Module Suppliers.

Section Form.
(** [z.string().url()] accepts what the [URL] constructor parses; the
    parser belongs to the platform. *)
Variable isUrl : string -> bool.
(** [new Date().toISOString()] at the time of the submission. *)
Variable now : string.

Record SupplierProductForm := mkSupplierProductForm {
  identifier : string;
  barcode : string;
  productName : string;
  brandName : string;
  quantity : Z;
  purchasePrice : Q;
  sellingPrice : option Q;
  imageUrl : option string;
  description : option string;
  aiHint : option string;
  isKnownProduct : bool;
  wholesaleQuantityThreshold : option Z;
  wholesalePrice : option Q;
  lowStockThreshold : option Z
}.

Record SupplierFormValues := mkSupplierFormValues {
  supplierName : string;
  pointOfSale : string;
  products : list SupplierProductForm
}.

Definition min1 (s : string) : bool := Nat.leb 1 (String.length s).

(** An optional, nullable field passes when absent. *)
Definition whenPresent {A : Type} (check : A -> bool) (v : option A) : bool :=
  match v with Some x => check x | None => true end.

Definition positive (q : Q) : bool := negb (Qle_bool q 0).

Definition supplierProductSchema (p : SupplierProductForm) : bool :=
  (min1 (barcode p) && min1 (productName p) && min1 (brandName p) &&
   (1 <=? quantity p) && positive (purchasePrice p) &&
   whenPresent positive (sellingPrice p) &&
   whenPresent (fun u => (isUrl u || String.eqb u ""))%bool (imageUrl p) &&
   whenPresent (fun t => 1 <=? t) (wholesaleQuantityThreshold p) &&
   whenPresent positive (wholesalePrice p) &&
   whenPresent (fun t => 0 <=? t) (lowStockThreshold p))%bool.

(** The [refine] of [supplierFormSchema]. *)
Definition refineFilled (ps : list SupplierProductForm) : bool :=
  forallb (fun item =>
    (Js.truthy (barcode item) && negb (String.eqb (Js.trim (barcode item)) "") &&
     Js.truthy (productName item) && negb (String.eqb (Js.trim (productName item)) "") &&
     Js.truthy (brandName item) && negb (String.eqb (Js.trim (brandName item)) ""))%bool) ps.

Definition supplierFormSchema (data : SupplierFormValues) : bool :=
  (min1 (supplierName data) && min1 (pointOfSale data) &&
   Nat.leb 1 (length (products data)) && forallb supplierProductSchema (products data) &&
   refineFilled (products data))%bool.

Record PayloadProduct := mkPayloadProduct {
  pp_barcode : string;
  pp_productName : string;
  pp_brandName : string;
  pp_quantity : Z;
  pp_purchasePrice : Q;
  pp_sellingPrice : option Q;
  pp_imageUrl : option string;
  pp_description : option string;
  pp_aiHint : option string;
  pp_wholesaleQuantityThreshold : option Z;
  pp_wholesalePrice : option Q;
  pp_lowStockThreshold : option Z;
  pp_isKnownProductInPos : bool;
  pp_currentSellingPriceInPos : option Q
}.

Record EntryPayload := mkEntryPayload {
  ep_supplierName : string;
  ep_pointOfSale : string;
  ep_userId : string;
  ep_userName : string;
  ep_products : list PayloadProduct;
  ep_dateTime : string
}.

Inductive Outcome :=
  | NotSubmitted   (* the resolver reported errors: [onSubmit] is not called *)
  | AccessDenied   (* toast "Acceso Denegado" *)
  | InvalidEntry   (* toast "Entrada Invalida" *)
  | Post (url : string) (payload : EntryPayload).

(** The predicate of the [filter] in [onSubmit]. *)
Definition included (p : SupplierProductForm) : bool :=
  (Js.truthy (barcode p) && Js.truthy (productName p) && Js.truthy (brandName p) &&
   (0 <? quantity p))%bool.

Definition toPayloadProduct (inventory : Inventory) (pos : string)
    (p : SupplierProductForm) : PayloadProduct :=
  let inPos := UseInventory.getProductDetailsInPos inventory pos (barcode p) in
  mkPayloadProduct (barcode p) (productName p) (brandName p) (quantity p)
    (purchasePrice p) (sellingPrice p) (imageUrl p) (description p) (aiHint p)
    (wholesaleQuantityThreshold p) (wholesalePrice p) (lowStockThreshold p)
    (match inPos with Some _ => true | None => false end)
    (option_map price inPos).

Definition onSubmit (inventory : Inventory) (currentUser : option Auth.User)
    (data : SupplierFormValues) : Outcome :=
  let accessiblePOS := InventoryContext.getPointsOfSaleForUser inventory currentUser in
  let canUserAddStock := Nat.ltb 0 (length accessiblePOS) in
  match currentUser with
  | None => AccessDenied
  | Some user =>
      if (negb canUserAddStock ||
          negb (Js.arr_includes accessiblePOS (pointOfSale data)))%bool
      then AccessDenied
      else
        let newEntryPayload :=
          mkEntryPayload (supplierName data) (pointOfSale data)
            (Auth.id user) (Auth.name user)
            (map (toPayloadProduct inventory (pointOfSale data))
                 (List.filter included (products data)))
            now in
        if Nat.eqb (length (ep_products newEntryPayload)) 0 then InvalidEntry
        else Post "/api/php/add_supplier_entry.php" newEntryPayload
  end.

(** [form.handleSubmit(onSubmit)] *)
Definition handleSubmit (inventory : Inventory) (currentUser : option Auth.User)
    (data : SupplierFormValues) : Outcome :=
  if supplierFormSchema data then onSubmit inventory currentUser data else NotSubmitted.

Definition requestSent (o : Outcome) : bool :=
  match o with Post _ _ => true | _ => false end.

End Form.

End Suppliers.

Module SupplierSamples.

Definition acceptAnyUrl (u : string) : bool := true.

Definition line (code brandName : string) (q : Z) : Suppliers.SupplierProductForm :=
  Suppliers.mkSupplierProductForm code code "Acondicionador" brandName q (5 # 1)
    (Some (9 # 1)) None None None false None None None.

Definition entry (pos : string) (ps : list Suppliers.SupplierProductForm)
    : Suppliers.SupplierFormValues :=
  Suppliers.mkSupplierFormValues "Distribuidora Andina" pos ps.

End SupplierSamples.

(** ** Loading the inventory ([fetchInitialInventory] in [useInventory]) *)

Module InventoryLoad.

Definition INVENTORY_API_ENDPOINT : string := "/api/php/get_inventory.php".

(** The outcome of [response.json()]: the promise rejects, or resolves to an
    object, seen through its [message] property (absent or falsy: [None])
    and as an [Inventory]. *)
Inductive JsonResult :=
  | JsonRejected (reason : string)
  | JsonObject (message : option string) (data : Inventory).

Record Response := mkResponse {
  ok : bool;
  status : Z;
  statusText : string;
  json : JsonResult
}.

(** The outcome of [fetch(url)] once it has settled. *)
Inductive FetchResult :=
  | FetchRejected (reason : string)
  | FetchResolved (response : Response).

Record Request := mkRequest {
  method : string;
  url : string
}.

(** [a || b] on strings. *)
Definition orElse (a b : string) : string := if Js.truthy a then a else b.

(** The [try] block: the message of the error thrown, or the inventory. *)
Definition tryBlock (result : FetchResult) : string + Inventory :=
  match result with
  | FetchRejected reason => inl reason
  | FetchResolved response =>
      if negb (ok response) then
        let errorData_message :=
          match json response with
          | JsonRejected _ => ("Error del servidor: " ++ pretty (status response))%string
          | JsonObject (Some m) _ => m
          | JsonObject None _ => ""
          end in
        inl (orElse errorData_message
               ("Error al cargar el inventario: " ++ statusText response)%string)
      else
        match json response with
        | JsonRejected reason => inl reason
        | JsonObject _ data => inr data
        end
  end.

Definition setIsInventoryLoaded (b : bool) (st : InventoryContext.HookState) :=
  InventoryContext.mkHookState (InventoryContext.inventory st) b (InventoryContext.error st).
Definition setError (e : option string) (st : InventoryContext.HookState) :=
  InventoryContext.mkHookState (InventoryContext.inventory st)
    (InventoryContext.isInventoryLoaded st) e.
Definition setInventory (i : Inventory) (st : InventoryContext.HookState) :=
  InventoryContext.mkHookState i (InventoryContext.isInventoryLoaded st)
    (InventoryContext.error st).

(** [fetchInitialInventory], given how the request settles: the requests
    issued and the state once the [finally] block has run. *)
Definition fetchInitialInventory (result : FetchResult) (st : InventoryContext.HookState)
    : list Request * InventoryContext.HookState :=
  let st := setError None (setIsInventoryLoaded false st) in
  let st :=
    match tryBlock result with
    | inr data => setInventory data st
    | inl message =>
        setInventory [] (setError (Some (orElse message "No se pudo cargar el inventario.")) st)
    end in
  ([mkRequest "GET" INVENTORY_API_ENDPOINT], setIsInventoryLoaded true st).

(** The state of [useState] before the effect runs. *)
Definition initialState : InventoryContext.HookState :=
  InventoryContext.mkHookState [] false None.

(** A non-ok response, a body that does not parse, or a rejected [fetch]. *)
Definition failed (result : FetchResult) : Prop :=
  match result with
  | FetchRejected _ => True
  | FetchResolved response =>
      ok response = false \/ exists reason, json response = JsonRejected reason
  end.

End InventoryLoad.

(** ** Browser storage used by the chart, invoices and caja pages

    [localStorage] is a finite map from keys to strings.  Every access a page
    makes is recorded as an event, next to the requests it would send. *)

Module Storage.

Definition SALES_HISTORY_LOCAL_STORAGE_KEY : string := "salesHistory".
Definition WHOLESALE_SALES_HISTORY_LOCAL_STORAGE_KEY : string := "wholesaleSalesHistory".
Definition INVOICES_LOCAL_STORAGE_KEY : string := "invoiceHistoryBeautyApp".
Definition CAJA_SETTINGS_LOCAL_STORAGE_KEY : string := "cajaSettingsBeautyApp".

Inductive IOEvent :=
  | LocalStorageGet (key : string)
  | LocalStorageSet (key value : string)
  | LocalStorageRemove (key : string)
  | NetworkFetch (method url : string).

(** A computation over the storage that logs its events. *)
Definition IO (A : Type) : Type :=
  gmap string string -> A * gmap string string * list IOEvent.

Definition ret {A : Type} (a : A) : IO A := fun ls => (a, ls, []).

Definition bind {A B : Type} (m : IO A) (k : A -> IO B) : IO B :=
  fun ls =>
    let '(a, ls1, e1) := m ls in
    let '(b, ls2, e2) := k a ls1 in
    (b, ls2, e1 ++ e2).

Notation "x <- m ;; k" := (bind m (fun x => k))
  (at level 100, m at next level, right associativity).

Definition getItem (key : string) : IO (option string) :=
  fun ls => (ls !! key, ls, [LocalStorageGet key]).
Definition setItem (key value : string) : IO unit :=
  fun ls => (tt, <[key := value]> ls, [LocalStorageSet key value]).
Definition removeItem (key : string) : IO unit :=
  fun ls => (tt, delete key ls, [LocalStorageRemove key]).

(** [raw ? JSON.parse(raw)... : []] inside [try ... catch { set([]) }]:
    an absent or empty value, or one that does not parse, gives [[]]. *)
Definition parseOrEmpty {A : Type} (parse : string -> option (list A))
    (raw : option string) : list A :=
  match raw with
  | Some s => if Js.truthy s then default [] (parse s) else []
  | None => []
  end.

Section Pages.
(** The records kept in storage and their JSON codecs ([JSON.parse]
    followed by the page's conversion, [None] when it throws;
    [JSON.stringify]). *)
Variables Sale Invoice Settings : Type.
Variable parseSales : string -> option (list Sale).
Variable parseInvoices : string -> option (list Invoice).
Variable stringifyInvoices : list Invoice -> string.
Variable parseSettings : string -> option Settings.
Variable stringifySettings : Settings -> string.
Variable defaultSettings : Settings.

(** *** [GraficaPage]: the effect that loads the chart data *)
Definition graficaLoad (isClient : bool)
    : IO (option (list Sale * list Sale * list Invoice)) :=
  if isClient then
    regularSalesRaw <- getItem SALES_HISTORY_LOCAL_STORAGE_KEY ;;
    wholesaleSalesRaw <- getItem WHOLESALE_SALES_HISTORY_LOCAL_STORAGE_KEY ;;
    invoicesRaw <- getItem INVOICES_LOCAL_STORAGE_KEY ;;
    ret (Some (parseOrEmpty parseSales regularSalesRaw,
               parseOrEmpty parseSales wholesaleSalesRaw,
               parseOrEmpty parseInvoices invoicesRaw))
  else ret None.

(** *** [InvoicesPage]: the mount effect and the save effect.  The first
    returns the invoices to put in the state, if any. *)
Definition invoicesLoad : IO (option (list Invoice)) :=
  storedInvoices <- getItem INVOICES_LOCAL_STORAGE_KEY ;;
  match storedInvoices with
  | Some s =>
      if Js.truthy s then
        match parseInvoices s with
        | Some parsed => ret (Some parsed)
        | None => _ <- removeItem INVOICES_LOCAL_STORAGE_KEY ;; ret None
        end
      else ret None
  | None => ret None
  end.

Definition invoicesSave (isClient : bool) (invoices : list Invoice) : IO unit :=
  if isClient then setItem INVOICES_LOCAL_STORAGE_KEY (stringifyInvoices invoices)
  else ret tt.

(** *** [CajaPage]: [loadSettings], the effect that reads the sales and
    the invoices, and [handleSaveSettings] *)
Definition cajaLoadSettings : IO Settings :=
  storedSettings <- getItem CAJA_SETTINGS_LOCAL_STORAGE_KEY ;;
  match storedSettings with
  | Some s => if Js.truthy s then ret (default defaultSettings (parseSettings s))
              else ret defaultSettings
  | None => ret defaultSettings
  end.

Definition cajaLoadSales (isClient isAdmin : bool)
    : IO (option (list Sale * list Invoice)) :=
  if (isClient && isAdmin)%bool then
    regularSalesData <- getItem SALES_HISTORY_LOCAL_STORAGE_KEY ;;
    wholesaleSalesData <- getItem WHOLESALE_SALES_HISTORY_LOCAL_STORAGE_KEY ;;
    let allSales := parseOrEmpty parseSales regularSalesData
                    ++ parseOrEmpty parseSales wholesaleSalesData in
    invoicesData <- getItem INVOICES_LOCAL_STORAGE_KEY ;;
    ret (Some (allSales, parseOrEmpty parseInvoices invoicesData))
  else ret None.

Definition cajaSaveSettings (isAdmin : bool) (settingsToSave : Settings) : IO unit :=
  if isAdmin then setItem CAJA_SETTINGS_LOCAL_STORAGE_KEY (stringifySettings settingsToSave)
  else ret tt.

(** The accesses of the three pages to these data. *)
Inductive PageAction :=
  | GraficaLoad (isClient : bool)
  | InvoicesLoad
  | InvoicesSave (isClient : bool) (invoices : list Invoice)
  | CajaLoadSettings
  | CajaLoadSales (isClient isAdmin : bool)
  | CajaSaveSettings (isAdmin : bool) (settingsToSave : Settings).

(** The storage after the action and its events. *)
Definition perform (a : PageAction) (ls : gmap string string)
    : gmap string string * list IOEvent :=
  match a with
  | GraficaLoad c => let '(_, ls', e) := graficaLoad c ls in (ls', e)
  | InvoicesLoad => let '(_, ls', e) := invoicesLoad ls in (ls', e)
  | InvoicesSave c i => let '(_, ls', e) := invoicesSave c i ls in (ls', e)
  | CajaLoadSettings => let '(_, ls', e) := cajaLoadSettings ls in (ls', e)
  | CajaLoadSales c a => let '(_, ls', e) := cajaLoadSales c a ls in (ls', e)
  | CajaSaveSettings a s => let '(_, ls', e) := cajaSaveSettings a s ls in (ls', e)
  end.

End Pages.

Definition storageKeys : list string :=
  [ SALES_HISTORY_LOCAL_STORAGE_KEY; WHOLESALE_SALES_HISTORY_LOCAL_STORAGE_KEY;
    INVOICES_LOCAL_STORAGE_KEY; CAJA_SETTINGS_LOCAL_STORAGE_KEY ].

(** The event touches local storage under one of the four keys. *)
Definition localOnly (e : IOEvent) : Prop :=
  match e with
  | LocalStorageGet k | LocalStorageSet k _ | LocalStorageRemove k => In k storageKeys
  | NetworkFetch _ _ => False
  end.

End Storage.

(** ** The chart page ([src/app/grafica/page.tsx])

    A [Date] is its time value in milliseconds since the epoch, [None] for
    an invalid date; the calendar is the proleptic Gregorian one read in UTC
    (the time zone of the browser is taken to be UTC). *)

Module Chart.

Record SaleRecordItem := mkSaleRecordItem {
  barcode : string;
  productName : string;
  brandName : string;
  quantity : Z;
  price : Q
}.

Record SaleRecord := mkSaleRecord {
  id : string;
  dateTime : option Z;
  pointOfSale : string;
  items : list SaleRecordItem;
  paymentMethod : SalesLog.PaymentMethod;
  totalAmount : Q
}.

(** [DateRange] of the day picker. *)
Record DateRange := mkDateRange {
  from : option Z;
  to : option Z
}.

Record ChartDataPoint := mkChartDataPoint {
  date : string;
  sales : Z
}.

(** *** Calendar ([date-fns]) *)

Definition msPerDay : Z := 86400000.

(** The number of the day (days since 1970-01-01) that contains [t]. *)
Definition dayNumber (t : Z) : Z := t / msPerDay.

(** Day of the month and month of the year of a day number. *)
Definition civil (day : Z) : Z * Z :=
  let z := day + 719468 in
  let era := z / 146097 in
  let doe := z - era * 146097 in
  let yoe := (doe - doe / 1460 + doe / 36524 - doe / 146096) / 365 in
  let doy := doe - (365 * yoe + yoe / 4 - yoe / 100) in
  let mp := (5 * doy + 2) / 153 in
  let d := doy - (153 * mp + 2) / 5 + 1 in
  let m := if mp <? 10 then mp + 3 else mp - 9 in
  (d, m).

Definition twoDigits (n : Z) : string :=
  if n <? 10 then ("0" ++ pretty n)%string else pretty n.

(** [format(day, 'dd/MM')] for a day number. *)
Definition formatDay (day : Z) : string :=
  let '(d, m) := civil day in (twoDigits d ++ "/" ++ twoDigits m)%string.

(** [format(date, 'dd/MM', { locale: es })] *)
Definition format_ddMM (t : Z) : string := formatDay (dayNumber t).

(** [eachDayOfInterval({ start, end })]: the day numbers from the day of
    [start] while the start of the day is not after [end]; an interval whose
    start is after its end throws a [RangeError]. *)
Definition eachDayOfInterval (start end_ : Z) : option (list Z) :=
  if end_ <? start then None
  else Some (seqZ (dayNumber start) (dayNumber end_ - dayNumber start + 1)).

(** *** [Map<string, number>]: entries in insertion order *)

Fixpoint map_get (m : list (string * Z)) (k : string) : option Z :=
  match m with
  | [] => None
  | (k', v) :: r => if String.eqb k' k then Some v else map_get r k
  end.

Fixpoint map_set (m : list (string * Z)) (k : string) (v : Z) : list (string * Z) :=
  match m with
  | [] => [(k, v)]
  | (k', v') :: r => if String.eqb k' k then (k', v) :: r else (k', v') :: map_set r k v
  end.

(** *** The comparator of the final [sort] *)

(** [s.split('/')], first two parts. *)
Fixpoint beforeSlash (s : string) : string :=
  match s with
  | EmptyString => EmptyString
  | String c r => if Ascii.eqb c "/" then EmptyString else String c (beforeSlash r)
  end.

Fixpoint afterSlash (s : string) : string :=
  match s with
  | EmptyString => EmptyString
  | String c r => if Ascii.eqb c "/" then r else afterSlash r
  end.

(** [Number(s)] on a string of decimal digits (the labels are nothing else). *)
Definition Number (s : string) : Z :=
  Z.of_N (default 0%N (JsKeys.parse_digits 0 s)).

Definition dayMonth (label : string) : Z * Z :=
  (Number (beforeSlash label), Number (beforeSlash (afterSlash label))).

Definition compareLabels (a b : ChartDataPoint) : Z :=
  let '(dayA, monthA) := dayMonth (date a) in
  let '(dayB, monthB) := dayMonth (date b) in
  if negb (monthA =? monthB) then monthA - monthB else dayA - dayB.

(** *** The effect that computes [productSalesChartData] *)

Inductive EffectResult :=
  | SetData (points : list ChartDataPoint)
  | Throws.

(** The body of [sale.items.forEach]. *)
Definition addItem (selected dayKey : string) (chartDataMap : list (string * Z))
    (item : SaleRecordItem) : list (string * Z) :=
  if String.eqb (barcode item) selected
  then map_set chartDataMap dayKey (default 0 (map_get chartDataMap dayKey) + quantity item)
  else chartDataMap.

(** The body of [combinedSales.forEach]. *)
Definition addSale (selected : string) (startDate endDate : Z)
    (chartDataMap : list (string * Z)) (sale : SaleRecord) : list (string * Z) :=
  match dateTime sale with
  | None => chartDataMap
  | Some saleDate =>
      if ((startDate <=? saleDate) && (saleDate <=? endDate))%bool
      then fold_left (addItem selected (format_ddMM saleDate)) (items sale) chartDataMap
      else chartDataMap
  end.

Definition productSalesChartEffect (selectedProductBarcode : option string)
    (productChartDateRange : option DateRange) (isClient : bool)
    (allSalesData allWholesaleSalesData : list SaleRecord) : EffectResult :=
  match selectedProductBarcode, productChartDateRange with
  | Some selected, Some range =>
      match from range with
      | Some startDate =>
          if (negb (Js.truthy selected) || negb isClient ||
              (Nat.eqb (length allSalesData) 0 &&
               Nat.eqb (length allWholesaleSalesData) 0))%bool
          then SetData []
          else
            let combinedSales := allSalesData ++ allWholesaleSalesData in
            let endDate := default startDate (to range) in
            match eachDayOfInterval startDate endDate with
            | None => Throws
            | Some daysInPeriod =>
                let chartDataMap :=
                  fold_left (fun m day => map_set m (formatDay day) 0) daysInPeriod [] in
                let chartDataMap :=
                  fold_left (addSale selected startDate endDate) combinedSales chartDataMap in
                SetData (JsArray.sortBy compareLabels
                           (map (fun e => mkChartDataPoint (fst e) (snd e)) chartDataMap))
            end
      | None => SetData []
      end
  | _, _ => SetData []
  end.

(** *** The chart as the documentation words it *)





(** *** A check run on the calendar

    Over the years that the month picker offers (2020-01-01 is day 18262,
    2036-01-31 is day 24136), the day and month of every day are a calendar
    day and month, and no two days less than 31 days apart have the same. *)






End Chart.

Module ChartSamples.

(** 2024-01-01T00:00:00.000Z and 2024-01-31T23:59:59.999Z: what the month
    picker gives for January 2024. *)
Definition jan1 : Z := 1704067200000.
Definition jan31End : Z := 1706745599999.
Definition january : Chart.DateRange := Chart.mkDateRange (Some jan1) (Some jan31End).

Definition unit7701 (q : Z) : Chart.SaleRecordItem :=
  Chart.mkSaleRecordItem "7701" "Shampoo Liso" "Loreal" q (12 # 1).
Definition unit7703 (q : Z) : Chart.SaleRecordItem :=
  Chart.mkSaleRecordItem "7703" "Crema Rizos" "Pantene" q (15 # 1).

Definition saleAt (t : option Z) (its : list Chart.SaleRecordItem) : Chart.SaleRecord :=
  Chart.mkSaleRecord "sale" t "Main Store" its SalesLog.cash (0 # 1).

(** Two sales on 3 January, one on 31 January at 23:00, one in February, one
    with a date that did not parse. *)
Definition regularSales : list Chart.SaleRecord :=
  [ saleAt (Some (jan1 + 2 * 86400000 + 36000000)) [unit7701 2; unit7703 1];
    saleAt (Some (jan1 + 30 * 86400000 + 82800000)) [unit7701 4];
    saleAt None [unit7701 100] ].
Definition wholesaleSales : list Chart.SaleRecord :=
  [ saleAt (Some (jan1 + 2 * 86400000 + 50000000)) [unit7701 10];
    saleAt (Some (jan1 + 31 * 86400000)) [unit7701 7] ].


End ChartSamples.

(** ** The supplier-entry endpoint ([src/add_supplier_entry_example.php])

    The tables are finite maps on the columns that the script selects by
    ([products] by barcode, [inventory_stock] by barcode and point of sale)
    and lists for the two logs.  A PDO connection holds the committed state
    of the database and, inside a transaction, the working state that
    [commit] publishes and [rollBack] discards.  Any statement may fail with
    a [PDOException] ([ERRMODE_EXCEPTION]); which ones do is a parameter. *)

Module SupplierEntryPhp.

Record ProductRow := mkProductRow {
  name : string;
  brand_name : string;
  default_selling_price : Q;
  image_url : option string;
  description : option string;
  ai_hint : option string;
  wholesale_quantity_threshold : option Z;
  wholesale_price : option Q;
  default_low_stock_threshold : option Z
}.

Record StockRow := mkStockRow {
  quantity : Z;
  pos_specific_selling_price : option Q;
  pos_specific_low_stock_threshold : option Z
}.

Record SupplierEntryRow := mkSupplierEntryRow {
  se_entry_id : string;
  se_date_time : string;
  se_supplier_name : string;
  se_pos_id : Z;
  se_user_id_internal : option Z;
  se_user_name_at_entry : option string
}.

Record EntryItemRow := mkEntryItemRow {
  ei_entry_id : string;
  ei_product_barcode : string;
  ei_quantity_received : Z;
  ei_purchase_price_per_unit : Q;
  ei_product_description_at_entry : option string;
  ei_old_selling_price_at_entry : option Q;
  ei_new_selling_price_at_entry : option Q;
  ei_wholesale_quantity_threshold_at_entry : option Z;
  ei_wholesale_price_at_entry : option Q;
  ei_low_stock_threshold_at_entry : option Z
}.

(** Modelled from the spec: the SQL schema is not among the sources; the
    columns are those that the statements of the script name, and barcodes
    (and barcode, point-of-sale pairs of the stock) are unique, as the
    specification leaves to the schema. *)
Record Database := mkDatabase {
  points_of_sale : gmap string Z;
  users : gmap string Z;
  supplier_entries : list SupplierEntryRow;
  products : gmap string ProductRow;
  supplier_entry_items : list EntryItemRow;
  inventory_stock : gmap (string * Z) StockRow
}.

Record Pdo := mkPdo {
  committed : Database;
  working : Database;
  inTransaction : bool;
  executed : nat
}.

Definition connect (db : Database) : Pdo := mkPdo db db false 0.

Definition beginTransaction (pdo : Pdo) : Pdo :=
  mkPdo (committed pdo) (committed pdo) true (executed pdo).
Definition commit (pdo : Pdo) : Pdo :=
  mkPdo (working pdo) (working pdo) false (executed pdo).
Definition rollBack (pdo : Pdo) : Pdo :=
  mkPdo (committed pdo) (committed pdo) false (executed pdo).

(** The request body, after [json_decode]. *)
Record ProductData := mkProductData {
  pd_barcode : string;
  pd_productName : string;
  pd_brandName : string;
  pd_quantity : option Z;
  pd_purchasePrice : option Q;
  pd_sellingPrice : option Q;
  pd_imageUrl : option string;
  pd_description : option string;
  pd_aiHint : option string;
  pd_wholesaleQuantityThreshold : option Z;
  pd_wholesalePrice : option Q;
  pd_lowStockThreshold : option Z
}.

Record InputData := mkInputData {
  in_supplierName : string;
  in_pointOfSale : string;
  in_userId : string;
  in_userName : option string;
  in_products : list ProductData
}.

Record ProcessedProduct := mkProcessedProduct {
  out_barcode : string;
  out_quantity : Z;
  out_oldSellingPrice : option Q;
  out_newSellingPrice : option Q
}.

Inductive ResponseBody :=
  | ErrorBody (error : string)
  | EntryBody (id dateTime : string) (products : list ProcessedProduct).

Record Response := mkResponse {
  status : Z;
  body : ResponseBody
}.

(** PHP's [empty] on a string: [""] and ["0"]. *)
Definition php_empty (s : string) : bool := (String.eqb s "" || String.eqb s "0")%bool.

(** PHP's [trim]: space, tab, line feed, carriage return, NUL, vertical tab. *)
Definition php_space (c : ascii) : bool :=
  let n := nat_of_ascii c in
  (Nat.eqb n 32 || Nat.eqb n 9 || Nat.eqb n 10 || Nat.eqb n 13 || Nat.eqb n 0 ||
   Nat.eqb n 11)%bool.

Fixpoint php_ltrim (s : string) : string :=
  match s with
  | EmptyString => EmptyString
  | String c r => if php_space c then php_ltrim r else s
  end.

Fixpoint php_rtrim (s : string) : string :=
  match s with
  | EmptyString => EmptyString
  | String c r =>
      match php_rtrim r with
      | EmptyString => if php_space c then EmptyString else String c EmptyString
      | r' => String c r'
      end
  end.

Definition php_trim (s : string) : string := php_rtrim (php_ltrim s).

(** A column keeps its value unless the payload provides one. *)
Definition providedOr {A : Type} (payload old : option A) : option A :=
  match payload with
  | Some _ => payload
  | None => old
  end.

(** [$a ?? $b] *)
Definition coalesce {A : Type} (a : option A) (b : A) : A := default b a.

Definition differs_string (new : option string) (old : option string) : bool :=
  match new with
  | Some n => negb (bool_decide (Some n = old))
  | None => false
  end.
Definition differs_Z (new : option Z) (old : option Z) : bool :=
  match new with
  | Some n => match old with Some o => negb (n =? o) | None => true end
  | None => false
  end.
Definition differs_Q (new : option Q) (old : option Q) : bool :=
  match new with
  | Some n => match old with Some o => negb (Qeq_bool n o) | None => true end
  | None => false
  end.

Section Script.
(** The statement with this number (in order of execution) fails. *)
Variable fails : nat -> bool.
(** ['supplier-' . time() . '-' . bin2hex(random_bytes(4))] and
    [date('Y-m-d H:i:s')] at the time of the request. *)
Variable entry_id : string.
Variable date_time : string.

(** Code that runs against the connection and may throw. *)
Definition M (A : Type) : Type := Pdo -> (string + A) * Pdo.

Definition ret {A : Type} (a : A) : M A := fun pdo => (inr a, pdo).
Definition throw {A : Type} (message : string) : M A := fun pdo => (inl message, pdo).
Definition bind {A B : Type} (m : M A) (k : A -> M B) : M B :=
  fun pdo =>
    match m pdo with
    | (inl e, pdo') => (inl e, pdo')
    | (inr a, pdo') => k a pdo'
    end.

Notation "x <- m ;; k" := (bind m (fun x => k))
  (at level 100, m at next level, right associativity).

(** [$stmt->execute()] of a statement that reads and writes the database;
    outside a transaction a write is committed at once. *)
Definition execute {A : Type} (statement : Database -> A * Database) : M A :=
  fun pdo =>
    let pdo1 := mkPdo (committed pdo) (working pdo) (inTransaction pdo)
                      (S (executed pdo)) in
    if fails (executed pdo) then (inl "SQLSTATE", pdo1)
    else
      let '(a, db) := statement (working pdo) in
      (inr a, mkPdo (if inTransaction pdo then committed pdo else db) db
                    (inTransaction pdo) (S (executed pdo))).

Definition select {A : Type} (q : Database -> A) : M A :=
  execute (fun db => (q db, db)).
Definition update (f : Database -> Database) : M unit :=
  execute (fun db => (tt, f db)).

Fixpoint forEach {A B : Type} (f : A -> M B) (l : list A) : M (list B) :=
  match l with
  | [] => ret []
  | x :: r => y <- f x ;; ys <- forEach f r ;; ret (y :: ys)
  end.

Definition set_products (f : gmap string ProductRow -> gmap string ProductRow)
    (db : Database) : Database :=
  mkDatabase (points_of_sale db) (users db) (supplier_entries db) (f (products db))
    (supplier_entry_items db) (inventory_stock db).
Definition set_stock
    (f : gmap (string * Z) StockRow -> gmap (string * Z) StockRow)
    (db : Database) : Database :=
  mkDatabase (points_of_sale db) (users db) (supplier_entries db) (products db)
    (supplier_entry_items db) (f (inventory_stock db)).
Definition add_entry (row : SupplierEntryRow) (db : Database) : Database :=
  mkDatabase (points_of_sale db) (users db) (supplier_entries db ++ [row]) (products db)
    (supplier_entry_items db) (inventory_stock db).
Definition add_item (row : EntryItemRow) (db : Database) : Database :=
  mkDatabase (points_of_sale db) (users db) (supplier_entries db) (products db)
    (supplier_entry_items db ++ [row]) (inventory_stock db).

(** The check at the head of the product loop. *)
Definition invalidProduct (product_data : ProductData) : bool :=
  (php_empty (pd_barcode product_data) || php_empty (pd_productName product_data) ||
   php_empty (pd_brandName product_data) ||
   match pd_quantity product_data with Some q => q <=? 0 | None => true end ||
   match pd_purchasePrice product_data with Some p => Qle_bool p 0 | None => true end)%bool.

Definition markup (purchase_price : Q) : Q := (purchase_price * (3 # 2))%Q.

(** Step 4, for one product of the payload. *)
Definition processProduct (pos_id : Z) (product_data : ProductData) : M ProcessedProduct :=
  if invalidProduct product_data then
    throw ("Datos de producto invalidos para el codigo de barras: "
           ++ pd_barcode product_data)%string
  else
    let barcode := php_trim (pd_barcode product_data) in
    let product_name := php_trim (pd_productName product_data) in
    let brand_name_payload := php_trim (pd_brandName product_data) in
    let quantity_received := default 0 (pd_quantity product_data) in
    let purchase_price := default 0%Q (pd_purchasePrice product_data) in
    let selling_price_payload := pd_sellingPrice product_data in
    let image_url_payload := option_map php_trim (pd_imageUrl product_data) in
    let description_payload := option_map php_trim (pd_description product_data) in
    let ai_hint_payload := option_map php_trim (pd_aiHint product_data) in
    let wholesale_threshold_payload := pd_wholesaleQuantityThreshold product_data in
    let wholesale_price_payload := pd_wholesalePrice product_data in
    let low_stock_threshold_payload := pd_lowStockThreshold product_data in
    (* a. products *)
    existing_product <- select (fun db => products db !! barcode) ;;
    _ <- match existing_product with
         | None =>
             update (set_products (insert barcode
               (mkProductRow product_name brand_name_payload
                  (coalesce selling_price_payload (markup purchase_price))
                  image_url_payload description_payload ai_hint_payload
                  wholesale_threshold_payload wholesale_price_payload
                  low_stock_threshold_payload)))
         | Some existing =>
             let changed :=
               (negb (String.eqb product_name (name existing)) ||
                negb (String.eqb brand_name_payload (brand_name existing)) ||
                differs_string image_url_payload (image_url existing) ||
                differs_string description_payload (description existing) ||
                differs_string ai_hint_payload (ai_hint existing) ||
                differs_Z wholesale_threshold_payload (wholesale_quantity_threshold existing) ||
                differs_Q wholesale_price_payload (wholesale_price existing) ||
                differs_Z low_stock_threshold_payload
                  (default_low_stock_threshold existing))%bool in
             if changed then
               update (set_products (insert barcode
                 (mkProductRow product_name brand_name_payload
                    (default_selling_price existing)
                    (providedOr image_url_payload (image_url existing))
                    (providedOr description_payload (description existing))
                    (providedOr ai_hint_payload (ai_hint existing))
                    (providedOr wholesale_threshold_payload (wholesale_quantity_threshold existing))
                    (providedOr wholesale_price_payload (wholesale_price existing))
                    (providedOr low_stock_threshold_payload (default_low_stock_threshold existing)))))
             else ret tt
         end ;;
    (* b. supplier_entry_items *)
    _ <- update (add_item
           (mkEntryItemRow entry_id barcode quantity_received purchase_price
              description_payload (option_map default_selling_price existing_product)
              selling_price_payload wholesale_threshold_payload
              wholesale_price_payload low_stock_threshold_payload)) ;;
    (* c. inventory_stock *)
    existing_stock_item <- select (fun db => inventory_stock db !! (barcode, pos_id)) ;;
    let fallback_price :=
      match existing_product with
      | Some existing => default_selling_price existing
      | None => markup purchase_price
      end in
    let current_pos_selling_price :=
      match existing_stock_item with
      | Some item => pos_specific_selling_price item
      | None => Some fallback_price
      end in
    _ <- match existing_stock_item with
         | Some item =>
             update (set_stock (insert (barcode, pos_id)
               (mkStockRow (quantity item + quantity_received)
                  (providedOr selling_price_payload (pos_specific_selling_price item))
                  (providedOr low_stock_threshold_payload (pos_specific_low_stock_threshold item)))))
         | None =>
             update (set_stock (insert (barcode, pos_id)
               (mkStockRow quantity_received
                  (Some (coalesce selling_price_payload fallback_price))
                  (providedOr low_stock_threshold_payload (match existing_product with
                        | Some existing => default_low_stock_threshold existing
                        | None => None
                        end)))))
         end ;;
    ret (mkProcessedProduct barcode quantity_received current_pos_selling_price
           selling_price_payload).

(** The [try] block, steps 1 to 4. *)
Definition tryBlock (input_data : InputData) : M (list ProcessedProduct) :=
  let supplier_name := php_trim (in_supplierName input_data) in
  let point_of_sale_name := php_trim (in_pointOfSale input_data) in
  let user_app_id := php_trim (in_userId input_data) in
  let user_name_at_entry := option_map php_trim (in_userName input_data) in
  pos_row <- select (fun db => points_of_sale db !! point_of_sale_name) ;;
  match pos_row with
  | None => throw ("Punto de Venta no encontrado: " ++ point_of_sale_name)%string
  | Some pos_id =>
      user_id_internal <-
        (if php_empty user_app_id then ret None
         else select (fun db => users db !! user_app_id)) ;;
      _ <- update (add_entry
             (mkSupplierEntryRow entry_id date_time supplier_name pos_id
                user_id_internal user_name_at_entry)) ;;
      forEach (processProduct pos_id) (in_products input_data)
  end.

(** The whole script for a decoded body ([None]: the body is not JSON). *)
Definition add_supplier_entry (input : option InputData) (pdo : Pdo) : Response * Pdo :=
  match input with
  | None => (mkResponse 400 (ErrorBody "Datos JSON invalidos o no proporcionados."), pdo)
  | Some input_data =>
      if (php_empty (in_supplierName input_data) ||
          php_empty (in_pointOfSale input_data) ||
          php_empty (in_userId input_data) ||
          Nat.eqb (length (in_products input_data)) 0)%bool
      then (mkResponse 400 (ErrorBody "Faltan campos requeridos"), pdo)
      else
        let pdo := beginTransaction pdo in
        match tryBlock input_data pdo with
        | (inr processed, pdo) =>
            let pdo := commit pdo in
            (mkResponse 201 (EntryBody entry_id date_time processed), pdo)
        | (inl e, pdo) =>
            let pdo := if inTransaction pdo then rollBack pdo else pdo in
            (mkResponse 500
               (ErrorBody ("Error al procesar la entrada del proveedor: " ++ e)%string),
             pdo)
        end
  end.

(** Code that, run inside a transaction, stays inside it and leaves the
    committed state alone. *)
Definition transactional {A : Type} (m : M A) : Prop :=
  forall pdo, inTransaction pdo = true ->
    inTransaction (snd (m pdo)) = true /\ committed (snd (m pdo)) = committed pdo.

(** Code that, when it succeeds, has added [n] rows to
    [supplier_entry_items] and [k] rows to [supplier_entries]. *)
Definition logs {A : Type} (k n : nat) (m : M A) : Prop :=
  forall pdo a pdo', m pdo = (inr a, pdo') ->
    length (supplier_entry_items (working pdo'))
      = (length (supplier_entry_items (working pdo)) + n)%nat /\
    length (supplier_entries (working pdo'))
      = (length (supplier_entries (working pdo)) + k)%nat.

End Script.

End SupplierEntryPhp.

Module PhpSamples.

Definition db0 : SupplierEntryPhp.Database :=
  SupplierEntryPhp.mkDatabase {[ "Main Store" := 1 ]} {[ "admin-user" := 7 ]} [] ∅ [] ∅.

Definition goodLine : SupplierEntryPhp.ProductData :=
  SupplierEntryPhp.mkProductData "7710" "Acondicionador" "Pantene" (Some 6) (Some (5 # 1))
    (Some (9 # 1)) None None None None None None.
(** A line whose quantity is 0. *)
Definition badLine : SupplierEntryPhp.ProductData :=
  SupplierEntryPhp.mkProductData "7711" "Mascarilla" "Pantene" (Some 0) (Some (5 # 1))
    None None None None None None None.

Definition request (ps : list SupplierEntryPhp.ProductData) : SupplierEntryPhp.InputData :=
  SupplierEntryPhp.mkInputData "Distribuidora Andina" "Main Store" "admin-user"
    (Some "Administrador") ps.

Definition noFailure (n : nat) : bool := false.
(** The statement number 5 (the stock insert of the first line) fails. *)
Definition sixthFails (n : nat) : bool := Nat.eqb n 5.

End PhpSamples.

Module StorageSamples.

(** Codecs for a storage whose records are kept as text lines. *)
Definition parseLines (s : string) : option (list string) :=
  if String.eqb s "not json" then None else Some [s].
Definition stringifyLines (l : list string) : string := String.concat "," l.
Definition parseText (s : string) : option string :=
  if String.eqb s "not json" then None else Some s.
Definition stringifyText (s : string) : string := s.

End StorageSamples.

(** ** Toasts (the [use-toast] hook: [reducer], [dispatch], [toast]) *)

Module Toast.

Definition TOAST_LIMIT : nat := 1.
Definition TOAST_REMOVE_DELAY : Z := 1000000.
(** [Number.MAX_SAFE_INTEGER] *)
Definition MAX_SAFE_INTEGER : Z := 9007199254740991.

Record ToasterToast := mkToasterToast {
  id : string;
  title : option string;
  description : option string;
  variant : option string;
  open : option bool
}.

(** [Partial<ToasterToast>]: a field is present or not. *)
Record PartialToast := mkPartialToast {
  p_id : option string;
  p_title : option string;
  p_description : option string;
  p_variant : option string;
  p_open : option bool
}.

(** [Omit<ToasterToast, "id">] *)
Record Props := mkProps {
  props_title : option string;
  props_description : option string;
  props_variant : option string;
  props_open : option bool
}.

Inductive Action :=
  | ADD_TOAST (toast : ToasterToast)
  | UPDATE_TOAST (toast : PartialToast)
  | DISMISS_TOAST (toastId : option string)
  | REMOVE_TOAST (toastId : option string).

Record State := mkState {
  toasts : list ToasterToast
}.

(** The field of a spread [{ ...t, ...patch }]: the patch wins where it has
    the field. *)
Definition spread {A : Type} (patch old : option A) : option A :=
  match patch with
  | Some _ => patch
  | None => old
  end.

(** [{ ...t, ...action.toast }] *)
Definition merge (t : ToasterToast) (patch : PartialToast) : ToasterToast :=
  mkToasterToast (default (id t) (p_id patch))
    (spread (p_title patch) (title t))
    (spread (p_description patch) (description t))
    (spread (p_variant patch) (variant t))
    (spread (p_open patch) (open t)).

(** [toastTimeouts]: the map holds a timer under a toast id from the
    [setTimeout] until that timer fires (no timer is ever cleared), so its
    keys are the ids with a pending removal. *)
Definition addToRemoveQueue (toastId : string) (toastTimeouts : gset string)
    : gset string :=
  if bool_decide (toastId ∈ toastTimeouts) then toastTimeouts
  else {[ toastId ]} ∪ toastTimeouts.

(** [t.id === toastId], for an optional [toastId]. *)
Definition idIs (t : ToasterToast) (toastId : option string) : bool :=
  match toastId with
  | Some i => String.eqb (id t) i
  | None => false
  end.

Definition isUndefined (toastId : option string) : bool :=
  match toastId with Some _ => false | None => true end.

(** The reducer, with the timers that its [DISMISS_TOAST] case registers. *)
Definition reducer (state : State) (action : Action) (toastTimeouts : gset string)
    : State * gset string :=
  match action with
  | ADD_TOAST toast =>
      (mkState (firstn TOAST_LIMIT (toast :: toasts state)), toastTimeouts)
  | UPDATE_TOAST toast =>
      (mkState (map (fun t => if idIs t (p_id toast) then merge t toast else t)
                    (toasts state)),
       toastTimeouts)
  | DISMISS_TOAST toastId =>
      let queued :=
        match toastId with
        | Some i =>
            if Js.truthy i then addToRemoveQueue i toastTimeouts
            else fold_left (fun tm t => addToRemoveQueue (id t) tm) (toasts state)
                           toastTimeouts
        | None =>
            fold_left (fun tm t => addToRemoveQueue (id t) tm) (toasts state)
                      toastTimeouts
        end in
      (mkState (map (fun t =>
                  if (idIs t toastId || isUndefined toastId)%bool
                  then mkToasterToast (id t) (title t) (description t) (variant t)
                                      (Some false)
                  else t) (toasts state)),
       queued)
  | REMOVE_TOAST toastId =>
      match toastId with
      | None => (mkState [], toastTimeouts)
      | Some i =>
          (mkState (List.filter (fun t => negb (String.eqb (id t) i)) (toasts state)),
           toastTimeouts)
      end
  end.

(** The module-level variables. *)
Record Store := mkStore {
  memoryState : State;
  count : Z;
  toastTimeouts : gset string
}.

Definition initial : Store := mkStore (mkState []) 0 ∅.

Definition dispatch (action : Action) (st : Store) : Store :=
  let '(state, timeouts) := reducer (memoryState st) action (toastTimeouts st) in
  mkStore state (count st) timeouts.

Definition genId (st : Store) : string * Store :=
  let count := Z.rem (count st + 1) MAX_SAFE_INTEGER in
  (pretty count, mkStore (memoryState st) count (toastTimeouts st)).

(** [toast({ ...props })]: the id it returns and the store it leaves. *)
Definition toast (props : Props) (st : Store) : string * Store :=
  let '(id, st) := genId st in
  (id, dispatch (ADD_TOAST (mkToasterToast id (props_title props)
                              (props_description props) (props_variant props)
                              (Some true))) st).

(** The [update] and [dismiss] functions that [toast] returns for [id]. *)
Definition update (id : string) (props : ToasterToast) (st : Store) : Store :=
  dispatch (UPDATE_TOAST (mkPartialToast (Some id) (title props) (description props)
                            (variant props) (open props))) st.

Definition dismiss (toastId : option string) (st : Store) : Store :=
  dispatch (DISMISS_TOAST toastId) st.

(** The callback of the timer registered for [toastId], when it fires. *)
Definition timeoutFires (toastId : string) (st : Store) : Store :=
  if bool_decide (toastId ∈ toastTimeouts st) then
    dispatch (REMOVE_TOAST (Some toastId))
      (mkStore (memoryState st) (count st) (toastTimeouts st ∖ {[ toastId ]}))
  else st.

(** What can happen to the store. *)
Inductive Event :=
  | CallToast (props : Props)
  | CallUpdate (id : string) (props : ToasterToast)
  | CallDismiss (toastId : option string)
  | TimeoutFires (toastId : string).

Definition step (st : Store) (e : Event) : Store :=
  match e with
  | CallToast props => snd (toast props st)
  | CallUpdate id props => update id props st
  | CallDismiss toastId => dismiss toastId st
  | TimeoutFires toastId => timeoutFires toastId st
  end.

Definition run (events : list Event) (st : Store) : Store := fold_left step events st.

(** The id returned by the call of [genId] that follows [k] earlier calls. *)
Definition nthId (k : nat) (st : Store) : string :=
  fst (genId (Nat.iter k (fun s => snd (genId s)) st)).

End Toast.

(** ** Signing in ([AuthProvider] and [LoginPage]) *)

Module AuthContext.

(** The callbacks handed to [setTimeout(..., 50)]; they run in the order in
    which they were registered. *)
Inductive Timer :=
  | MountTimer
  | LoginTimer (userToLogin : Auth.User)
  | LogoutTimer.

Record State := mkState {
  currentUser : option Auth.User;
  isLoading : bool;
  timers : list Timer;
  (** the calls of [router.push], oldest first *)
  pushed : list string
}.

(** [mockUsers.find(u => u.id === 'user-0')] followed by [|| null] *)
Definition noUser : option Auth.User :=
  List.find (fun u => String.eqb (Auth.id u) "user-0") Auth.mockUsers.

Definition credentialsMatch (username password : string) (user : Auth.User) : bool :=
  (String.eqb (Auth.username user) username &&
   bool_decide (Auth.password user = Some password))%bool.

(** The provider before its mount effect, and that effect. *)
Definition initialState : State := mkState None true [] [].

Definition mount (st : State) : State :=
  mkState (currentUser st) true (timers st ++ [MountTimer]) (pushed st).

Definition login (username password : string) (st : State) : bool * State :=
  match List.find (credentialsMatch username password) Auth.mockUsers with
  | Some userToLogin =>
      (true, mkState (currentUser st) true (timers st ++ [LoginTimer userToLogin])
                     (pushed st))
  | None =>
      (false, mkState noUser (isLoading st) (timers st) (pushed st))
  end.

Definition logout (st : State) : State :=
  mkState (currentUser st) true (timers st ++ [LogoutTimer]) (pushed st).

Definition runTimer (t : Timer) (st : State) : State :=
  match t with
  | MountTimer => mkState noUser false (timers st) (pushed st)
  | LoginTimer userToLogin => mkState (Some userToLogin) false (timers st) (pushed st)
  | LogoutTimer => mkState noUser false (timers st) (pushed st ++ ["/login"])
  end.

(** The oldest pending timer fires. *)
Definition fire (st : State) : State :=
  match timers st with
  | [] => st
  | t :: rest => runTimer t (mkState (currentUser st) (isLoading st) rest (pushed st))
  end.

(** All the pending timers fire. *)
Definition settle (st : State) : State :=
  Nat.iter (length (timers st)) fire st.

(** [isAuthenticated] of the header, the test of [ProtectedRoutes]. *)
Definition isAuthenticated (st : State) : bool :=
  match currentUser st with
  | Some u => negb (String.eqb (Auth.id u) "user-0")
  | None => false
  end.

(** [handleSubmit] of [LoginPage]: the error message it sets and the state
    it leaves. *)
Definition handleSubmit (username password : string) (st : State)
    : option string * State :=
  let '(loginSuccess, st) := login username password st in
  if loginSuccess then
    (None, mkState (currentUser st) (isLoading st) (timers st) (pushed st ++ ["/"]))
  else
    (Some "Nombre de usuario o contrasena incorrectos. Por favor, intentelo de nuevo.",
     st).

End AuthContext.

(** ** The inventory table ([src/components/inventory/InventoryTable.tsx]) *)

Module InventoryTable.

(** The test shared by [filterInventory] and [generateSuggestions]; the
    barcode is compared as it is stored. *)
Definition matchesTerm (lowerCaseTerm brand : string) (product : Product) : bool :=
  (Js.includes (Js.toLowerCase (name product)) lowerCaseTerm ||
   Js.includes (barcode product) lowerCaseTerm ||
   Js.includes (Js.toLowerCase brand) lowerCaseTerm)%bool.

(** The assignments [newFilteredData[brand] = filteredProducts] of the
    [forEach], in the order in which they are made. *)
Definition assignments (lowerCaseTerm : string) (data : InventoryData) : InventoryData :=
  flat_map (fun entry : string * list Product =>
    let filteredProducts :=
      List.filter (matchesTerm lowerCaseTerm (fst entry)) (snd entry) in
    if Nat.ltb 0 (length filteredProducts) then [(fst entry, filteredProducts)] else [])
    data.

Definition filterInventory (data : InventoryData) (term : string) : InventoryData :=
  if negb (Js.truthy term) then data
  else
    let newFilteredData := assignments (Js.toLowerCase term) data in
    map (fun brand => (brand, default [] (Js.obj_get newFilteredData brand)))
        (JsKeys.enumerationOrder (Js.obj_keys newFilteredData)).

(** The inner [for (const product of safeProducts)] with its [break]. *)
Fixpoint suggestProducts (lowerCaseTerm brand : string) (limit : Z)
    (safeProducts : list Product) (results : list Product) : list Product :=
  match safeProducts with
  | [] => results
  | product :: rest =>
      if limit <=? Z.of_nat (length results) then results
      else suggestProducts lowerCaseTerm brand limit rest
             (if matchesTerm lowerCaseTerm brand product then results ++ [product]
              else results)
  end.

(** The outer [for (const brand in data)] with its [break]. *)
Fixpoint suggestBrands (data : InventoryData) (lowerCaseTerm : string) (limit : Z)
    (brands : list string) (results : list Product) : list Product :=
  match brands with
  | [] => results
  | brand :: rest =>
      let results :=
        suggestProducts lowerCaseTerm brand limit (default [] (Js.obj_get data brand))
                        results in
      if limit <=? Z.of_nat (length results) then results
      else suggestBrands data lowerCaseTerm limit rest results
  end.

Definition generateSuggestions (data : InventoryData) (term : string) (limit : Z)
    : list Product :=
  if negb (Js.truthy (Js.trim term)) then []
  else suggestBrands data (Js.toLowerCase term) limit (Js.obj_keys data) [].

(** The default value of [limit]. *)
Definition defaultLimit : Z := 7.


(** The state of the component that the handlers change. *)
Record State := mkState {
  searchTerm : string;
  filteredData : InventoryData;
  suggestions : list Product;
  isSuggestionsOpen : bool;
  activeSuggestionIndex : Z
}.

Inductive Key := ArrowDown | ArrowUp | Enter | Escape | OtherKey.

(** [arr[i]] for a number [i]. *)
Definition at_index {A : Type} (l : list A) (i : Z) : option A :=
  if i <? 0 then None else nth_error l (Z.to_nat i).

Definition handleSearchChange (inventoryData : InventoryData) (newSearchTerm : string)
    (st : State) : State :=
  if Nat.ltb 0 (String.length newSearchTerm) then
    let newSuggestions := generateSuggestions inventoryData newSearchTerm defaultLimit in
    mkState newSearchTerm (filteredData st) newSuggestions
            (Nat.ltb 0 (length newSuggestions)) (-1)
  else
    mkState newSearchTerm (filteredData st) [] false (activeSuggestionIndex st).

Definition handleSuggestionClick (inventoryData : InventoryData) (product : Product)
    (st : State) : State :=
  mkState (name product) (filterInventory inventoryData (name product)) [] false (-1).

Definition handleKeyDown (inventoryData : InventoryData) (key : Key) (st : State) : State :=
  if (negb (isSuggestionsOpen st) || Nat.eqb (length (suggestions st)) 0)%bool then st
  else
    let n := Z.of_nat (length (suggestions st)) in
    match key with
    | ArrowDown =>
        mkState (searchTerm st) (filteredData st) (suggestions st) (isSuggestionsOpen st)
                (Z.rem (activeSuggestionIndex st + 1) n)
    | ArrowUp =>
        mkState (searchTerm st) (filteredData st) (suggestions st) (isSuggestionsOpen st)
                (Z.rem (activeSuggestionIndex st - 1 + n) n)
    | Enter =>
        if 0 <=? activeSuggestionIndex st then
          match at_index (suggestions st) (activeSuggestionIndex st) with
          | Some product => handleSuggestionClick inventoryData product st
          | None => st
          end
        else st
    | Escape =>
        mkState (searchTerm st) (filteredData st) [] false (-1)
    | OtherKey => st
    end.

(** The active index is [-1] or the index of a suggestion, whenever there
    are suggestions. *)
Definition indexInRange (st : State) : Prop :=
  suggestions st <> [] ->
  -1 <= activeSuggestionIndex st < Z.of_nat (length (suggestions st)).

End InventoryTable.

(** ** The counter of the low-stock page ([totalProductsInitiallyLowStock]) *)

Module LowStockCount.

(** The body of [accessiblePointsOfSale.forEach(pos => ...)]. *)
Definition countPos (inventory : Inventory) (count : Z) (pos : string) : Z :=
  let posInventory := default [] (Js.obj_get inventory pos) in
  fold_left (fun count prod => if LowStock.isLowStock prod then count + 1 else count)
            (concat (map snd posInventory)) count.

Definition totalProductsInitiallyLowStock (inventory : Inventory)
    (accessiblePointsOfSale : list string) : Z :=
  fold_left (countPos inventory) accessiblePointsOfSale 0.




End LowStockCount.

(** ** Totals of a sale *)

Module SalesTotals.





End SalesTotals.

(** ** What a supplier entry does to the stock and to the catalogue *)

Module SupplierEntryStock.

(** The units of [barcode] held at the point of sale [pos_id]. *)
Definition stockQuantity (db : SupplierEntryPhp.Database) (barcode : string) (pos_id : Z)
    : Z :=
  match SupplierEntryPhp.inventory_stock db !! (barcode, pos_id) with
  | Some row => SupplierEntryPhp.quantity row
  | None => 0
  end.

(** The units that the lines of a payload bring for [barcode]. *)
Definition received (barcode : string) (lines : list SupplierEntryPhp.ProductData) : Z :=
  fold_right Z.add 0
    (map (fun line =>
            if String.eqb (SupplierEntryPhp.php_trim (SupplierEntryPhp.pd_barcode line))
                          barcode
            then default 0 (SupplierEntryPhp.pd_quantity line) else 0) lines).

(** [default_selling_price] of the product with this barcode. *)
Definition catalogPrice (db : SupplierEntryPhp.Database) (barcode : string) : option Q :=
  option_map SupplierEntryPhp.default_selling_price
             (SupplierEntryPhp.products db !! barcode).

(** The price given to a product that a line adds to the catalogue. *)
Definition firstPrice (line : SupplierEntryPhp.ProductData) : Q :=
  SupplierEntryPhp.coalesce (SupplierEntryPhp.pd_sellingPrice line)
    (SupplierEntryPhp.markup (default 0%Q (SupplierEntryPhp.pd_purchasePrice line))).

(** The first line of the payload with this barcode. *)
Definition firstLine (barcode : string) (lines : list SupplierEntryPhp.ProductData)
    : option SupplierEntryPhp.ProductData :=
  List.find (fun line =>
    String.eqb (SupplierEntryPhp.php_trim (SupplierEntryPhp.pd_barcode line)) barcode) lines.

End SupplierEntryStock.

Module SupplierEntrySamples.

(** A request with two lines for the same barcode, served without failure. *)
Definition twoLinesRequest : SupplierEntryPhp.InputData :=
  PhpSamples.request [PhpSamples.goodLine; PhpSamples.goodLine].

Definition twoLines : SupplierEntryPhp.Response * SupplierEntryPhp.Pdo :=
  SupplierEntryPhp.add_supplier_entry PhpSamples.noFailure "supplier-1"
    "2024-05-01 10:00:00" (Some twoLinesRequest)
    (SupplierEntryPhp.connect PhpSamples.db0).

End SupplierEntrySamples.

(** ** The cash desk ([CajaPage]) *)

Module Caja.

Record FixedExpenseItem := mkFixedExpenseItem {
  id : string;
  name : string;
  amount : Q
}.

Record CajaSettings := mkCajaSettings {
  saldoInicial : Q;
  egresosDiarios : Q;
  fixedExpenses : list FixedExpenseItem
}.

Definition defaultFixedExpenses : list FixedExpenseItem :=
  [ mkFixedExpenseItem "rent" "Arriendo Local" (500000 # 1);
    mkFixedExpenseItem "services" "Facturas de Servicios" (80000 # 1);
    mkFixedExpenseItem "salaries" "Salarios Personal" (1200000 # 1) ].

Definition defaultSettings : CajaSettings :=
  mkCajaSettings (50000 # 1) (30000 # 1) defaultFixedExpenses.










Section Handlers.
(** [parseFloat]; [None] is [NaN]. *)
Variable parseFloat : string -> option Q.

End Handlers.



End Caja.

(** ** The product-descriptions page ([ProductDescriptionsPage]) *)

Module ProductDescriptions.

(** [DescribedProduct] is, like [LowStockProduct], the product spread plus
    [pointOfSale]. *)
Abbreviation DescribedProduct := LowStock.LowStockProduct.

(** [product.description && product.description.trim() !== ""] *)
Definition hasDescription (p : Product) : bool :=
  match description p with
  | Some d => (Js.truthy d && negb (String.eqb (Js.trim d) ""))%bool
  | None => false
  end.

(** The body of [products.forEach(product => ...)]. *)
Definition visitProduct (lowerSearchTerm pos brand : string)
    (allDescribedProducts : list DescribedProduct) (p : Product) : list DescribedProduct :=
  if (hasDescription p && LowStock.matchesSearch lowerSearchTerm brand p)%bool then
    if existsb (LowStock.sameBarcodeAndPos p pos) allDescribedProducts
    then allDescribedProducts
    else allDescribedProducts ++ [LowStock.mkLowStockProduct p pos]
  else allDescribedProducts.

Definition visitBrand (lowerSearchTerm pos : string)
    (allDescribedProducts : list DescribedProduct) (entry : string * list Product)
    : list DescribedProduct :=
  fold_left (visitProduct lowerSearchTerm pos (fst entry)) (snd entry) allDescribedProducts.

Definition visitPos (inventory : Inventory) (lowerSearchTerm : string)
    (allDescribedProducts : list DescribedProduct) (pos : string) : list DescribedProduct :=
  let posInventory := default [] (Js.obj_get inventory pos) in
  fold_left (visitBrand lowerSearchTerm pos) posInventory allDescribedProducts.

Definition allDescribedProducts (inventory : Inventory)
    (accessiblePointsOfSale : list string) (searchTerm : string) : list DescribedProduct :=
  fold_left (visitPos inventory (Js.toLowerCase searchTerm)) accessiblePointsOfSale [].



Definition qualifies (lowerSearchTerm : string) (c : string * string * Product) : bool :=
  (hasDescription (snd c) && LowStock.matchesSearch lowerSearchTerm (snd (fst c)) (snd c))%bool.

Definition visitCandidate (lowerSearchTerm : string) (all : list DescribedProduct)
    (c : string * string * Product) : list DescribedProduct :=
  visitProduct lowerSearchTerm (fst (fst c)) (snd (fst c)) all (snd c).


End ProductDescriptions.

(** ** The product selector of the chart page (the effect that fills
       [productList]) *)

Module ProductSelector.

(** [ProductForSelector]: the product spread, plus two fields. *)
Record ProductForSelector := mkProductForSelector {
  product : Product;
  uniqueId : string;
  displayName : string
}.

(** [`${product.name} (${product.brand}) - ${product.barcode}`] *)
Definition displayNameOf (p : Product) : string :=
  (name p ++ " (" ++ brand p ++ ") - " ++ barcode p)%string.

(** The body of the inner [forEach], on [products] and [uniqueBarcodes]. *)
Definition visitProduct (acc : list ProductForSelector * gset string) (p : Product)
    : list ProductForSelector * gset string :=
  if bool_decide (barcode p ∈ snd acc) then acc
  else (fst acc ++ [mkProductForSelector p (barcode p) (displayNameOf p)],
        {[ barcode p ]} ∪ snd acc).

(** The body of [accessiblePOS.forEach(pos => ...)]. *)
Definition visitPos (inventory : Inventory) (acc : list ProductForSelector * gset string)
    (pos : string) : list ProductForSelector * gset string :=
  match Js.obj_get inventory pos with
  | Some posInventory => fold_left visitProduct (concat (map snd posInventory)) acc
  | None => acc
  end.



(** The products of the accessible points of sale, in the order of the visit. *)
Definition visited (inventory : Inventory) (accessiblePOS : list string) : list Product :=
  flat_map (fun pos => concat (map snd (default [] (Js.obj_get inventory pos))))
           accessiblePOS.

End ProductSelector.

(** ** The sales breakdown page ([DesgloseVentasPage]): the matrix of daily
       sales per product

    [productDailySales] is an object keyed by barcode whose entries are
    filled and updated one by one; it is a finite map (barcodes are taken not
    to be names of properties of [Object.prototype]). *)

Module SalesMatrix.

(** The barcode of an inventory product (the row below has a [barcode] field
    of its own). *)
Local Abbreviation inventoryBarcode := barcode (only parsing).

Record ProductSalesMatrixRow := mkProductSalesMatrixRow {
  barcode : string;
  productName : string;
  brandName : string;
  (** keys ['dd/MM'], in insertion order *)
  dailySales : list (string * Z);
  totalSalesInRange : Z
}.

(** The body of the [forEach] that fills [allInventoryProducts]. *)
Definition remember (allInventoryProducts : gmap string Product) (p : Product)
    : gmap string Product :=
  match allInventoryProducts !! inventoryBarcode p with
  | Some _ => allInventoryProducts
  | None => <[inventoryBarcode p := p]> allInventoryProducts
  end.

Definition allInventoryProducts (inventory : Inventory) : gmap string Product :=
  fold_left remember
    (ProductSelector.visited inventory (InventoryContext.getPointsOfSale inventory)) ∅.

(** The row created for a product of the inventory. *)
Definition emptyRow (dateKeys : list string) (invProduct : Product)
    : ProductSalesMatrixRow :=
  mkProductSalesMatrixRow (inventoryBarcode invProduct) (name invProduct)
    (Js.trim (brand invProduct))
    (fold_left (fun m key => Chart.map_set m key 0) dateKeys []) 0.

(** The body of [sale.items.forEach(item => ...)]. *)
Definition addItem (dayKey : string) (rows : gmap string ProductSalesMatrixRow)
    (item : Chart.SaleRecordItem) : gmap string ProductSalesMatrixRow :=
  match rows !! Chart.barcode item with
  | Some row =>
      <[Chart.barcode item :=
          mkProductSalesMatrixRow (barcode row) (productName row) (brandName row)
            (Chart.map_set (dailySales row) dayKey
               (default 0 (Chart.map_get (dailySales row) dayKey) + Chart.quantity item))
            (totalSalesInRange row + Chart.quantity item)]> rows
  | None => rows
  end.

(** The predicate of [combinedSales.filter]. *)
Definition inPeriod (startDate endDate : Z) (sale : Chart.SaleRecord) : bool :=
  match Chart.dateTime sale with
  | Some saleDate => ((startDate <=? saleDate) && (saleDate <=? endDate))%bool
  | None => false
  end.

(** The body of [salesInPeriod.forEach(sale => ...)]. *)
Definition addSale (rows : gmap string ProductSalesMatrixRow) (sale : Chart.SaleRecord)
    : gmap string ProductSalesMatrixRow :=
  match Chart.dateTime sale with
  | Some saleDate => fold_left (addItem (Chart.format_ddMM saleDate)) (Chart.items sale) rows
  | None => rows
  end.

Inductive EffectResult :=
  | Cleared                (* the early return: the matrix is set to [{}] *)
  | Throws                 (* [eachDayOfInterval] raises a [RangeError] *)
  | Computed (productDailySales : gmap string ProductSalesMatrixRow).

(** The effect, up to the rows of [productDailySales]. *)
Definition productDailySales (selectedMonthDateRange : option Chart.DateRange)
    (isClient isInventoryLoaded : bool) (inventory : Inventory)
    (allSalesData allWholesaleSalesData : list Chart.SaleRecord) : EffectResult :=
  match selectedMonthDateRange with
  | Some range =>
      match Chart.from range with
      | Some startDate =>
          if (negb isClient || negb isInventoryLoaded ||
              Nat.eqb (length (Js.obj_keys inventory)) 0)%bool
          then Cleared
          else
            let endDate := default startDate (Chart.to range) in
            match Chart.eachDayOfInterval startDate endDate with
            | None => Throws
            | Some daysInPeriod =>
                let dateKeys := map Chart.formatDay daysInPeriod in
                let rows := emptyRow dateKeys <$> allInventoryProducts inventory in
                let combinedSales := allSalesData ++ allWholesaleSalesData in
                let salesInPeriod :=
                  List.filter (inPeriod startDate endDate) combinedSales in
                Computed (fold_left addSale salesInPeriod rows)
            end
      | None => Cleared
      end
  | None => Cleared
  end.



End SalesMatrix.

Module SalesMatrixSamples.


End SalesMatrixSamples.

(** ** The invoices page ([InvoicesPage]: [onSubmit])

    The invoices held by the page come from its own form, so every field of
    the form is present in them. *)

Module Invoices.

Inductive Status := pendiente | parcialmente_pagada | pagada.

Record InvoiceFormValues := mkInvoiceFormValues {
  invoiceNumber : string;
  supplierName : string;
  invoiceDate : string;
  dueDate : string;
  totalAmount : Q;
  status : Status;
  pdfFileName : string;
  paymentProofDataUrl : string;
  notes : string
}.

Record InvoiceRecord := mkInvoiceRecord {
  id : string;
  registrationDate : Z;
  lastModifiedDate : option Z;
  values : InvoiceFormValues
}.

Definition status_eqb (a b : Status) : bool :=
  match a, b with
  | pendiente, pendiente | parcialmente_pagada, parcialmente_pagada | pagada, pagada => true
  | _, _ => false
  end.

(** What a submission leaves: the invoices, the invoice being edited and
    the title of the toast shown, if any. *)
Record Outcome := mkOutcome {
  invoices : list InvoiceRecord;
  editingInvoiceId : option string;
  toastTitle : option string
}.

Section Submit.
(** [new Date(s).getTime()]; [None] is [NaN]. *)
Variable getTime : string -> option Z.
(** [new Date()], [format(now, "dd/MM/yyyy HH:mm")] and the id made from
    [Date.now()] and [Math.random()], at the time of the submission. *)
Variable now : Z.
Variable formattedDate : string.
Variable newId : string.

(** The comparator [(a, b) => new Date(b.invoiceDate).getTime() -
    new Date(a.invoiceDate).getTime()]; a [NaN] result counts as 0. *)
Definition byInvoiceDateDesc (a b : InvoiceRecord) : Z :=
  match getTime (invoiceDate (values b)), getTime (invoiceDate (values a)) with
  | Some tb, Some ta => tb - ta
  | _, _ => 0
  end.

Definition changedFields (data originalInvoice : InvoiceFormValues) : list string :=
  (if negb (String.eqb (invoiceNumber data) (invoiceNumber originalInvoice))
   then ["N. Factura"] else []) ++
  (if negb (String.eqb (supplierName data) (supplierName originalInvoice))
   then ["Proveedor"] else []) ++
  (if negb (String.eqb (invoiceDate data) (invoiceDate originalInvoice))
   then ["Fecha Fact."] else []) ++
  (if negb (String.eqb (dueDate data) (dueDate originalInvoice))
   then ["Fecha Venc."] else []) ++
  (if negb (Qeq_bool (totalAmount data) (totalAmount originalInvoice))
   then ["Monto"] else []) ++
  (if negb (status_eqb (status data) (status originalInvoice))
   then ["Estado"] else []) ++
  (if negb (String.eqb (pdfFileName data) (pdfFileName originalInvoice))
   then ["PDF Factura"] else []) ++
  (if negb (String.eqb (paymentProofDataUrl data) (paymentProofDataUrl originalInvoice))
   then ["Prueba de Pago"] else []).

Definition editNote (changed : list string) : string :=
  if Nat.ltb 0 (length changed) then
    ("--- Editado (" ++ formattedDate ++ "): " ++ String.concat ", " changed
     ++ " actualizado(s). ---" ++ String (ascii_of_nat 10) "")%string
  else "".

(** [{ ...inv, ...data, notes: updatedNotes, lastModifiedDate: now }] *)
Definition updated (inv : InvoiceRecord) (data : InvoiceFormValues) (updatedNotes : string)
    : InvoiceRecord :=
  mkInvoiceRecord (id inv) (registrationDate inv) (Some now)
    (mkInvoiceFormValues (invoiceNumber data) (supplierName data) (invoiceDate data)
       (dueDate data) (totalAmount data) (status data) (pdfFileName data)
       (paymentProofDataUrl data) updatedNotes).

Definition onSubmit (editing : option string) (data : InvoiceFormValues)
    (prev : list InvoiceRecord) : Outcome :=
  let editingId := match editing with
                   | Some i => if Js.truthy i then Some i else None
                   | None => None
                   end in
  match editingId with
  | Some i =>
      match List.find (fun inv => String.eqb (id inv) i) prev with
      | None => mkOutcome prev editing None
      | Some originalInvoice =>
          let updatedNotes :=
            (editNote (changedFields data (values originalInvoice)) ++ notes data)%string in
          mkOutcome
            (JsArray.sortBy byInvoiceDateDesc
               (map (fun inv => if String.eqb (id inv) i
                                then updated inv data updatedNotes else inv) prev))
            None (Some "Factura Actualizada")
      end
  | None =>
      let newInvoice := mkInvoiceRecord newId now None data in
      mkOutcome (JsArray.sortBy byInvoiceDateDesc (newInvoice :: prev))
                None (Some "Factura Registrada")
  end.

(** The time of the invoice date, 0 when it does not parse. *)
Definition time (inv : InvoiceRecord) : Z :=
  default 0 (getTime (invoiceDate (values inv))).

End Submit.

End Invoices.

(** Sample invoices. *)

Module InvoiceSamples.

(** [new Date(s).getTime()] on the two dates of the samples. *)
Definition getTime (s : string) : option Z :=
  if String.eqb s "2024-01-15" then Some 1705276800000
  else if String.eqb s "2024-02-01" then Some 1706745600000
  else None.

Definition form (number date : string) : Invoices.InvoiceFormValues :=
  Invoices.mkInvoiceFormValues number "Distribuidora Norte" date "2024-03-01" 1500
    Invoices.pendiente "" "" "".

Definition stored : list Invoices.InvoiceRecord :=
  [ Invoices.mkInvoiceRecord "invoice-1" 1705300000000 None (form "F-001" "2024-01-15") ].

End InvoiceSamples.

(** * Properties *)

(** ** Helper lemmas on objects and sorting *)



Lemma arr_includes_In l x : Js.arr_includes l x = true <-> In x l.
Proof.
  unfold Js.arr_includes. rewrite existsb_exists. split.
  - intros (y & Hy & E). apply String.eqb_eq in E. now subst.
  - intros H. exists x. split; [assumption| apply String.eqb_refl].
Qed.

Lemma insert_perm {A : Type} (le : A -> A -> bool) x l :
  Permutation (JsArray.insert le x l) (x :: l).
Proof.
  induction l as [|y r IH]; simpl; [reflexivity|].
  destruct (le x y); [reflexivity|].
  rewrite IH. apply perm_swap.
Qed.

Lemma sort_perm {A : Type} (le : A -> A -> bool) l :
  Permutation (JsArray.sort le l) l.
Proof.
  induction l as [|x l IH]; simpl; [reflexivity|].
  rewrite insert_perm. now constructor.
Qed.

Lemma sort_In {A : Type} (le : A -> A -> bool) l x :
  In x (JsArray.sort le l) <-> In x l.
Proof.
  split; apply Permutation_in; [|symmetry]; apply sort_perm.
Qed.





Lemma nodup_keysb_true {V : Type} (o : list (string * V)) :
  nodup_keysb o = true <-> NoDup (Js.obj_keys o).
Proof. unfold nodup_keysb. apply bool_decide_eq_true. Qed.

Lemma wf_inventory_keys inv : wf_inventory inv -> NoDup (Js.obj_keys inv).
Proof.
  unfold wf_inventory, wf_inventoryb. rewrite andb_true_iff.
  intros [H _]. now apply nodup_keysb_true.
Qed.








(** ** C7: product lookup by identifier *)



(** Duplicate barcodes resolve to the first occurrence; names match without
    regard to case. *)
Example lookup_duplicate_barcode :
  UseInventory.getProductDetails Samples.inventory "7701"
    = Some (Samples.shampoo, "Main Store") /\
  UseInventory.getProductDetailsInPos Samples.inventory "Warehouse" "7701"
    = Some Samples.shampooWarehouse /\
  UseInventory.getProductDetailsInPos Samples.inventory "Main Store" "CREMA rizos"
    = Some Samples.crema /\
  UseInventory.getProductDetailsInPos Samples.inventory "Kiosk" "7701" = None.
Proof. repeat split; reflexivity. Qed.

(** ** C6: what a user can see *)

Lemma getPointsOfSale_In inv pos :
  In pos (InventoryContext.getPointsOfSale inv) <-> In pos (Js.obj_keys inv).
Proof. unfold InventoryContext.getPointsOfSale, JsArray.sortStrings. apply sort_In. Qed.

Lemma searchBrands_found data keys identifier p :
  UseInventory.searchBrands data keys identifier = Some p ->
  UseInventory.matchesIdentifier identifier p = true /\
  exists b products, Js.obj_get data b = Some products /\ In p products.
Proof.
  induction keys as [|b keys IH]; simpl; [discriminate|].
  destruct (List.find _ _) as [q|] eqn:F.
  - intros [= ->]. apply find_some in F. destruct F as [Hin Hm]. split; [assumption|].
    destruct (Js.obj_get data b) as [products|] eqn:G; simpl in Hin; [|contradiction].
    exists b, products. auto.
  - apply IH.
Qed.

Lemma getProductDetailsInPos_found inv pos identifier p :
  UseInventory.getProductDetailsInPos inv pos identifier = Some p ->
  LookupSpec.productInPos inv pos p /\
  UseInventory.matchesIdentifier identifier p = true.
Proof.
  unfold UseInventory.getProductDetailsInPos, LookupSpec.productInPos.
  destruct (Js.obj_get inv pos) as [data|] eqn:E; [|discriminate].
  intros H. apply searchBrands_found in H. destruct H as (Hm & b & products & H1 & H2).
  split; [|assumption]. exists data, b, products. auto.
Qed.

Lemma searchAccessible_found inv accessible identifier p pos :
  InventoryContext.searchAccessible inv accessible identifier = Some (p, pos) ->
  In pos accessible /\
  UseInventory.getProductDetailsInPos inv pos identifier = Some p.
Proof.
  induction accessible as [|a accessible IH]; simpl; [discriminate|].
  destruct (UseInventory.getProductDetailsInPos inv a identifier) as [q|] eqn:E.
  - intros [= -> ->]. auto.
  - intros H. destruct (IH H). auto.
Qed.

(** C6. For a user whose [allowedPOS] has no ['*'], [getPointsOfSaleForUser]
    returns exactly the points of sale that are both keys of the loaded
    inventory and members of [allowedPOS], and a product returned by
    [getProductDetailsForUser] is stored in a point of sale of [allowedPOS]
    and matches the identifier; with no current user, or with an empty
    [allowedPOS], the first returns the empty list and the second [null] for
    every identifier. *)
Theorem C6_user_scoped_access (inv : Inventory) (currentUser : option Auth.User)
    (NW : LookupSpec.noWildcard currentUser) :
  (forall pos,
     In pos (InventoryContext.getPointsOfSaleForUser inv currentUser) <->
     In pos (Js.obj_keys inv) /\
     exists u, currentUser = Some u /\ In pos (Auth.allowedPOS u)) /\
  (forall identifier p pos,
     InventoryContext.getProductDetailsForUser inv currentUser identifier = Some (p, pos) ->
     exists u, currentUser = Some u /\ In pos (Auth.allowedPOS u) /\
       LookupSpec.productInPos inv pos p /\
       UseInventory.matchesIdentifier identifier p = true) /\
  ((currentUser = None \/ exists u, currentUser = Some u /\ Auth.allowedPOS u = []) ->
     InventoryContext.getPointsOfSaleForUser inv currentUser = [] /\
     forall identifier,
       InventoryContext.getProductDetailsForUser inv currentUser identifier = None).
Proof.
  destruct currentUser as [u|]; simpl in NW.
  - assert (Hstar : Js.arr_includes (Auth.allowedPOS u) "*" = false).
    { destruct (Js.arr_includes (Auth.allowedPOS u) "*") eqn:E; [|reflexivity].
      apply arr_includes_In in E. contradiction. }
    unfold InventoryContext.getPointsOfSaleForUser,
      InventoryContext.getProductDetailsForUser.
    rewrite Hstar.
    destruct (Auth.allowedPOS u) as [|a allowed] eqn:EA; simpl Nat.eqb; cbv iota.
    + split; [|split].
      * intros pos. split; [intros []|]. intros (_ & u' & [= <-] & H).
        rewrite EA in H. destruct H.
      * discriminate.
      * auto.
    + split; [|split].
      * intros pos. rewrite filter_In, getPointsOfSale_In, arr_includes_In. split.
        -- intros [H1 H2]. split; [assumption|]. exists u. rewrite EA. auto.
        -- intros (H1 & u' & [= <-] & H2). rewrite EA in H2. auto.
      * intros identifier p pos H. apply searchAccessible_found in H.
        destruct H as [H1 H2]. apply getProductDetailsInPos_found in H2.
        destruct H2 as [H2 H3]. exists u. rewrite EA. auto.
      * intros [H|(u' & [= <-] & H)]; [discriminate|]. rewrite EA in H. discriminate.
  - split; [|split].
    + intros pos. simpl. split; [intros []|]. intros (_ & u & H & _). discriminate.
    + simpl. discriminate.
    + intros _. simpl. auto.
Qed.

Lemma C6_user_scoped_access_witness :
  LookupSpec.noWildcard (Some Samples.mainStoreUser) /\
  (forall pos,
     In pos (InventoryContext.getPointsOfSaleForUser Samples.inventory
               (Some Samples.mainStoreUser)) <->
     In pos (Js.obj_keys Samples.inventory) /\
     exists u, Some Samples.mainStoreUser = Some u /\ In pos (Auth.allowedPOS u)).
Proof.
  assert (NW : LookupSpec.noWildcard (Some Samples.mainStoreUser)).
  { simpl. intros [H|[]]. discriminate. }
  split; [exact NW|].
  apply (C6_user_scoped_access Samples.inventory (Some Samples.mainStoreUser) NW).
Defined.

(** The store user sees the store only, and cannot reach the warehouse copy
    of a barcode. *)
Example user_scoped_samples :
  InventoryContext.getPointsOfSaleForUser Samples.inventory (Some Samples.mainStoreUser)
    = ["Main Store"] /\
  InventoryContext.getPointsOfSaleForUser Samples.inventory (Some Samples.admin)
    = ["Main Store"; "Warehouse"] /\
  InventoryContext.getProductDetailsForUser Samples.inventory
    (Some Samples.warehouseUser) "7701" = Some (Samples.shampooWarehouse, "Warehouse") /\
  InventoryContext.getProductDetailsForUser Samples.inventory
    (Some Samples.warehouseUser) "7703" = None /\
  InventoryContext.getProductDetailsForUser Samples.inventory
    (Some Samples.noUser) "7701" = None.
Proof. repeat split; reflexivity. Qed.

(** ** C3: the three removed functions *)

(** C3. The context value lists [updateProductQuantity], [addProduct] and
    [updateProductPrice], read from the object returned by [useInventory];
    that object has no such properties, so for every state of the hook the
    three fields are [undefined] and calling any of them raises a
    [TypeError]: no call of them ever runs a function, let alone returns the
    boolean of the declared contract. *)
Theorem C3_removed_functions_undefined (st : InventoryContext.HookState) :
  Forall (fun f =>
    In f (Js.obj_keys (InventoryContext.contextValue st)) /\
    Js.obj_get (InventoryContext.useInventory st) f = None /\
    InventoryContext.member (InventoryContext.contextValue st) f
      = InventoryContext.VUndefined /\
    InventoryContext.invokeContextField st f = InventoryContext.ThrowsTypeError /\
    forall g, InventoryContext.invokeContextField st f <> InventoryContext.Invokes g)
  ["updateProductQuantity"; "addProduct"; "updateProductPrice"].
Proof.
  repeat (apply List.Forall_cons;
    [split; [simpl; auto 20|]; split; [reflexivity|]; split; [reflexivity|];
     split; [reflexivity|discriminate]|]).
  apply List.Forall_nil.
Qed.

(** The fields that the hook still provides are callable. *)
Example context_remaining_functions (st : InventoryContext.HookState) :
  InventoryContext.invokeContextField st "getProductDetailsInPos"
    = InventoryContext.Invokes InventoryContext.FnGetProductDetailsInPos /\
  InventoryContext.invokeContextField st "getAllPointsOfSale"
    = InventoryContext.Invokes InventoryContext.FnGetPointsOfSale.
Proof. split; reflexivity. Qed.

(** ** C10: the low-stock listing *)

Section SortFacts.
Context {A : Type} (le : A -> A -> bool).
Hypothesis le_total : forall a b, le a b = false -> le b a = true.

Let R (a b : A) : Prop := le a b = true.

Lemma insert_hdrel x y l : R y x -> HdRel R y l -> HdRel R y (JsArray.insert le x l).
Proof.
  intros Hyx H. destruct l as [|z l]; simpl.
  - now constructor.
  - destruct (le x z); constructor; auto. now inversion H.
Qed.

Lemma insert_sorted x l : Sorted R l -> Sorted R (JsArray.insert le x l).
Proof.
  induction 1 as [|y l HS IH Hd]; simpl.
  - repeat constructor.
  - destruct (le x y) eqn:E.
    + constructor; [now constructor|]. now constructor.
    + constructor; [assumption|]. apply insert_hdrel; auto.
      now apply le_total.
Qed.

Lemma sort_sorted l : Sorted R (JsArray.sort le l).
Proof.
  induction l as [|x l IH]; simpl; [constructor|]. now apply insert_sorted.
Qed.
End SortFacts.

Lemma Sorted_weaken {A : Type} (R R' : A -> A -> Prop) l :
  (forall a b, R a b -> R' a b) -> Sorted R l -> Sorted R' l.
Proof.
  intros W. induction 1 as [|x l HS IH Hd]; constructor; auto.
  destruct Hd; constructor; auto.
Qed.

Lemma sortStrings_sorted l :
  Sorted (fun a b => String.leb a b = true) (JsArray.sortStrings l).
Proof.
  apply sort_sorted. intros a b H.
  destruct (String.leb_total a b) as [H1|H1]; congruence.
Qed.

Lemma sortBy_sorted {A : Type} (cmp : A -> A -> Z) l :
  (forall a b, 0 < cmp a b -> cmp b a <= 0) ->
  Sorted (fun a b => cmp a b <= 0) (JsArray.sortBy cmp l).
Proof.
  intros T. unfold JsArray.sortBy.
  apply Sorted_weaken with (R := fun a b => Z.leb (cmp a b) 0 = true).
  - intros a b. apply Z.leb_le.
  - apply sort_sorted. intros a b E. apply Z.leb_gt in E. apply Z.leb_le. now apply T.
Qed.






















(** With brand names that are array indices the table shows them in numeric
    order, ahead of the other brands. *)
Example enumeration_of_numeric_brands :
  JsKeys.enumerationOrder (JsArray.sortStrings ["9"; "Loreal"; "10"; "007"])
    = ["9"; "10"; "007"; "Loreal"].
Proof. reflexivity. Qed.

(** ** C4: when a sale is sent *)

Lemma truthy_nonempty s : Js.truthy s = true <-> s <> "".
Proof.
  unfold Js.truthy. rewrite negb_true_iff. apply String.eqb_neq.
Qed.









(** A sale within stock is sent; one above the stock of the point of sale is
    stopped with an error on its quantity field. *)
Example sale_samples :
  SalesLog.requestSent
    (SalesLog.handleSubmit Samples.inventory (Some Samples.mainStoreUser)
       (SalesSamples.sale [SalesSamples.knownShampoo 3])) = true /\
  SalesLog.handleSubmit
    [("Main Store", [("Loreal", [Samples.tinte; Samples.crema])])]
    (Some Samples.mainStoreUser)
    (SalesSamples.sale [SalesSamples.unknownItem; SalesSamples.knownShampoo 3])
  = SalesLog.InsufficientStock (Some 1%nat) "Stock: 0" /\
  SalesLog.handleSubmit Samples.inventory (Some Samples.warehouseUser)
    (SalesSamples.sale [SalesSamples.knownShampoo 3]) = SalesLog.AccessDenied /\
  SalesLog.handleSubmit Samples.inventory (Some Samples.mainStoreUser)
    (SalesSamples.sale [SalesSamples.knownShampoo 4]) = SalesLog.NotSubmitted.
Proof. repeat split; vm_compute; reflexivity. Qed.

(** ** C5: when a supplier entry is sent *)






Example supplier_entry_samples :
  Suppliers.requestSent
    (Suppliers.handleSubmit SupplierSamples.acceptAnyUrl "t" Samples.inventory
       (Some Samples.mainStoreUser)
       (SupplierSamples.entry "Main Store" [SupplierSamples.line "7710" "Pantene" 6]))
  = true /\
  Suppliers.handleSubmit SupplierSamples.acceptAnyUrl "t" Samples.inventory
    (Some Samples.mainStoreUser)
    (SupplierSamples.entry "Main Store" [SupplierSamples.line "7710" "" 6])
  = Suppliers.NotSubmitted /\
  Suppliers.handleSubmit SupplierSamples.acceptAnyUrl "t" Samples.inventory
    (Some Samples.mainStoreUser)
    (SupplierSamples.entry "Main Store" [SupplierSamples.line "7710" "Pantene" 0])
  = Suppliers.NotSubmitted /\
  Suppliers.onSubmit "t" Samples.inventory (Some Samples.mainStoreUser)
    (SupplierSamples.entry "Main Store" [SupplierSamples.line "7710" "Pantene" 0])
  = Suppliers.InvalidEntry.
Proof. repeat split; vm_compute; reflexivity. Qed.

(** ** C8: loading the inventory *)

Lemma orElse_nonempty a b : b <> "" -> InventoryLoad.orElse a b <> "".
Proof.
  intros Hb. unfold InventoryLoad.orElse. destruct (Js.truthy a) eqn:T; [|assumption].
  now apply truthy_nonempty.
Qed.

(** C8.  Mounting issues exactly one request, a GET of
    [/api/php/get_inventory.php].  Whatever the way it settles,
    [isInventoryLoaded] is [true] at the end; when the response is not ok,
    or its body does not parse, or the request itself fails, the inventory
    is the empty object and a non-empty error message is stored; otherwise
    the inventory is the parsed body and the error is [null]. *)
Theorem C8_inventory_load (result : InventoryLoad.FetchResult)
    (st : InventoryContext.HookState) :
  let requests := fst (InventoryLoad.fetchInitialInventory result st) in
  let final := snd (InventoryLoad.fetchInitialInventory result st) in
  requests = [InventoryLoad.mkRequest "GET" "/api/php/get_inventory.php"] /\
  InventoryContext.isInventoryLoaded final = true /\
  (InventoryLoad.failed result ->
     InventoryContext.inventory final = [] /\
     exists message, InventoryContext.error final = Some message /\ message <> "") /\
  (forall response message data,
     result = InventoryLoad.FetchResolved response ->
     InventoryLoad.ok response = true ->
     InventoryLoad.json response = InventoryLoad.JsonObject message data ->
     InventoryContext.inventory final = data /\ InventoryContext.error final = None).
Proof.
  simpl. split; [reflexivity|]. split; [reflexivity|]. split.
  - intros F.
    assert (E : exists m, InventoryLoad.tryBlock result = inl m).
    { destruct result as [reason|response]; simpl; [eauto|].
      destruct F as [F|(reason & F)].
      - rewrite F. simpl. eauto.
      - rewrite F. destruct (negb (InventoryLoad.ok response)); eauto. }
    destruct E as (m & ->). simpl. split; [reflexivity|].
    eexists. split; [reflexivity|]. apply orElse_nonempty. discriminate.
  - intros response message data -> Hok Hjson. simpl. rewrite Hok, Hjson. simpl. auto.
Qed.

Lemma C8_inventory_load_witness :
  InventoryLoad.failed
    (InventoryLoad.FetchResolved
       (InventoryLoad.mkResponse false 503 "Service Unavailable"
          (InventoryLoad.JsonRejected "Unexpected token < in JSON"))) /\
  InventoryContext.inventory
    (snd (InventoryLoad.fetchInitialInventory
            (InventoryLoad.FetchResolved
               (InventoryLoad.mkResponse false 503 "Service Unavailable"
                  (InventoryLoad.JsonRejected "Unexpected token < in JSON")))
            InventoryLoad.initialState)) = [].
Proof.
  assert (F : InventoryLoad.failed
    (InventoryLoad.FetchResolved
       (InventoryLoad.mkResponse false 503 "Service Unavailable"
          (InventoryLoad.JsonRejected "Unexpected token < in JSON")))).
  { simpl. left. reflexivity. }
  split; [exact F|].
  exact (proj1 (proj1 (proj2 (proj2 (C8_inventory_load _ InventoryLoad.initialState))) F)).
Defined.

Example inventory_load_samples :
  InventoryContext.error
    (snd (InventoryLoad.fetchInitialInventory
            (InventoryLoad.FetchResolved
               (InventoryLoad.mkResponse false 503 "Service Unavailable"
                  (InventoryLoad.JsonRejected "Unexpected token < in JSON")))
            InventoryLoad.initialState)) = Some "Error del servidor: 503" /\
  snd (InventoryLoad.fetchInitialInventory
         (InventoryLoad.FetchResolved
            (InventoryLoad.mkResponse true 200 "OK"
               (InventoryLoad.JsonObject None Samples.inventory)))
         InventoryLoad.initialState)
    = InventoryContext.mkHookState Samples.inventory true None /\
  snd (InventoryLoad.fetchInitialInventory (InventoryLoad.FetchRejected "")
         InventoryLoad.initialState)
    = InventoryContext.mkHookState [] true (Some "No se pudo cargar el inventario.").
Proof. repeat split; vm_compute; reflexivity. Qed.

(** ** C2: the chart, caja and invoices data live in local storage *)

Ltac local_events :=
  repeat (apply List.Forall_cons;
    [unfold Storage.localOnly, Storage.storageKeys; simpl; auto 10|]);
  apply List.Forall_nil.

Section LocalStorageOnly.
Context {Sale Invoice Settings : Type}.
Variable parseSales : string -> option (list Sale).
Variable parseInvoices : string -> option (list Invoice).
Variable stringifyInvoices : list Invoice -> string.
Variable parseSettings : string -> option Settings.
Variable stringifySettings : Settings -> string.
Variable defaultSettings : Settings.

Let perform := Storage.perform Sale Invoice Settings parseSales parseInvoices
                 stringifyInvoices parseSettings stringifySettings defaultSettings.

(** C2.  Every access that the chart page, the invoices page and the caja
    page make to the sales histories, the invoice records and the caja
    settings is a read, write or removal of one of the local-storage keys
    ['salesHistory'], ['wholesaleSalesHistory'], ['invoiceHistoryBeautyApp']
    and ['cajaSettingsBeautyApp']; none of them is a network request and no
    other key is changed.  What the chart page loads is what these keys
    hold, and saving invoices or caja settings stores their JSON text under
    the corresponding key. *)
Theorem C2_local_storage_only (a : Storage.PageAction Invoice Settings)
    (ls : gmap string string) :
  Forall Storage.localOnly (snd (perform a ls)) /\
  (forall method url, ~ In (Storage.NetworkFetch method url) (snd (perform a ls))) /\
  (forall k, ~ In k Storage.storageKeys -> fst (perform a ls) !! k = ls !! k) /\
  (forall invoices,
     fst (perform (Storage.InvoicesSave Invoice Settings true invoices) ls)
       !! "invoiceHistoryBeautyApp" = Some (stringifyInvoices invoices)) /\
  (forall settings,
     fst (perform (Storage.CajaSaveSettings Invoice Settings true settings) ls)
       !! "cajaSettingsBeautyApp" = Some (stringifySettings settings)) /\
  fst (fst (Storage.graficaLoad Sale Invoice parseSales parseInvoices true ls))
    = Some (Storage.parseOrEmpty parseSales (ls !! "salesHistory"),
            Storage.parseOrEmpty parseSales (ls !! "wholesaleSalesHistory"),
            Storage.parseOrEmpty parseInvoices (ls !! "invoiceHistoryBeautyApp")).
Proof.
  assert (L : Forall Storage.localOnly (snd (perform a ls))).
  { subst perform. destruct a as [c| |c i| |c ad|ad s]; simpl.
    - destruct c; simpl; local_events.
    - unfold Storage.invoicesLoad, Storage.bind, Storage.getItem. simpl.
      destruct (ls !! Storage.INVOICES_LOCAL_STORAGE_KEY) as [s|]; simpl.
      + destruct (Js.truthy s); simpl.
        * destruct (parseInvoices s); simpl; local_events.
        * local_events.
      + local_events.
    - destruct c; simpl; local_events.
    - unfold Storage.cajaLoadSettings, Storage.bind, Storage.getItem. simpl.
      destruct (ls !! Storage.CAJA_SETTINGS_LOCAL_STORAGE_KEY) as [s|]; simpl.
      + destruct (Js.truthy s); simpl; local_events.
      + local_events.
    - destruct c, ad; simpl; local_events.
    - destruct ad; simpl; local_events. }
  split; [exact L|]. split; [|split; [|split; [|split]]].
  - intros method url Hin. rewrite List.Forall_forall in L. exact (L _ Hin).
  - intros k Hk. subst perform. destruct a as [c| |c i| |c ad|ad s]; simpl.
    + destruct c; reflexivity.
    + unfold Storage.invoicesLoad, Storage.bind, Storage.getItem. simpl.
      destruct (ls !! Storage.INVOICES_LOCAL_STORAGE_KEY) as [s|]; simpl; [|reflexivity].
      destruct (Js.truthy s); simpl; [|reflexivity].
      destruct (parseInvoices s); simpl; [reflexivity|].
      apply lookup_delete_ne. intros <-. apply Hk. simpl. auto.
    + destruct c; simpl; [|reflexivity].
      apply lookup_insert_ne. intros <-. apply Hk. simpl. auto.
    + unfold Storage.cajaLoadSettings, Storage.bind, Storage.getItem. simpl.
      destruct (ls !! Storage.CAJA_SETTINGS_LOCAL_STORAGE_KEY) as [s|]; simpl; [|reflexivity].
      destruct (Js.truthy s); reflexivity.
    + destruct c, ad; reflexivity.
    + destruct ad; simpl; [|reflexivity].
      apply lookup_insert_ne. intros <-. apply Hk. simpl. auto 10.
  - intros invoices. subst perform. simpl. apply lookup_insert_eq.
  - intros settings. subst perform. simpl. apply lookup_insert_eq.
  - reflexivity.
Qed.
End LocalStorageOnly.

(** ** C1: the daily sales of a product *)

Lemma chart_map_get_set m k v k' :
  Chart.map_get (Chart.map_set m k v) k' =
  if String.eqb k k' then Some v else Chart.map_get m k'.
Proof.
  induction m as [|[k0 v0] m IH]; simpl.
  - reflexivity.
  - destruct (String.eqb k0 k) eqn:E; simpl.
    + apply String.eqb_eq in E. subst k0. destruct (String.eqb k k'); reflexivity.
    + destruct (String.eqb k0 k') eqn:E'.
      * apply String.eqb_eq in E'. subst k0.
        rewrite String.eqb_sym in E. now rewrite E.
      * apply IH.
Qed.























(** January 2024 for barcode 7701: 12 units on the 3rd, 4 on the 31st. *)
Example chart_january :
  exists points,
    Chart.productSalesChartEffect (Some "7701") (Some ChartSamples.january) true
      ChartSamples.regularSales ChartSamples.wholesaleSales = Chart.SetData points /\
    length points = 31%nat /\
    nth_error points 0 = Some (Chart.mkChartDataPoint "01/01" 0) /\
    nth_error points 2 = Some (Chart.mkChartDataPoint "03/01" 12) /\
    nth_error points 30 = Some (Chart.mkChartDataPoint "31/01" 4).
Proof. eexists. repeat split; vm_compute; reflexivity. Qed.

(** ** C9: the supplier entry is all or nothing *)

Section Transactional.
Variable fails : nat -> bool.

Lemma transactional_ret {A : Type} (a : A) :
  SupplierEntryPhp.transactional (SupplierEntryPhp.ret a).
Proof. intros pdo H. simpl. auto. Qed.

Lemma transactional_throw {A : Type} (e : string) :
  SupplierEntryPhp.transactional (@SupplierEntryPhp.throw A e).
Proof. intros pdo H. simpl. auto. Qed.

Lemma transactional_bind {A B : Type} (m : SupplierEntryPhp.M A)
    (k : A -> SupplierEntryPhp.M B) :
  SupplierEntryPhp.transactional m ->
  (forall a, SupplierEntryPhp.transactional (k a)) ->
  SupplierEntryPhp.transactional (SupplierEntryPhp.bind m k).
Proof.
  intros Hm Hk pdo H. unfold SupplierEntryPhp.bind.
  destruct (Hm pdo H) as [H1 H2]. destruct (m pdo) as [[e|a] pdo1]; simpl in *.
  - auto.
  - destruct (Hk a pdo1 H1) as [H3 H4]. split; congruence.
Qed.

Lemma transactional_execute {A : Type}
    (statement : SupplierEntryPhp.Database -> A * SupplierEntryPhp.Database) :
  SupplierEntryPhp.transactional (SupplierEntryPhp.execute fails statement).
Proof.
  intros pdo H. unfold SupplierEntryPhp.execute.
  destruct (fails (SupplierEntryPhp.executed pdo)); simpl; [auto|].
  destruct (statement (SupplierEntryPhp.working pdo)) as [a db]. simpl.
  rewrite H. auto.
Qed.

Lemma transactional_forEach {A B : Type} (f : A -> SupplierEntryPhp.M B) l :
  (forall x, SupplierEntryPhp.transactional (f x)) ->
  SupplierEntryPhp.transactional (SupplierEntryPhp.forEach f l).
Proof.
  intros Hf. induction l as [|x l IH]; simpl.
  - apply transactional_ret.
  - apply transactional_bind; [apply Hf|]. intros y.
    apply transactional_bind; [apply IH|]. intros ys. apply transactional_ret.
Qed.

Ltac transactional_step :=
  first
    [ apply transactional_ret | apply transactional_throw
    | apply transactional_execute
    | apply transactional_bind; [|intros ?]
    | match goal with
      | |- SupplierEntryPhp.transactional (match ?x with _ => _ end) => destruct x
      | |- SupplierEntryPhp.transactional (if ?x then _ else _) => destruct x
      end ].

Lemma transactional_processProduct entry_id pos_id product_data :
  SupplierEntryPhp.transactional
    (SupplierEntryPhp.processProduct fails entry_id pos_id product_data).
Proof.
  unfold SupplierEntryPhp.processProduct, SupplierEntryPhp.select, SupplierEntryPhp.update.
  repeat transactional_step.
Qed.

Lemma transactional_tryBlock entry_id date_time input_data :
  SupplierEntryPhp.transactional
    (SupplierEntryPhp.tryBlock fails entry_id date_time input_data).
Proof.
  unfold SupplierEntryPhp.tryBlock, SupplierEntryPhp.select, SupplierEntryPhp.update.
  apply transactional_bind; [apply transactional_execute|]. intros [pos_id|].
  - apply transactional_bind; [repeat transactional_step|]. intros u.
    apply transactional_bind; [apply transactional_execute|]. intros _.
    apply transactional_forEach. intros x. apply transactional_processProduct.
  - apply transactional_throw.
Qed.
End Transactional.

Section Logs.
Variable fails : nat -> bool.

Lemma logs_ret {A : Type} (a : A) : SupplierEntryPhp.logs 0 0 (SupplierEntryPhp.ret a).
Proof. intros pdo a' pdo' [= <- <-]. lia. Qed.

Lemma logs_throw {A : Type} k n (e : string) :
  SupplierEntryPhp.logs k n (@SupplierEntryPhp.throw A e).
Proof. intros pdo a pdo' H. discriminate. Qed.

Lemma logs_bind {A B : Type} k1 n1 k2 n2 (m : SupplierEntryPhp.M A)
    (f : A -> SupplierEntryPhp.M B) :
  SupplierEntryPhp.logs k1 n1 m ->
  (forall a, SupplierEntryPhp.logs k2 n2 (f a)) ->
  SupplierEntryPhp.logs (k1 + k2) (n1 + n2) (SupplierEntryPhp.bind m f).
Proof.
  intros Hm Hf pdo b pdo'. unfold SupplierEntryPhp.bind.
  destruct (m pdo) as [[e|a] pdo1] eqn:E; [discriminate|].
  intros H. destruct (Hm _ _ _ E) as [H1 H2]. destruct (Hf a _ _ _ H) as [H3 H4]. lia.
Qed.

Lemma logs_execute {A : Type} k n
    (statement : SupplierEntryPhp.Database -> A * SupplierEntryPhp.Database) :
  (forall db,
     length (SupplierEntryPhp.supplier_entry_items (snd (statement db)))
       = (length (SupplierEntryPhp.supplier_entry_items db) + n)%nat /\
     length (SupplierEntryPhp.supplier_entries (snd (statement db)))
       = (length (SupplierEntryPhp.supplier_entries db) + k)%nat) ->
  SupplierEntryPhp.logs k n (SupplierEntryPhp.execute fails statement).
Proof.
  intros Hs pdo a pdo'. unfold SupplierEntryPhp.execute.
  destruct (fails (SupplierEntryPhp.executed pdo)); [discriminate|].
  specialize (Hs (SupplierEntryPhp.working pdo)).
  destruct (statement (SupplierEntryPhp.working pdo)) as [a' db].
  intros [= <- <-]. simpl in *. exact Hs.
Qed.

Lemma logs_select {A : Type} (q : SupplierEntryPhp.Database -> A) :
  SupplierEntryPhp.logs 0 0 (SupplierEntryPhp.select fails q).
Proof. apply logs_execute. intros db. simpl. lia. Qed.

Lemma logs_set_products f :
  SupplierEntryPhp.logs 0 0
    (SupplierEntryPhp.update fails (SupplierEntryPhp.set_products f)).
Proof. apply logs_execute. intros db. simpl. lia. Qed.

Lemma logs_set_stock f :
  SupplierEntryPhp.logs 0 0 (SupplierEntryPhp.update fails (SupplierEntryPhp.set_stock f)).
Proof. apply logs_execute. intros db. simpl. lia. Qed.

Lemma logs_add_item row :
  SupplierEntryPhp.logs 0 1 (SupplierEntryPhp.update fails (SupplierEntryPhp.add_item row)).
Proof. apply logs_execute. intros db. simpl. rewrite length_app. simpl. lia. Qed.

Lemma logs_add_entry row :
  SupplierEntryPhp.logs 1 0 (SupplierEntryPhp.update fails (SupplierEntryPhp.add_entry row)).
Proof. apply logs_execute. intros db. simpl. rewrite length_app. simpl. lia. Qed.

Lemma logs_processProduct entry_id pos_id product_data :
  SupplierEntryPhp.logs 0 1
    (SupplierEntryPhp.processProduct fails entry_id pos_id product_data).
Proof.
  unfold SupplierEntryPhp.processProduct.
  destruct (SupplierEntryPhp.invalidProduct product_data); [apply logs_throw|].
  apply (logs_bind 0 0 0 1); [apply logs_select|]. intros existing_product.
  apply (logs_bind 0 0 0 1).
  { destruct existing_product as [existing|]; [|apply logs_set_products].
    match goal with |- context [if ?c then _ else _] => destruct c end;
      [apply logs_set_products|apply logs_ret]. }
  intros _. apply (logs_bind 0 1 0 0); [apply logs_add_item|]. intros _.
  apply (logs_bind 0 0 0 0); [apply logs_select|]. intros existing_stock_item.
  apply (logs_bind 0 0 0 0).
  { destruct existing_stock_item; apply logs_set_stock. }
  intros _. apply logs_ret.
Qed.

Lemma logs_forEach {A B : Type} (f : A -> SupplierEntryPhp.M B) l :
  (forall x, SupplierEntryPhp.logs 0 1 (f x)) ->
  SupplierEntryPhp.logs 0 (length l) (SupplierEntryPhp.forEach f l).
Proof.
  intros Hf. induction l as [|x l IH]; simpl.
  - apply logs_ret.
  - apply (logs_bind 0 1 0 (length l)); [apply Hf|]. intros y.
    replace (length l) with (length l + 0)%nat by lia.
    apply (logs_bind 0 (length l) 0 0); [apply IH|]. intros ys. apply logs_ret.
Qed.

Lemma logs_tryBlock entry_id date_time input_data :
  SupplierEntryPhp.logs 1 (length (SupplierEntryPhp.in_products input_data))
    (SupplierEntryPhp.tryBlock fails entry_id date_time input_data).
Proof.
  unfold SupplierEntryPhp.tryBlock.
  apply (logs_bind 0 0 1 (length (SupplierEntryPhp.in_products input_data)));
    [apply logs_select|].
  intros [pos_id|]; [|apply logs_throw].
  apply (logs_bind 0 0 1 (length (SupplierEntryPhp.in_products input_data))).
  { destruct (SupplierEntryPhp.php_empty _); [apply logs_ret|apply logs_select]. }
  intros u.
  apply (logs_bind 1 0 0 (length (SupplierEntryPhp.in_products input_data)));
    [apply logs_add_entry|].
  intros _. apply logs_forEach. intros x. apply logs_processProduct.
Qed.
End Logs.

(** A response other than 201 leaves the committed state as it was. *)
Lemma add_supplier_entry_rollback (fails : nat -> bool) (entry_id date_time : string)
    (input : option SupplierEntryPhp.InputData) (db : SupplierEntryPhp.Database) :
  SupplierEntryPhp.status
    (fst (SupplierEntryPhp.add_supplier_entry fails entry_id date_time input
            (SupplierEntryPhp.connect db))) <> 201 ->
  SupplierEntryPhp.committed
    (snd (SupplierEntryPhp.add_supplier_entry fails entry_id date_time input
            (SupplierEntryPhp.connect db))) = db.
Proof.
  unfold SupplierEntryPhp.add_supplier_entry.
  destruct input as [input_data|]; simpl; [|reflexivity].
  destruct (_ || _ || _ || _)%bool; simpl; [reflexivity|].
  pose proof (transactional_tryBlock fails entry_id date_time input_data
                (SupplierEntryPhp.beginTransaction (SupplierEntryPhp.connect db))
                eq_refl) as [T1 T2].
  destruct (SupplierEntryPhp.tryBlock fails entry_id date_time input_data
              (SupplierEntryPhp.beginTransaction (SupplierEntryPhp.connect db)))
    as [[e|processed] pdo1]; simpl in *.
  - rewrite T1. simpl. intros _. exact T2.
  - intros H. now contradiction H.
Qed.

(** C9 (amended).  The script runs steps 1 to 4 inside one transaction:
    whichever statement fails, and whichever product of the list is
    rejected, a response other than 201 leaves the committed state of the
    database (supplier entry, product catalogue, per-POS stock) exactly as it
    was; a 201 response commits the whole entry at once, one row in
    [supplier_entries] and one row in [supplier_entry_items] per product of
    the payload.  No transaction is left open. *)
Theorem C9_supplier_entry_atomic (fails : nat -> bool) (entry_id date_time : string)
    (input : option SupplierEntryPhp.InputData) (db : SupplierEntryPhp.Database) :
  let response :=
    fst (SupplierEntryPhp.add_supplier_entry fails entry_id date_time input
           (SupplierEntryPhp.connect db)) in
  let pdo :=
    snd (SupplierEntryPhp.add_supplier_entry fails entry_id date_time input
           (SupplierEntryPhp.connect db)) in
  SupplierEntryPhp.inTransaction pdo = false /\
  (SupplierEntryPhp.status response <> 201 -> SupplierEntryPhp.committed pdo = db) /\
  (SupplierEntryPhp.status response = 201 ->
     exists input_data,
       input = Some input_data /\
       length (SupplierEntryPhp.supplier_entries (SupplierEntryPhp.committed pdo))
         = (length (SupplierEntryPhp.supplier_entries db) + 1)%nat /\
       length (SupplierEntryPhp.supplier_entry_items (SupplierEntryPhp.committed pdo))
         = (length (SupplierEntryPhp.supplier_entry_items db)
            + length (SupplierEntryPhp.in_products input_data))%nat).
Proof.
  intros response pdo.
  split; [|split; [apply add_supplier_entry_rollback|]]; subst response pdo;
    unfold SupplierEntryPhp.add_supplier_entry.
  - destruct input as [input_data|]; simpl; [|reflexivity].
    destruct (_ || _ || _ || _)%bool; simpl; [reflexivity|].
    pose proof (transactional_tryBlock fails entry_id date_time input_data
                  (SupplierEntryPhp.beginTransaction (SupplierEntryPhp.connect db))
                  eq_refl) as [T1 _].
    destruct (SupplierEntryPhp.tryBlock fails entry_id date_time input_data
                (SupplierEntryPhp.beginTransaction (SupplierEntryPhp.connect db)))
      as [[e|processed] pdo1]; simpl in *; [|reflexivity].
    rewrite T1. reflexivity.
  - destruct input as [input_data|]; simpl; [|discriminate].
    destruct (_ || _ || _ || _)%bool; simpl; [discriminate|].
    pose proof (logs_tryBlock fails entry_id date_time input_data
                  (SupplierEntryPhp.beginTransaction (SupplierEntryPhp.connect db))) as L.
    destruct (SupplierEntryPhp.tryBlock fails entry_id date_time input_data
                (SupplierEntryPhp.beginTransaction (SupplierEntryPhp.connect db)))
      as [[e|processed] pdo1]; simpl in *; [discriminate|].
    intros _. exists input_data. split; [reflexivity|].
    destruct (L processed pdo1 eq_refl) as [L1 L2]. simpl in L1, L2. lia.
Qed.

Lemma C9_supplier_entry_atomic_witness :
  SupplierEntryPhp.status
    (fst (SupplierEntryPhp.add_supplier_entry PhpSamples.sixthFails "supplier-1"
            "2024-05-01 10:00:00" (Some (PhpSamples.request [PhpSamples.goodLine]))
            (SupplierEntryPhp.connect PhpSamples.db0))) <> 201 /\
  SupplierEntryPhp.committed
    (snd (SupplierEntryPhp.add_supplier_entry PhpSamples.sixthFails "supplier-1"
            "2024-05-01 10:00:00" (Some (PhpSamples.request [PhpSamples.goodLine]))
            (SupplierEntryPhp.connect PhpSamples.db0))) = PhpSamples.db0.
Proof.
  assert (H : SupplierEntryPhp.status
    (fst (SupplierEntryPhp.add_supplier_entry PhpSamples.sixthFails "supplier-1"
            "2024-05-01 10:00:00" (Some (PhpSamples.request [PhpSamples.goodLine]))
            (SupplierEntryPhp.connect PhpSamples.db0))) <> 201)
    by (vm_compute; discriminate).
  split; [exact H|].
  exact (proj1 (proj2 (C9_supplier_entry_atomic PhpSamples.sixthFails "supplier-1"
                         "2024-05-01 10:00:00"
                         (Some (PhpSamples.request [PhpSamples.goodLine]))
                         PhpSamples.db0)) H).
Defined.

(** C9 as stated fails on the code: the second line of the request is
    rejected after the first one was written, and the committed state is the
    one before the request; no failure leaves a partial update behind. *)
Lemma C9_partial_update_counterexample :
  (exists e pdo,
     SupplierEntryPhp.tryBlock PhpSamples.noFailure "supplier-1" "2024-05-01 10:00:00"
       (PhpSamples.request [PhpSamples.goodLine; PhpSamples.badLine])
       (SupplierEntryPhp.beginTransaction (SupplierEntryPhp.connect PhpSamples.db0))
       = (inl e, pdo) /\
     length (SupplierEntryPhp.supplier_entries (SupplierEntryPhp.working pdo)) = 1%nat /\
     length (SupplierEntryPhp.supplier_entry_items (SupplierEntryPhp.working pdo)) = 1%nat /\
     SupplierEntryPhp.quantity <$>
       (SupplierEntryPhp.inventory_stock (SupplierEntryPhp.working pdo) !! ("7710", 1))
       = Some 6) /\
  SupplierEntryPhp.status
    (fst (SupplierEntryPhp.add_supplier_entry PhpSamples.noFailure "supplier-1"
            "2024-05-01 10:00:00"
            (Some (PhpSamples.request [PhpSamples.goodLine; PhpSamples.badLine]))
            (SupplierEntryPhp.connect PhpSamples.db0))) = 500 /\
  SupplierEntryPhp.committed
    (snd (SupplierEntryPhp.add_supplier_entry PhpSamples.noFailure "supplier-1"
            "2024-05-01 10:00:00"
            (Some (PhpSamples.request [PhpSamples.goodLine; PhpSamples.badLine]))
            (SupplierEntryPhp.connect PhpSamples.db0))) = PhpSamples.db0 /\
  ~ (exists fails entry_id date_time input db,
       SupplierEntryPhp.status
         (fst (SupplierEntryPhp.add_supplier_entry fails entry_id date_time input
                 (SupplierEntryPhp.connect db))) <> 201 /\
       SupplierEntryPhp.committed
         (snd (SupplierEntryPhp.add_supplier_entry fails entry_id date_time input
                 (SupplierEntryPhp.connect db))) <> db).
Proof.
  split; [|split; [|split]].
  - eexists; eexists. split; [vm_compute; reflexivity|].
    repeat split; vm_compute; reflexivity.
  - vm_compute. reflexivity.
  - vm_compute. reflexivity.
  - intros (fails & entry_id & date_time & input & db & H1 & H2). apply H2.
    exact (add_supplier_entry_rollback fails entry_id date_time input db H1).
Qed.

(** A request whose lines are all valid is committed whole. *)
Example supplier_entry_committed :
  SupplierEntryPhp.status
    (fst (SupplierEntryPhp.add_supplier_entry PhpSamples.noFailure "supplier-1"
            "2024-05-01 10:00:00" (Some (PhpSamples.request [PhpSamples.goodLine]))
            (SupplierEntryPhp.connect PhpSamples.db0))) = 201 /\
  SupplierEntryPhp.quantity <$>
    (SupplierEntryPhp.inventory_stock
       (SupplierEntryPhp.committed
          (snd (SupplierEntryPhp.add_supplier_entry PhpSamples.noFailure "supplier-1"
                  "2024-05-01 10:00:00" (Some (PhpSamples.request [PhpSamples.goodLine]))
                  (SupplierEntryPhp.connect PhpSamples.db0)))) !! ("7710", 1))
    = Some 6.
Proof. split; vm_compute; reflexivity. Qed.

Lemma C2_local_storage_only_witness :
  ~ In "authToken" Storage.storageKeys /\
  fst (Storage.perform string string string StorageSamples.parseLines
         StorageSamples.parseLines StorageSamples.stringifyLines
         StorageSamples.parseText StorageSamples.stringifyText "defaults"
         (Storage.InvoicesSave string string true ["F-001"; "F-002"])
         {[ "authToken" := "abc" ]}) !! "authToken"
  = ({[ "authToken" := "abc" ]} : gmap string string) !! "authToken".
Proof.
  assert (H : ~ In "authToken" Storage.storageKeys).
  { simpl. intros [H|[H|[H|[H|[]]]]]; discriminate. }
  split; [exact H|].
  exact (proj1 (proj2 (proj2 (C2_local_storage_only StorageSamples.parseLines
           StorageSamples.parseLines StorageSamples.stringifyLines
           StorageSamples.parseText StorageSamples.stringifyText "defaults"
           (Storage.InvoicesSave string string true ["F-001"; "F-002"])
           {[ "authToken" := "abc" ]}))) "authToken" H).
Defined.

(** A stored text that does not parse is removed by the invoices page; the
    caja page falls back to its defaults without writing. *)
Example storage_samples :
  snd (Storage.perform string string string StorageSamples.parseLines
         StorageSamples.parseLines StorageSamples.stringifyLines
         StorageSamples.parseText StorageSamples.stringifyText "defaults"
         (Storage.InvoicesLoad string string)
         {[ "invoiceHistoryBeautyApp" := "not json" ]})
  = [ Storage.LocalStorageGet "invoiceHistoryBeautyApp";
      Storage.LocalStorageRemove "invoiceHistoryBeautyApp" ] /\
  Storage.cajaLoadSettings string StorageSamples.parseText "defaults"
    {[ "cajaSettingsBeautyApp" := "not json" ]}
  = ("defaults", {[ "cajaSettingsBeautyApp" := "not json" ]},
     [ Storage.LocalStorageGet "cajaSettingsBeautyApp" ]).
Proof. split; vm_compute; reflexivity. Qed.

(** * Further properties of the code *)

(** ** Points of sale in alphabetical order *)

Lemma string_leb_trans a b c :
  String.leb a b = true -> String.leb b c = true -> String.leb a c = true.
Proof.
  unfold String.leb. revert b c.
  induction a as [|x a IH]; intros [|y b] [|z c]; simpl; try congruence.
  unfold Ascii.compare.
  destruct (N.compare_spec (N_of_ascii x) (N_of_ascii y)) as [E1|L1|G1];
    destruct (N.compare_spec (N_of_ascii y) (N_of_ascii z)) as [E2|L2|G2];
    destruct (N.compare_spec (N_of_ascii x) (N_of_ascii z)) as [E3|L3|G3];
    try congruence; try lia.
  apply IH.
Qed.

Lemma string_leb_refl a : String.leb a a = true.
Proof. destruct (String.leb_total a a); assumption. Qed.

Lemma searchAccessible_first inv accessible identifier p pos :
  InventoryContext.searchAccessible inv accessible identifier = Some (p, pos) ->
  exists l1 l2, accessible = l1 ++ pos :: l2 /\
    UseInventory.getProductDetailsInPos inv pos identifier = Some p /\
    forall pos', In pos' l1 ->
      UseInventory.getProductDetailsInPos inv pos' identifier = None.
Proof.
  induction accessible as [|a accessible IH]; simpl; [discriminate|].
  destruct (UseInventory.getProductDetailsInPos inv a identifier) as [q|] eqn:E.
  - intros [= -> ->]. exists [], accessible. split; [reflexivity|]. split; [exact E|].
    intros pos' [].
  - intros H. destruct (IH H) as (l1 & l2 & -> & H1 & H2).
    exists (a :: l1), l2. split; [reflexivity|]. split; [exact H1|].
    intros pos' [<-|Hin]; auto.
Qed.

Lemma searchAccessible_None inv accessible identifier :
  InventoryContext.searchAccessible inv accessible identifier = None <->
  forall pos, In pos accessible ->
    UseInventory.getProductDetailsInPos inv pos identifier = None.
Proof.
  induction accessible as [|a accessible IH]; simpl.
  - split; [intros _ pos []|reflexivity].
  - destruct (UseInventory.getProductDetailsInPos inv a identifier) as [q|] eqn:E.
    + split; [discriminate|]. intros H. specialize (H a (or_introl eq_refl)). congruence.
    + rewrite IH. split.
      * intros H pos [<-|Hin]; auto.
      * intros H pos Hin. apply H. now right.
Qed.

Lemma searchPos_None inv poss identifier :
  UseInventory.searchPos inv poss identifier = None <->
  forall pos, In pos poss ->
    UseInventory.getProductDetailsInPos inv pos identifier = None.
Proof.
  induction poss as [|a poss IH]; simpl.
  - split; [intros _ pos []|reflexivity].
  - destruct (UseInventory.getProductDetailsInPos inv a identifier) as [q|] eqn:E.
    + split; [discriminate|]. intros H. specialize (H a (or_introl eq_refl)). congruence.
    + rewrite IH. split.
      * intros H pos [<-|Hin]; auto.
      * intros H pos Hin. apply H. now right.
Qed.

Lemma Sorted_leb_app_least l1 x l2 y :
  Sorted (fun a b => String.leb a b = true) (l1 ++ x :: l2) ->
  In y (x :: l2) -> String.leb x y = true.
Proof.
  intros S Hin.
  apply Sorted_StronglySorted in S; [|intros a b c; apply string_leb_trans].
  induction l1 as [|z l1 IH]; simpl in S.
  - destruct Hin as [<-|Hin]; [apply string_leb_refl|].
    apply StronglySorted_inv in S. destruct S as [_ F].
    rewrite List.Forall_forall in F. now apply F.
  - apply StronglySorted_inv in S. destruct S as [S _]. now apply IH.
Qed.

(** X1. [getPointsOfSale] returns the keys of the inventory in ascending
    code-unit order: the result is a permutation of [Object.keys(inventory)],
    adjacent names are in order, every name is at most every name that comes
    after it, and the list has no duplicates when the keys of the inventory
    are unique. *)
Theorem X1_getPointsOfSale_sorted (inv : Inventory) :
  Permutation (InventoryContext.getPointsOfSale inv) (Js.obj_keys inv) /\
  Sorted (fun a b => String.leb a b = true) (InventoryContext.getPointsOfSale inv) /\
  (forall l1 x l2 y,
     InventoryContext.getPointsOfSale inv = l1 ++ x :: l2 -> In y l2 ->
     String.leb x y = true) /\
  (wf_inventory inv -> NoDup (InventoryContext.getPointsOfSale inv)).
Proof.
  assert (P : Permutation (InventoryContext.getPointsOfSale inv) (Js.obj_keys inv))
    by apply sort_perm.
  split; [exact P|]. split; [apply sortStrings_sorted|]. split.
  - intros l1 x l2 y E Hin. apply (Sorted_leb_app_least l1 x l2 y).
    + rewrite <- E. apply sortStrings_sorted.
    + now right.
  - intros WF. rewrite P. now apply wf_inventory_keys.
Qed.

(** X2. For a user whose [allowedPOS] contains ['*'],
    [getPointsOfSaleForUser] returns every point of sale, and
    [getProductDetailsForUser] returns [null] exactly when
    [getProductDetails] (exposed as [getProductDetailsAnywhere]) does.  The
    product it returns is the match of the alphabetically first point of sale
    that holds a match, because it walks the sorted list and not the
    enumeration order of the inventory. *)
Theorem X2_wildcard_user (inv : Inventory) (u : Auth.User) (identifier : string)
    (W : In "*" (Auth.allowedPOS u)) :
  InventoryContext.getPointsOfSaleForUser inv (Some u)
    = InventoryContext.getPointsOfSale inv /\
  (InventoryContext.getProductDetailsForUser inv (Some u) identifier = None <->
   UseInventory.getProductDetails inv identifier = None) /\
  (forall p pos,
     InventoryContext.getProductDetailsForUser inv (Some u) identifier = Some (p, pos) ->
     In pos (Js.obj_keys inv) /\
     UseInventory.getProductDetailsInPos inv pos identifier = Some p /\
     forall pos', In pos' (Js.obj_keys inv) ->
       UseInventory.getProductDetailsInPos inv pos' identifier <> None ->
       String.leb pos pos' = true).
Proof.
  assert (Hstar : Js.arr_includes (Auth.allowedPOS u) "*" = true)
    by now apply arr_includes_In.
  assert (Hlen : Nat.eqb (length (Auth.allowedPOS u)) 0 = false).
  { destruct (Auth.allowedPOS u); [destruct W|reflexivity]. }
  unfold InventoryContext.getPointsOfSaleForUser, InventoryContext.getProductDetailsForUser.
  rewrite Hstar, Hlen. split; [reflexivity|]. split.
  - unfold UseInventory.getProductDetails.
    rewrite searchAccessible_None, searchPos_None. split.
    + intros H pos Hin. apply H. now apply getPointsOfSale_In.
    + intros H pos Hin. apply H. now apply getPointsOfSale_In.
  - intros p pos H. apply searchAccessible_first in H.
    destruct H as (l1 & l2 & E & Hp & Hnone).
    assert (Hin : In pos (InventoryContext.getPointsOfSale inv)).
    { rewrite E. apply in_or_app. right. now left. }
    split; [now apply getPointsOfSale_In|]. split; [exact Hp|].
    intros pos' Hin' Hm. apply getPointsOfSale_In in Hin'. rewrite E in Hin'.
    apply in_app_or in Hin'. destruct Hin' as [H1|H2].
    + apply Hnone in H1. contradiction.
    + apply (Sorted_leb_app_least l1 pos l2 pos'); [|exact H2].
      rewrite <- E. apply sortStrings_sorted.
Qed.

Lemma X2_wildcard_user_witness :
  In "*" (Auth.allowedPOS Samples.admin) /\
  InventoryContext.getPointsOfSaleForUser Samples.inventory (Some Samples.admin)
    = InventoryContext.getPointsOfSale Samples.inventory.
Proof.
  assert (W : In "*" (Auth.allowedPOS Samples.admin)) by (simpl; auto).
  split; [exact W|].
  exact (proj1 (X2_wildcard_user Samples.inventory Samples.admin "7701" W)).
Defined.

(** ** Toasts *)

Lemma reducer_length_bound state action tm :
  (length (Toast.toasts state) <= Toast.TOAST_LIMIT)%nat ->
  (length (Toast.toasts (fst (Toast.reducer state action tm))) <= Toast.TOAST_LIMIT)%nat.
Proof.
  intros H. unfold Toast.TOAST_LIMIT in *. destruct action as [t|p|i|i]; simpl.
  - lia.
  - now rewrite length_map.
  - now rewrite length_map.
  - destruct i as [i|]; simpl; [|lia].
    etransitivity; [apply filter_length_le|exact H].
Qed.

Lemma step_toasts_bound st e :
  (length (Toast.toasts (Toast.memoryState st)) <= Toast.TOAST_LIMIT)%nat ->
  (length (Toast.toasts (Toast.memoryState (Toast.step st e))) <= Toast.TOAST_LIMIT)%nat.
Proof.
  intros H.
  assert (D : forall a s,
    (length (Toast.toasts (Toast.memoryState s)) <= Toast.TOAST_LIMIT)%nat ->
    (length (Toast.toasts (Toast.memoryState (Toast.dispatch a s))) <= Toast.TOAST_LIMIT)%nat).
  { intros a s Hs. unfold Toast.dispatch.
    pose proof (reducer_length_bound (Toast.memoryState s) a (Toast.toastTimeouts s) Hs) as B.
    destruct (Toast.reducer _ _ _) as [state tm]. exact B. }
  destruct e as [props|i props|i|i]; unfold Toast.step.
  - unfold Toast.toast, Toast.genId. cbn [snd]. apply D. exact H.
  - apply D, H.
  - apply D, H.
  - unfold Toast.timeoutFires. destruct (bool_decide _); [|exact H]. apply D. exact H.
Qed.

(** X3. Whatever sequence of [toast], [update], [dismiss] calls and removal
    timers has run since the module was loaded, at most [TOAST_LIMIT] (one)
    toast is held; and a call of [toast] leaves exactly the new toast, open,
    under the id it returns: the toast shown before is dropped. *)
Theorem X3_toast_limit (events : list Toast.Event) (props : Toast.Props) :
  let st := Toast.run events Toast.initial in
  (length (Toast.toasts (Toast.memoryState st)) <= Toast.TOAST_LIMIT)%nat /\
  Toast.toasts (Toast.memoryState (snd (Toast.toast props st))) =
    [ Toast.mkToasterToast (fst (Toast.toast props st)) (Toast.props_title props)
        (Toast.props_description props) (Toast.props_variant props) (Some true) ].
Proof.
  intros st. split.
  - subst st. unfold Toast.run.
    assert (G : forall s, (length (Toast.toasts (Toast.memoryState s)) <= Toast.TOAST_LIMIT)%nat ->
      (length (Toast.toasts (Toast.memoryState (fold_left Toast.step events s)))
         <= Toast.TOAST_LIMIT)%nat).
    { induction events as [|e events IH]; intros s Hs; simpl; [exact Hs|].
      apply IH, step_toasts_bound, Hs. }
    apply G. simpl. lia.
  - reflexivity.
Qed.

(** X4. Dismissing a toast by a non-empty id keeps every toast in place,
    closes ([open: false]) the toasts with that id, leaves the others as they
    were and registers a removal timer for the id.  When that timer fires,
    the toasts with that id are removed, the others stay, and the id no
    longer has a pending timer. *)
Theorem X4_dismiss_then_remove (st : Toast.Store) (toastId : string)
    (NE : toastId <> "") :
  let shown := Toast.toasts (Toast.memoryState st) in
  let st1 := Toast.dismiss (Some toastId) st in
  let st2 := Toast.timeoutFires toastId st1 in
  map Toast.id (Toast.toasts (Toast.memoryState st1)) = map Toast.id shown /\
  (forall t, In t (Toast.toasts (Toast.memoryState st1)) -> Toast.id t = toastId ->
     Toast.open t = Some false) /\
  (forall t, Toast.id t <> toastId ->
     (In t (Toast.toasts (Toast.memoryState st1)) <-> In t shown)) /\
  toastId ∈ Toast.toastTimeouts st1 /\
  Toast.toasts (Toast.memoryState st2) =
    List.filter (fun t => negb (String.eqb (Toast.id t) toastId)) shown /\
  toastId ∉ Toast.toastTimeouts st2.
Proof.
  intros shown st1 st2.
  assert (T : Js.truthy toastId = true) by now apply truthy_nonempty.
  assert (Q : toastId ∈ Toast.toastTimeouts st1).
  { subst st1. unfold Toast.dismiss, Toast.dispatch. simpl. rewrite T.
    unfold Toast.addToRemoveQueue. case_bool_decide; simpl; set_solver. }
  assert (E1 : Toast.toasts (Toast.memoryState st1) =
    map (fun t => if String.eqb (Toast.id t) toastId
                  then Toast.mkToasterToast (Toast.id t) (Toast.title t)
                          (Toast.description t) (Toast.variant t) (Some false)
                  else t) shown).
  { subst st1 shown. unfold Toast.dismiss, Toast.dispatch. simpl.
    apply map_ext. intros t. now rewrite orb_false_r. }
  split; [|split; [|split; [|split; [|split]]]].
  - rewrite E1, map_map. apply map_ext. intros t. now destruct (String.eqb _ _).
  - intros t Hin Hid. rewrite E1 in Hin. apply in_map_iff in Hin.
    destruct Hin as (t0 & <- & _).
    destruct (String.eqb (Toast.id t0) toastId) eqn:E; [reflexivity|].
    apply String.eqb_neq in E. contradiction.
  - intros t Hid. rewrite E1, in_map_iff. split.
    + intros (t0 & <- & Hin).
      destruct (String.eqb (Toast.id t0) toastId) eqn:E; [|exact Hin].
      apply String.eqb_eq in E. simpl in Hid. contradiction.
    + intros Hin. exists t. split; [|exact Hin].
      apply String.eqb_neq in Hid. now rewrite Hid.
  - exact Q.
  - subst st2. unfold Toast.timeoutFires. rewrite bool_decide_true by exact Q.
    unfold Toast.dispatch.
    set (st2' := let '(state, timeouts) := Toast.reducer _ _ _ in _).
    change (Toast.toasts (Toast.memoryState st2') =
            List.filter (fun t => negb (String.eqb (Toast.id t) toastId)) shown)
      with (List.filter (fun t => negb (String.eqb (Toast.id t) toastId))
              (Toast.toasts (Toast.memoryState st1)) =
            List.filter (fun t => negb (String.eqb (Toast.id t) toastId)) shown).
    rewrite E1. clear E1.
    induction shown as [|t l IH]; [reflexivity|]. simpl.
    destruct (String.eqb (Toast.id t) toastId) eqn:E; simpl; rewrite E; simpl.
    + exact IH.
    + now rewrite IH.
  - subst st2. unfold Toast.timeoutFires. rewrite bool_decide_true by exact Q.
    unfold Toast.dispatch. simpl.
    apply not_elem_of_difference. right. now apply elem_of_singleton.
Qed.

Lemma X4_dismiss_then_remove_witness :
  "1" <> "" /\
  Toast.toasts (Toast.memoryState
    (Toast.timeoutFires "1"
       (Toast.dismiss (Some "1")
          (snd (Toast.toast (Toast.mkProps (Some "Venta") None None None) Toast.initial)))))
  = [].
Proof.
  assert (NE : "1" <> "") by discriminate.
  split; [exact NE|].
  exact (proj1 (proj2 (proj2 (proj2 (proj2
    (X4_dismiss_then_remove
       (snd (Toast.toast (Toast.mkProps (Some "Venta") None None None) Toast.initial))
       "1" NE)))))).
Defined.

Lemma genId_count_iter (k : nat) (st : Toast.Store) :
  0 <= Toast.count st < Toast.MAX_SAFE_INTEGER ->
  Toast.count (Nat.iter k (fun s => snd (Toast.genId s)) st)
    = (Toast.count st + Z.of_nat k) mod Toast.MAX_SAFE_INTEGER.
Proof.
  intros R. induction k as [|k IH].
  - simpl. rewrite Z.add_0_r, Z.mod_small; [reflexivity|exact R].
  - rewrite Nat.iter_succ. unfold Toast.genId at 1. cbn [snd Toast.count].
    rewrite IH. rewrite Z.rem_mod_nonneg.
    + rewrite Zplus_mod_idemp_l. f_equal. lia.
    + pose proof (Z.mod_pos_bound (Toast.count st + Z.of_nat k) Toast.MAX_SAFE_INTEGER).
      unfold Toast.MAX_SAFE_INTEGER in *. lia.
    + unfold Toast.MAX_SAFE_INTEGER. lia.
Qed.

Lemma nthId_pretty (k : nat) (st : Toast.Store) :
  0 <= Toast.count st < Toast.MAX_SAFE_INTEGER ->
  Toast.nthId k st
    = pretty ((Toast.count st + Z.of_nat k + 1) mod Toast.MAX_SAFE_INTEGER).
Proof.
  intros R. unfold Toast.nthId, Toast.genId. cbn [fst]. rewrite genId_count_iter by exact R.
  f_equal. rewrite Z.rem_mod_nonneg.
  - now rewrite Zplus_mod_idemp_l.
  - pose proof (Z.mod_pos_bound (Toast.count st + Z.of_nat k) Toast.MAX_SAFE_INTEGER).
    unfold Toast.MAX_SAFE_INTEGER in *. lia.
  - unfold Toast.MAX_SAFE_INTEGER. lia.
Qed.

(** X5. [genId] starts from a counter in [0, MAX_SAFE_INTEGER): the ids
    returned by two of its calls are different whenever fewer than
    [MAX_SAFE_INTEGER] calls separate them (the counter wraps around only
    after that many calls). *)
Theorem X5_toast_ids_distinct (st : Toast.Store) (i j : nat)
    (R : 0 <= Toast.count st < Toast.MAX_SAFE_INTEGER)
    (Lt : (i < j)%nat)
    (W : Z.of_nat j - Z.of_nat i < Toast.MAX_SAFE_INTEGER) :
  Toast.nthId i st <> Toast.nthId j st.
Proof.
  rewrite !nthId_pretty by exact R. intros E. apply (inj pretty) in E.
  set (M := Toast.MAX_SAFE_INTEGER) in *.
  assert (HM : 0 < M) by (unfold M, Toast.MAX_SAFE_INTEGER; lia).
  set (a := Toast.count st + Z.of_nat i + 1) in *.
  set (b := Toast.count st + Z.of_nat j + 1) in *.
  assert (D : (b - a) mod M = 0).
  { rewrite Zminus_mod, <- E, Z.sub_diag. now apply Z.mod_0_l, Z.neq_sym, Z.lt_neq. }
  rewrite Z.mod_small in D by (unfold a, b; lia).
  unfold a, b in D. lia.
Qed.

Lemma X5_toast_ids_distinct_witness :
  0 <= Toast.count Toast.initial < Toast.MAX_SAFE_INTEGER /\
  Toast.nthId 0 Toast.initial <> Toast.nthId 1 Toast.initial.
Proof.
  assert (R : 0 <= Toast.count Toast.initial < Toast.MAX_SAFE_INTEGER).
  { vm_compute. split; [discriminate|reflexivity]. }
  split; [exact R|].
  apply (X5_toast_ids_distinct Toast.initial 0 1 R).
  - lia.
  - vm_compute. reflexivity.
Defined.

(** ** Signing in *)

Lemma credentialsMatch_spec username password user :
  AuthContext.credentialsMatch username password user = true <->
  Auth.username user = username /\ Auth.password user = Some password.
Proof.
  unfold AuthContext.credentialsMatch.
  rewrite andb_true_iff, String.eqb_eq, bool_decide_eq_true. reflexivity.
Qed.

Lemma find_credentials username password :
  match List.find (AuthContext.credentialsMatch username password) Auth.mockUsers with
  | Some user =>
      In user Auth.mockUsers /\ Auth.username user = username /\
      Auth.password user = Some password /\
      (Auth.id user = "user-0" <-> username = "" /\ password = "")
  | None =>
      forall user, In user Auth.mockUsers ->
        ~ (Auth.username user = username /\ Auth.password user = Some password)
  end.
Proof.
  destruct (List.find _ _) as [user|] eqn:F.
  - pose proof (find_some _ _ F) as [Hin Hm]. apply credentialsMatch_spec in Hm.
    destruct Hm as [Hu Hp]. split; [exact Hin|]. split; [exact Hu|]. split; [exact Hp|].
    simpl in Hin.
    destruct Hin as [<-|[<-|[<-|[<-|[]]]]]; simpl in *; subst username;
      injection Hp as <-; split; try discriminate; try (intros [? ?]; discriminate); auto.
  - intros user Hin Hm. apply credentialsMatch_spec in Hm.
    pose proof (find_none _ _ F user Hin) as N. congruence.
Qed.

(** X6. [login] returns [true] exactly when some mock user has the given
    user name and password.  A failed login sets the current user to
    ['user-0'] at once, which is not an authenticated user, and registers no
    timer.  After a successful login and its timer the current user is a user
    with these credentials and loading is over; that user is authenticated
    unless both the user name and the password are empty, in which case
    [login] has succeeded as ['user-0'].  [handleSubmit] of the login page
    navigates to ["/"] exactly when [login] returned [true]. *)
Theorem X6_login (username password : string) (st : AuthContext.State) :
  let r := AuthContext.login username password st in
  (fst r = true <->
   exists user, In user Auth.mockUsers /\ Auth.username user = username /\
                Auth.password user = Some password) /\
  (fst r = false ->
   AuthContext.currentUser (snd r) = AuthContext.noUser /\
   AuthContext.isAuthenticated (snd r) = false /\
   AuthContext.timers (snd r) = AuthContext.timers st) /\
  (fst r = true -> AuthContext.timers st = [] ->
   let st' := AuthContext.settle (snd r) in
   AuthContext.isLoading st' = false /\
   (exists user, AuthContext.currentUser st' = Some user /\
                 Auth.username user = username /\ Auth.password user = Some password) /\
   (AuthContext.isAuthenticated st' = false <-> username = "" /\ password = "")) /\
  AuthContext.pushed (snd (AuthContext.handleSubmit username password st)) =
    AuthContext.pushed st ++ (if fst r then ["/"] else []).
Proof.
  intros r. subst r. unfold AuthContext.handleSubmit, AuthContext.login.
  pose proof (find_credentials username password) as F.
  destruct (List.find _ _) as [user|]; cbn [fst snd].
  - destruct F as (Hin & Hu & Hp & Hid).
    split; [|split; [|split]].
    + split; [|reflexivity]. intros _. exists user. auto.
    + discriminate.
    + intros _ Ht. cbn [AuthContext.timers AuthContext.currentUser AuthContext.isLoading
                        AuthContext.pushed]. rewrite Ht.
      unfold AuthContext.settle. cbn. split; [reflexivity|]. split.
      * exists user. auto.
      * rewrite <- Hid. unfold AuthContext.isAuthenticated. cbn.
        rewrite negb_false_iff, String.eqb_eq. reflexivity.
    + reflexivity.
  - split; [|split; [|split]].
    + split; [discriminate|]. intros (user & Hin & Hu & Hp). exfalso. apply (F user Hin). auto.
    + intros _. split; [reflexivity|]. split; reflexivity.
    + discriminate.
    + cbn. now rewrite app_nil_r.
Qed.

(** ** The inventory table *)












(** X9. While the active index is [-1] or the index of a suggestion, every
    key press and every change of the search box keeps it so.  With the
    suggestions open, ArrowDown or ArrowUp moves the index onto a suggestion,
    so that Enter afterwards selects that suggestion. *)
Theorem X9_suggestion_index (inventoryData : InventoryData) (key : InventoryTable.Key)
    (st : InventoryTable.State) (R : InventoryTable.indexInRange st) :
  InventoryTable.indexInRange (InventoryTable.handleKeyDown inventoryData key st) /\
  (forall term,
     InventoryTable.indexInRange (InventoryTable.handleSearchChange inventoryData term st)) /\
  (InventoryTable.isSuggestionsOpen st = true -> InventoryTable.suggestions st <> [] ->
   key = InventoryTable.ArrowDown \/ key = InventoryTable.ArrowUp ->
   let st' := InventoryTable.handleKeyDown inventoryData key st in
   exists product,
     InventoryTable.at_index (InventoryTable.suggestions st)
       (InventoryTable.activeSuggestionIndex st') = Some product /\
     InventoryTable.handleKeyDown inventoryData InventoryTable.Enter st' =
       InventoryTable.handleSuggestionClick inventoryData product st').
Proof.
  assert (A : InventoryTable.isSuggestionsOpen st = true ->
              InventoryTable.suggestions st <> [] ->
              key = InventoryTable.ArrowDown \/ key = InventoryTable.ArrowUp ->
              InventoryTable.suggestions (InventoryTable.handleKeyDown inventoryData key st)
                = InventoryTable.suggestions st /\
              InventoryTable.isSuggestionsOpen
                (InventoryTable.handleKeyDown inventoryData key st) = true /\
              0 <= InventoryTable.activeSuggestionIndex
                     (InventoryTable.handleKeyDown inventoryData key st)
                < Z.of_nat (length (InventoryTable.suggestions st))).
  { intros Ho Hs Hk. specialize (R Hs). unfold InventoryTable.handleKeyDown. rewrite Ho.
    destruct (InventoryTable.suggestions st) as [|p l] eqn:Sg; [contradiction|].
    cbn [negb orb length Nat.eqb].
    set (n := Z.of_nat (S (length l))) in *.
    assert (Hn : 0 < n) by (unfold n; lia).
    destruct Hk as [-> | ->]; cbn [InventoryTable.suggestions
      InventoryTable.isSuggestionsOpen InventoryTable.activeSuggestionIndex];
      (split; [reflexivity|]); (split; [reflexivity|]).
    - pose proof (Z.rem_bound_pos (InventoryTable.activeSuggestionIndex st + 1) n). lia.
    - destruct (Z.eq_dec n 1) as [N1|N1].
      + rewrite N1, Z.rem_1_r. lia.
      + pose proof (Z.rem_bound_pos (InventoryTable.activeSuggestionIndex st - 1 + n) n). lia. }
  split; [|split].
  - unfold InventoryTable.indexInRange in *.
    destruct (InventoryTable.isSuggestionsOpen st) eqn:Ho;
      [|unfold InventoryTable.handleKeyDown; rewrite Ho; exact R].
    destruct (InventoryTable.suggestions st) as [|p l] eqn:Sg;
      [unfold InventoryTable.handleKeyDown; rewrite Ho, Sg; cbn; rewrite Sg; exact R|].
    assert (Hs : p :: l <> []) by discriminate.
    destruct key.
    + destruct (A eq_refl Hs (or_introl eq_refl)) as (E1 & _ & E2). rewrite E1. intros _. lia.
    + destruct (A eq_refl Hs (or_intror eq_refl)) as (E1 & _ & E2). rewrite E1. intros _. lia.
    + unfold InventoryTable.handleKeyDown. rewrite Ho, Sg. cbn [negb orb length Nat.eqb].
      destruct (0 <=? _); [|rewrite Sg; exact R].
      destruct (InventoryTable.at_index _ _); [|rewrite Sg; exact R].
      cbn. intros C. contradiction.
    + unfold InventoryTable.handleKeyDown. rewrite Ho, Sg. cbn. intros C. contradiction.
    + unfold InventoryTable.handleKeyDown. rewrite Ho, Sg. cbn. rewrite Sg. exact R.
  - intros term. unfold InventoryTable.indexInRange, InventoryTable.handleSearchChange.
    destruct (Nat.ltb 0 (String.length term)); cbn.
    + intros Hs. split; [lia|].
      destruct (InventoryTable.generateSuggestions _ _ _); [contradiction|]. simpl. lia.
    + intros C. contradiction.
  - intros Ho Hs Hk st'. destruct (A Ho Hs Hk) as (E1 & E2 & E3). fold st' in E1, E2, E3.
    assert (exists product, InventoryTable.at_index (InventoryTable.suggestions st)
              (InventoryTable.activeSuggestionIndex st') = Some product) as [product P].
    { unfold InventoryTable.at_index.
      destruct (InventoryTable.activeSuggestionIndex st' <? 0) eqn:N; [lia|].
      destruct (nth_error _ _) eqn:Q; [eauto|].
      apply nth_error_None in Q. lia. }
    exists product. split; [exact P|].
    unfold InventoryTable.handleKeyDown at 1. rewrite E2, E1.
    destruct (InventoryTable.suggestions st) as [|p l]; [contradiction|].
    cbn [negb orb length Nat.eqb].
    destruct (0 <=? InventoryTable.activeSuggestionIndex st') eqn:N; [|lia].
    now rewrite P.
Qed.

Lemma X9_suggestion_index_witness :
  InventoryTable.indexInRange
    (InventoryTable.mkState "sh" [] [Samples.shampoo; Samples.tinte] true (-1)) /\
  InventoryTable.indexInRange
    (InventoryTable.handleKeyDown [] InventoryTable.ArrowUp
       (InventoryTable.mkState "sh" [] [Samples.shampoo; Samples.tinte] true (-1))).
Proof.
  assert (R : InventoryTable.indexInRange
    (InventoryTable.mkState "sh" [] [Samples.shampoo; Samples.tinte] true (-1))).
  { intros _. simpl. lia. }
  split; [exact R|].
  exact (proj1 (X9_suggestion_index [] InventoryTable.ArrowUp _ R)).
Defined.

(** ** The counter of the low-stock page *)











(** Two rows of the sample store are low on stock; a search narrows the
    listing but not the counter. *)
Example low_stock_count_samples :
  LowStockCount.totalProductsInitiallyLowStock Samples.inventory ["Main Store"] = 2 /\
  length (LowStock.rows (LowStock.lowStockProductsByBrand Samples.codeUnitCompare
            Samples.inventory true ["Main Store"] "")) = 2%nat /\
  length (LowStock.rows (LowStock.lowStockProductsByBrand Samples.codeUnitCompare
            Samples.inventory true ["Main Store"] "crema")) = 1%nat.
Proof. vm_compute. repeat split. Qed.

(** ** The total of a posted sale *)






(** ** The supplier entry: stock and catalogue *)

Section EntryEffects.
Variable fails : nat -> bool.
Variables entry_id date_time : string.

Lemma bind_inr {A B : Type} (m : SupplierEntryPhp.M A) (k : A -> SupplierEntryPhp.M B)
    pdo b pdo' :
  SupplierEntryPhp.bind m k pdo = (inr b, pdo') ->
  exists a pdo1, m pdo = (inr a, pdo1) /\ k a pdo1 = (inr b, pdo').
Proof.
  unfold SupplierEntryPhp.bind. destruct (m pdo) as [[e|a] pdo1]; [discriminate|]. eauto.
Qed.

Lemma execute_inr {A : Type}
    (statement : SupplierEntryPhp.Database -> A * SupplierEntryPhp.Database) pdo a pdo' :
  SupplierEntryPhp.execute fails statement pdo = (inr a, pdo') ->
  a = fst (statement (SupplierEntryPhp.working pdo)) /\
  SupplierEntryPhp.working pdo' = snd (statement (SupplierEntryPhp.working pdo)).
Proof.
  unfold SupplierEntryPhp.execute.
  destruct (fails (SupplierEntryPhp.executed pdo)); [discriminate|].
  destruct (statement (SupplierEntryPhp.working pdo)) as [a' db].
  intros [= <- <-]. auto.
Qed.

Lemma select_inr {A : Type} (q : SupplierEntryPhp.Database -> A) pdo a pdo' :
  SupplierEntryPhp.select fails q pdo = (inr a, pdo') ->
  a = q (SupplierEntryPhp.working pdo) /\
  SupplierEntryPhp.working pdo' = SupplierEntryPhp.working pdo.
Proof. intros H. apply execute_inr in H. exact H. Qed.

Lemma update_inr (f : SupplierEntryPhp.Database -> SupplierEntryPhp.Database) pdo a pdo' :
  SupplierEntryPhp.update fails f pdo = (inr a, pdo') ->
  SupplierEntryPhp.working pdo' = f (SupplierEntryPhp.working pdo).
Proof. intros H. apply execute_inr in H. exact (proj2 H). Qed.

Lemma stock_key_eqb (b b' : string) (pid pos_id : Z) :
  (String.eqb b b' && (pid =? pos_id))%bool = true <-> (b, pos_id) = (b', pid).
Proof.
  rewrite andb_true_iff, String.eqb_eq, Z.eqb_eq.
  split; [intros [-> ->]|intros [= -> ->]]; auto.
Qed.

(** What one line of the payload does, when it is processed. *)
Lemma processProduct_inr pos_id line pdo out pdo' :
  SupplierEntryPhp.processProduct fails entry_id pos_id line pdo = (inr out, pdo') ->
  let b := SupplierEntryPhp.php_trim (SupplierEntryPhp.pd_barcode line) in
  let q := default 0 (SupplierEntryPhp.pd_quantity line) in
  SupplierEntryPhp.invalidProduct line = false /\
  SupplierEntryPhp.out_barcode out = b /\
  SupplierEntryPhp.out_quantity out = q /\
  (forall b' pid,
     SupplierEntryStock.stockQuantity (SupplierEntryPhp.working pdo') b' pid =
     SupplierEntryStock.stockQuantity (SupplierEntryPhp.working pdo) b' pid +
     (if (String.eqb b b' && (pid =? pos_id))%bool then q else 0)) /\
  (forall b',
     SupplierEntryStock.catalogPrice (SupplierEntryPhp.working pdo') b' =
     match SupplierEntryStock.catalogPrice (SupplierEntryPhp.working pdo) b' with
     | Some p => Some p
     | None => if String.eqb b b' then Some (SupplierEntryStock.firstPrice line) else None
     end).
Proof.
  intros H b q. unfold SupplierEntryPhp.processProduct in H.
  destruct (SupplierEntryPhp.invalidProduct line) eqn:V; [discriminate|].
  apply bind_inr in H. destruct H as (existing_product & pdo1 & H1 & H).
  apply select_inr in H1. destruct H1 as [E1 W1].
  apply bind_inr in H. destruct H as (u2 & pdo2 & H2 & H).
  apply bind_inr in H. destruct H as (u3 & pdo3 & H3 & H).
  apply update_inr in H3.
  apply bind_inr in H. destruct H as (existing_stock_item & pdo4 & H4 & H).
  apply select_inr in H4. destruct H4 as [E4 W4].
  apply bind_inr in H. destruct H as (u5 & pdo5 & H5 & H).
  injection H as <- <-.
  split; [reflexivity|]. split; [reflexivity|]. split; [reflexivity|].
  (* the stock table is touched by the last statement only *)
  assert (S3 : SupplierEntryPhp.inventory_stock (SupplierEntryPhp.working pdo4) =
               SupplierEntryPhp.inventory_stock (SupplierEntryPhp.working pdo)).
  { rewrite W4, H3. cbn. rewrite <- W1.
    destruct existing_product as [existing|].
    - match type of H2 with context [if ?c then _ else _] => destruct c end.
      + apply update_inr in H2. now rewrite H2.
      + now injection H2 as _ <-.
    - apply update_inr in H2. now rewrite H2. }
  (* the catalogue is touched by the second statement only *)
  assert (P5 : SupplierEntryPhp.products (SupplierEntryPhp.working pdo5) =
               SupplierEntryPhp.products (SupplierEntryPhp.working pdo2)).
  { transitivity (SupplierEntryPhp.products (SupplierEntryPhp.working pdo4)).
    - destruct existing_stock_item; apply update_inr in H5; now rewrite H5.
    - now rewrite W4, H3. }
  split.
  - intros b' pid. unfold SupplierEntryStock.stockQuantity.
    rewrite <- W4 in E4. rewrite <- S3. fold b in E4.
    destruct existing_stock_item as [item|]; apply update_inr in H5; rewrite H5; cbn;
      fold b; fold q.
    + destruct (String.eqb b b' && (pid =? pos_id))%bool eqn:C.
      * apply stock_key_eqb in C. injection C as <- <-. rewrite lookup_insert_eq, <- E4. reflexivity.
      * rewrite lookup_insert_ne; [lia|]. intros C'. apply stock_key_eqb in C'. congruence.
    + destruct (String.eqb b b' && (pid =? pos_id))%bool eqn:C.
      * apply stock_key_eqb in C. injection C as <- <-. rewrite lookup_insert_eq, <- E4. cbn. lia.
      * rewrite lookup_insert_ne; [lia|]. intros C'. apply stock_key_eqb in C'. congruence.
  - intros b'. unfold SupplierEntryStock.catalogPrice. rewrite P5. fold b in E1.
    rewrite <- W1 in E1 |- *.
    destruct existing_product as [existing|].
    + assert (T : forall row,
        SupplierEntryPhp.default_selling_price row
          = SupplierEntryPhp.default_selling_price existing ->
        option_map SupplierEntryPhp.default_selling_price
          (<[b := row]> (SupplierEntryPhp.products (SupplierEntryPhp.working pdo1)) !! b')
        = match option_map SupplierEntryPhp.default_selling_price
                  (SupplierEntryPhp.products (SupplierEntryPhp.working pdo1) !! b') with
          | Some p => Some p
          | None => if String.eqb b b' then Some (SupplierEntryStock.firstPrice line)
                    else None
          end).
      { intros row Hrow. destruct (String.eqb b b') eqn:C.
        - apply String.eqb_eq in C. subst b'. rewrite lookup_insert_eq, <- E1. cbn.
          now rewrite Hrow.
        - apply String.eqb_neq in C. rewrite lookup_insert_ne by exact C.
          now destruct (_ !! b'). }
      match type of H2 with context [if ?c then _ else _] => destruct c end.
      * apply update_inr in H2. rewrite H2. cbn. fold b. now apply T.
      * injection H2 as _ <-.
        destruct (String.eqb b b') eqn:C.
        -- apply String.eqb_eq in C. subst b'. now rewrite <- E1.
        -- now destruct (_ !! b').
    + apply update_inr in H2. rewrite H2. cbn. fold b.
      destruct (String.eqb b b') eqn:C.
      * apply String.eqb_eq in C. subst b'. rewrite lookup_insert_eq, <- E1. reflexivity.
      * apply String.eqb_neq in C. rewrite lookup_insert_ne by exact C.
        now destruct (_ !! b').
Qed.


Lemma received_cons barcode line lines :
  SupplierEntryStock.received barcode (line :: lines) =
  (if String.eqb (SupplierEntryPhp.php_trim (SupplierEntryPhp.pd_barcode line)) barcode
   then default 0 (SupplierEntryPhp.pd_quantity line) else 0)
  + SupplierEntryStock.received barcode lines.
Proof. reflexivity. Qed.

Lemma forEach_processProduct_inr pos_id lines pdo outs pdo' :
  SupplierEntryPhp.forEach (SupplierEntryPhp.processProduct fails entry_id pos_id)
    lines pdo = (inr outs, pdo') ->
  Forall (fun line => SupplierEntryPhp.invalidProduct line = false) lines /\
  map SupplierEntryPhp.out_barcode outs =
    map (fun line => SupplierEntryPhp.php_trim (SupplierEntryPhp.pd_barcode line)) lines /\
  map SupplierEntryPhp.out_quantity outs =
    map (fun line => default 0 (SupplierEntryPhp.pd_quantity line)) lines /\
  (forall b' pid,
     SupplierEntryStock.stockQuantity (SupplierEntryPhp.working pdo') b' pid =
     SupplierEntryStock.stockQuantity (SupplierEntryPhp.working pdo) b' pid +
     (if pid =? pos_id then SupplierEntryStock.received b' lines else 0)) /\
  (forall b',
     SupplierEntryStock.catalogPrice (SupplierEntryPhp.working pdo') b' =
     match SupplierEntryStock.catalogPrice (SupplierEntryPhp.working pdo) b' with
     | Some p => Some p
     | None => option_map SupplierEntryStock.firstPrice
                 (SupplierEntryStock.firstLine b' lines)
     end).
Proof.
  revert pdo outs. induction lines as [|line lines IH]; intros pdo outs H.
  - injection H as <- <-. split; [constructor|]. split; [reflexivity|].
    split; [reflexivity|]. split.
    + intros b' pid. change (SupplierEntryStock.received b' []) with 0.
      destruct (pid =? pos_id); lia.
    + intros b'. simpl. now destruct (SupplierEntryStock.catalogPrice _ _).
  - cbn [SupplierEntryPhp.forEach] in H.
    apply bind_inr in H. destruct H as (out & pdo1 & H1 & H).
    apply bind_inr in H. destruct H as (outs' & pdo2 & H2 & H).
    injection H as <- <-.
    apply processProduct_inr in H1. destruct H1 as (V & B & Q & St & Cat).
    apply IH in H2. destruct H2 as (Vs & Bs & Qs & Sts & Cats).
    split; [now constructor|]. split; [cbn; now rewrite B, Bs|].
    split; [cbn; now rewrite Q, Qs|]. split.
    + intros b' pid. rewrite Sts, St, received_cons.
      destruct (pid =? pos_id); rewrite ?andb_true_r, ?andb_false_r;
        [destruct (String.eqb _ b')|]; lia.
    + intros b'. rewrite Cats, Cat. cbn [SupplierEntryStock.firstLine List.find].
      destruct (SupplierEntryStock.catalogPrice (SupplierEntryPhp.working pdo) b');
        [reflexivity|].
      now destruct (String.eqb _ b').
Qed.

(** A request answered with 201: the point of sale was found, every line
    was processed, and the result was committed. *)
Lemma add_supplier_entry_created input pdo response pdo' :
  SupplierEntryPhp.add_supplier_entry fails entry_id date_time (Some input) pdo
    = (response, pdo') ->
  SupplierEntryPhp.status response = 201 ->
  exists pos_id processed pdo1 pdo2,
    SupplierEntryPhp.points_of_sale (SupplierEntryPhp.committed pdo)
      !! SupplierEntryPhp.php_trim (SupplierEntryPhp.in_pointOfSale input) = Some pos_id /\
    SupplierEntryPhp.inventory_stock (SupplierEntryPhp.working pdo1)
      = SupplierEntryPhp.inventory_stock (SupplierEntryPhp.committed pdo) /\
    SupplierEntryPhp.products (SupplierEntryPhp.working pdo1)
      = SupplierEntryPhp.products (SupplierEntryPhp.committed pdo) /\
    SupplierEntryPhp.forEach (SupplierEntryPhp.processProduct fails entry_id pos_id)
      (SupplierEntryPhp.in_products input) pdo1 = (inr processed, pdo2) /\
    SupplierEntryPhp.committed pdo' = SupplierEntryPhp.working pdo2 /\
    SupplierEntryPhp.inTransaction pdo' = false /\
    SupplierEntryPhp.body response = SupplierEntryPhp.EntryBody entry_id date_time processed.
Proof.
  unfold SupplierEntryPhp.add_supplier_entry.
  destruct (_ || _)%bool; [intros [= <- <-]; discriminate|].
  destruct (SupplierEntryPhp.tryBlock _ _ _ _ _) as [[e|processed] pdo2] eqn:T;
    [intros [= <- <-]; discriminate|].
  intros [= <- <-] _. unfold SupplierEntryPhp.tryBlock in T.
  apply bind_inr in T. destruct T as (pos_row & pdoA & HA & T).
  apply select_inr in HA. destruct HA as [EA WA].
  destruct pos_row as [pos_id|]; [|discriminate].
  apply bind_inr in T. destruct T as (user & pdoB & HB & T).
  assert (WB : SupplierEntryPhp.working pdoB = SupplierEntryPhp.working pdoA).
  { destruct (SupplierEntryPhp.php_empty _).
    - now injection HB as _ <-.
    - now apply select_inr in HB. }
  apply bind_inr in T. destruct T as (u & pdo1 & HC & T).
  apply update_inr in HC.
  exists pos_id, processed, pdo1, pdo2.
  split; [now rewrite EA|]. rewrite HC, WB, WA. cbn. auto 10.
Qed.

End EntryEffects.





(** X14. When the endpoint answers 201, the catalogue price
    ([default_selling_price]) of every product that existed before the
    request is unchanged; a barcode that was not in the catalogue gets the
    selling price of the first line that names it, or 1.5 times that line's
    purchase price when it gives none, and stays absent when no line names
    it. *)
Theorem X14_catalogue_price (fails : nat -> bool) (entry_id date_time : string)
    (input : SupplierEntryPhp.InputData) (pdo : SupplierEntryPhp.Pdo)
    (response : SupplierEntryPhp.Response) (pdo' : SupplierEntryPhp.Pdo)
    (Run : SupplierEntryPhp.add_supplier_entry fails entry_id date_time (Some input) pdo
             = (response, pdo'))
    (Created : SupplierEntryPhp.status response = 201) :
  forall barcode,
    SupplierEntryStock.catalogPrice (SupplierEntryPhp.committed pdo') barcode =
    match SupplierEntryStock.catalogPrice (SupplierEntryPhp.committed pdo) barcode with
    | Some p => Some p
    | None => option_map SupplierEntryStock.firstPrice
                (SupplierEntryStock.firstLine barcode (SupplierEntryPhp.in_products input))
    end.
Proof.
  destruct (add_supplier_entry_created _ _ _ _ _ _ _ Run Created)
    as (pos_id & processed & pdo1 & pdo2 & _ & _ & P1 & Each & C & _).
  intros barcode.
  apply forEach_processProduct_inr in Each. destruct Each as (_ & _ & _ & _ & Cat).
  rewrite C, Cat. unfold SupplierEntryStock.catalogPrice. now rewrite P1.
Qed.

Lemma X14_catalogue_price_witness :
  SupplierEntryPhp.status (fst SupplierEntrySamples.twoLines) = 201 /\
  SupplierEntryStock.catalogPrice
    (SupplierEntryPhp.committed (snd SupplierEntrySamples.twoLines)) "7710" =
  match SupplierEntryStock.catalogPrice
          (SupplierEntryPhp.committed (SupplierEntryPhp.connect PhpSamples.db0)) "7710" with
  | Some p => Some p
  | None => option_map SupplierEntryStock.firstPrice
              (SupplierEntryStock.firstLine "7710"
                 (SupplierEntryPhp.in_products SupplierEntrySamples.twoLinesRequest))
  end.
Proof.
  assert (Created : SupplierEntryPhp.status (fst SupplierEntrySamples.twoLines) = 201)
    by (vm_compute; reflexivity).
  split; [exact Created|].
  apply (X14_catalogue_price PhpSamples.noFailure "supplier-1" "2024-05-01 10:00:00"
           SupplierEntrySamples.twoLinesRequest (SupplierEntryPhp.connect PhpSamples.db0)
           (fst SupplierEntrySamples.twoLines) (snd SupplierEntrySamples.twoLines));
    [apply surjective_pairing|exact Created].
Defined.

(** Two lines of six units for one barcode leave twelve units in stock, and
    the new product is priced by its first line. *)
Example supplier_entry_two_lines :
  SupplierEntryStock.stockQuantity
    (SupplierEntryPhp.committed (snd SupplierEntrySamples.twoLines)) "7710" 1 = 12 /\
  SupplierEntryStock.catalogPrice
    (SupplierEntryPhp.committed (snd SupplierEntrySamples.twoLines)) "7710" = Some (9 # 1).
Proof. split; vm_compute; reflexivity. Qed.

(** ** Saving and loading the invoices and the cash-desk settings *)

Section StorageRoundTrip.
Context {Invoice Settings : Type}.
Variable parseInvoices : string -> option (list Invoice).
Variable stringifyInvoices : list Invoice -> string.
Variable parseSettings : string -> option Settings.
Variable stringifySettings : Settings -> string.
Variable defaultSettings : Settings.


End StorageRoundTrip.


(** ** The cash desk *)







(** ** The product-descriptions page *)














(** ** The product selector of the chart page *)




(** ** The sales breakdown: daily sales per product *)








(** ** Registering and editing invoices *)

Section InvoiceSubmit.
Variable getTime : string -> option Z.
Variable now : Z.
Variables formattedDate newId : string.

Lemma byInvoiceDateDesc_total a b :
  0 < Invoices.byInvoiceDateDesc getTime a b -> Invoices.byInvoiceDateDesc getTime b a <= 0.
Proof.
  unfold Invoices.byInvoiceDateDesc.
  destruct (getTime (Invoices.invoiceDate (Invoices.values b))),
           (getTime (Invoices.invoiceDate (Invoices.values a))); lia.
Qed.

Lemma invoices_sorted l :
  (forall inv, In inv l ->
     getTime (Invoices.invoiceDate (Invoices.values inv)) <> None) ->
  Sorted (fun a b => Invoices.time getTime b <= Invoices.time getTime a)
         (JsArray.sortBy (Invoices.byInvoiceDateDesc getTime) l).
Proof.
  intros Valid.
  assert (V : forall inv, In inv (JsArray.sortBy (Invoices.byInvoiceDateDesc getTime) l) ->
                getTime (Invoices.invoiceDate (Invoices.values inv)) <> None).
  { intros inv Hin. apply Valid. now apply sort_In in Hin. }
  pose proof (sortBy_sorted (Invoices.byInvoiceDateDesc getTime) l byInvoiceDateDesc_total)
    as S.
  induction S as [|a l' S IH Hd]; [constructor|].
  constructor.
  - apply IH. intros inv Hin. apply V. now right.
  - destruct Hd as [|b l'' Hab]; constructor.
    unfold Invoices.byInvoiceDateDesc, Invoices.time in *.
    pose proof (V a (or_introl eq_refl)) as Va.
    pose proof (V b (or_intror (or_introl eq_refl))) as Vb.
    destruct (getTime (Invoices.invoiceDate (Invoices.values b))); [|congruence].
    destruct (getTime (Invoices.invoiceDate (Invoices.values a))); [|congruence].
    cbn. lia.
Qed.

(** X21. Submitting the invoice form, when every invoice date parses.
    Without an invoice being edited the new invoice is added to the stored
    ones; when the edited invoice exists, it alone is replaced: it keeps its
    id and registration date, takes the values of the form and the date of
    the modification, and its notes are the form's notes after the edit
    note. In both cases the invoices end up ordered from the newest invoice
    date to the oldest and the form leaves the edit mode. When the edited
    invoice no longer exists, nothing changes and no toast is shown. *)
Theorem X21_invoice_submit (editing : option string) (data : Invoices.InvoiceFormValues)
    (prev : list Invoices.InvoiceRecord)
    (DataDate : getTime (Invoices.invoiceDate data) <> None)
    (PrevDates : forall inv, In inv prev ->
       getTime (Invoices.invoiceDate (Invoices.values inv)) <> None) :
  let outcome := Invoices.onSubmit getTime now formattedDate newId editing data prev in
  let after := Invoices.invoices outcome in
  let newestFirst :=
    Sorted (fun a b => Invoices.time getTime b <= Invoices.time getTime a) in
  ((editing = None \/ editing = Some "") ->
   Permutation after (Invoices.mkInvoiceRecord newId now None data :: prev) /\
   newestFirst after /\
   Invoices.editingInvoiceId outcome = None) /\
  (forall i, editing = Some i -> i <> "" ->
   (forall inv, In inv prev -> Invoices.id inv <> i) ->
   after = prev /\ Invoices.editingInvoiceId outcome = editing /\
   Invoices.toastTitle outcome = None) /\
  (forall i, editing = Some i -> i <> "" ->
   (exists inv, In inv prev /\ Invoices.id inv = i) ->
   newestFirst after /\
   Invoices.editingInvoiceId outcome = None /\
   map Invoices.id after ≡ₚ map Invoices.id prev /\
   (forall inv, Invoices.id inv <> i -> (In inv after <-> In inv prev)) /\
   (forall inv, In inv after -> Invoices.id inv = i ->
      (exists original,
         In original prev /\ Invoices.id original = i /\
         Invoices.registrationDate inv = Invoices.registrationDate original) /\
      Invoices.lastModifiedDate inv = Some now /\
      Invoices.invoiceNumber (Invoices.values inv) = Invoices.invoiceNumber data /\
      Invoices.invoiceDate (Invoices.values inv) = Invoices.invoiceDate data /\
      Invoices.totalAmount (Invoices.values inv) = Invoices.totalAmount data /\
      Invoices.status (Invoices.values inv) = Invoices.status data /\
      exists note, Invoices.notes (Invoices.values inv)
                     = (note ++ Invoices.notes data)%string)).
Proof.
  intros outcome after newestFirst. subst after outcome newestFirst.
  split; [|split].
  - intros H.
    assert (E : Invoices.onSubmit getTime now formattedDate newId editing data prev =
      Invoices.mkOutcome
        (JsArray.sortBy (Invoices.byInvoiceDateDesc getTime)
           (Invoices.mkInvoiceRecord newId now None data :: prev))
        None (Some "Factura Registrada"))
      by (destruct H as [->| ->]; reflexivity).
    rewrite E. cbn [Invoices.invoices Invoices.editingInvoiceId].
    split; [apply sort_perm|]. split; [|reflexivity].
    apply invoices_sorted. intros inv [<-|Hin]; [exact DataDate|now apply PrevDates].
  - intros i -> NE Absent. unfold Invoices.onSubmit.
    apply truthy_nonempty in NE. rewrite NE.
    destruct (List.find _ prev) as [original|] eqn:F; [|auto].
    apply find_some in F. destruct F as [Hin E]. apply String.eqb_eq in E.
    now elim (Absent original Hin).
  - intros i -> NE (inv0 & Hin0 & Hid0). unfold Invoices.onSubmit.
    apply truthy_nonempty in NE. rewrite NE.
    destruct (List.find _ prev) as [original|] eqn:F.
    2:{ pose proof (find_none _ _ F inv0 Hin0) as C. cbn in C.
        apply String.eqb_neq in C. contradiction. }
    cbn [Invoices.invoices Invoices.editingInvoiceId].
    set (note := Invoices.editNote formattedDate
                   (Invoices.changedFields data (Invoices.values original))).
    set (edit := fun inv => if String.eqb (Invoices.id inv) i
                            then Invoices.updated now inv data
                                   (note ++ Invoices.notes data)%string
                            else inv).
    assert (P : Permutation
                  (JsArray.sortBy (Invoices.byInvoiceDateDesc getTime) (map edit prev))
                  (map edit prev)) by apply sort_perm.
    assert (Id : forall inv, Invoices.id (edit inv) = Invoices.id inv).
    { intros inv. unfold edit. now destruct (String.eqb _ _). }
    split; [|split; [reflexivity|split; [|split]]].
    + apply invoices_sorted. intros inv Hin. apply in_map_iff in Hin.
      destruct Hin as (inv1 & <- & Hin1). unfold edit.
      destruct (String.eqb (Invoices.id inv1) i); [exact DataDate|now apply PrevDates].
    + rewrite P, map_map. erewrite map_ext; [reflexivity|]. exact Id.
    + intros inv Hid. rewrite P, in_map_iff. split.
      * intros (inv1 & <- & Hin1). unfold edit in *.
        destruct (String.eqb (Invoices.id inv1) i) eqn:E; [|exact Hin1].
        apply String.eqb_eq in E. cbn in Hid. contradiction.
      * intros Hin. exists inv. split; [|exact Hin]. unfold edit.
        apply String.eqb_neq in Hid. now rewrite Hid.
    + intros inv Hin Hid. rewrite P in Hin. apply in_map_iff in Hin.
      destruct Hin as (inv1 & <- & Hin1). rewrite Id in Hid. unfold edit.
      apply String.eqb_eq in Hid. rewrite Hid. cbn.
      split; [exists inv1; apply String.eqb_eq in Hid; auto|].
      repeat (split; [reflexivity|]). now exists note.
Qed.

End InvoiceSubmit.

Lemma X21_invoice_submit_witness :
  let outcome :=
    Invoices.onSubmit InvoiceSamples.getTime 1706800000000 "01/02/2024 15:06" "invoice-2"
      None (InvoiceSamples.form "F-002" "2024-02-01") InvoiceSamples.stored in
  InvoiceSamples.getTime (Invoices.invoiceDate (InvoiceSamples.form "F-002" "2024-02-01"))
    <> None /\
  (forall inv, In inv InvoiceSamples.stored ->
     InvoiceSamples.getTime (Invoices.invoiceDate (Invoices.values inv)) <> None) /\
  Permutation (Invoices.invoices outcome)
    (Invoices.mkInvoiceRecord "invoice-2" 1706800000000 None
       (InvoiceSamples.form "F-002" "2024-02-01") :: InvoiceSamples.stored) /\
  Sorted (fun a b => Invoices.time InvoiceSamples.getTime b
                     <= Invoices.time InvoiceSamples.getTime a)
         (Invoices.invoices outcome) /\
  Invoices.editingInvoiceId outcome = None.
Proof.
  intros outcome.
  assert (DataDate : InvoiceSamples.getTime
            (Invoices.invoiceDate (InvoiceSamples.form "F-002" "2024-02-01")) <> None)
    by (vm_compute; discriminate).
  assert (PrevDates : forall inv, In inv InvoiceSamples.stored ->
            InvoiceSamples.getTime (Invoices.invoiceDate (Invoices.values inv)) <> None)
    by (intros inv [<-|[]]; vm_compute; discriminate).
  split; [exact DataDate|]. split; [exact PrevDates|].
  exact (proj1 (X21_invoice_submit InvoiceSamples.getTime 1706800000000 "01/02/2024 15:06"
                  "invoice-2" None (InvoiceSamples.form "F-002" "2024-02-01")
                  InvoiceSamples.stored DataDate PrevDates)
               (or_introl eq_refl)).
Defined.
